(** * Task service of offer-hub: task records, on-chain registration, ratings

    A shallow embedding of [backend/src/services/task.service.ts].

    The two operations of [TaskService] that write, [createTaskRecord] and
    [updateTaskRating], are sequences of awaited calls to two collaborators:
    the Supabase/PostgREST store and the blockchain [TaskRecordService].
    They are embedded as programs over a small command signature ([Cmd]);
    a handler ([handle]) gives the commands a meaning on an explicit world
    (the two tables, a clock, the log of issued commands).  What the
    collaborators may answer beyond what the tables determine (a failing
    store request, a registrar that throws) is supplied by an environment
    ([Env]) over which the theorems quantify. *)

From Stdlib Require Import String Ascii List ZArith Bool Lia.
From Stdlib Require Import Sorted Permutation.
Import ListNotations.
Open Scope string_scope.
Open Scope Z_scope.

Set Implicit Arguments.

(** ** JavaScript strings

    A string is a sequence of code units; the model keeps the code units
    below 256.  [String.prototype.trim] strips white space and line
    terminators from both ends; below 256 these are TAB, LF, VT, FF, CR,
    SP and NBSP. *)

Definition isWhiteSpace (c : ascii) : bool :=
  match nat_of_ascii c with
  | 9%nat | 10%nat | 11%nat | 12%nat | 13%nat | 32%nat | 160%nat => true
  | _ => false
  end.

Fixpoint trimStart (s : string) : string :=
  match s with
  | EmptyString => EmptyString
  | String c rest => if isWhiteSpace c then trimStart rest else s
  end.

Fixpoint trimEnd (s : string) : string :=
  match s with
  | EmptyString => EmptyString
  | String c rest =>
      match trimEnd rest with
      | EmptyString => if isWhiteSpace c then EmptyString else String c EmptyString
      | kept => String c kept
      end
  end.

Definition trim (s : string) : string := trimEnd (trimStart s).

(** Truthiness of a string value: only the empty string is falsy. *)
Definition truthy (s : string) : bool := negb (String.eqb s EmptyString).

Fixpoint allWhiteSpace (s : string) : bool :=
  match s with
  | EmptyString => true
  | String c rest => isWhiteSpace c && allWhiteSpace rest
  end.

(** ** Rows, payloads and errors *)

(** The declaration of [BlockchainTaskResult] is in [@/types/task.types];
    the service only copies [taskId] into the row. *)
Definition TaskId : Type := Z.

Record BlockchainTaskResult : Type := {
  transactionHash : string;
  taskId : TaskId
}.

Module Project.
(** A row of table [projects], with the columns the service reads or
    writes. *)
Record t : Type := {
  id : string;
  client_id : string;
  status : string;
  title : string;
  updated_at : string
}.

(** The object returned by [select("id, client_id, status, title")]. *)
Record selected : Type := {
  sel_id : string;
  sel_client_id : string;
  sel_status : string;
  sel_title : string
}.

Definition select_columns (p : t) : selected :=
  {| sel_id := id p; sel_client_id := client_id p;
     sel_status := status p; sel_title := title p |}.

(** The object passed to [update] at lines 121-124. *)
Record patch : Type := {
  set_status : string;
  set_updated_at : string
}.

Definition apply (u : patch) (p : t) : t :=
  {| id := id p; client_id := client_id p; status := set_status u;
     title := title p; updated_at := set_updated_at u |}.
End Project.

Module TaskRecord.
(** A row of table [task_records]; [None] is SQL [NULL]. *)
Record t : Type := {
  id : string;
  project_id : string;
  freelancer_id : string;
  client_id : string;
  completed : bool;
  outcome_description : option string;
  on_chain_tx_hash : option string;
  on_chain_task_id : option TaskId;
  rating : option Z;
  rating_comment : option string;
  created_at : string;
  updated_at : string
}.

(** The object passed to [insert] at lines 99-107; a property whose value
    is [undefined] is [None] and leaves the column at its default. *)
Record fields : Type := {
  ins_project_id : string;
  ins_freelancer_id : string;
  ins_client_id : string;
  ins_completed : bool;
  ins_outcome_description : option string;
  ins_on_chain_tx_hash : option string;
  ins_on_chain_task_id : option TaskId
}.

(** [updateData] of lines 235-243.  [set_rating_comment] is [None] when
    the property is absent, [Some None] for an explicit [null]. *)
Record patch : Type := {
  set_rating : Z;
  set_rating_comment : option (option string);
  set_updated_at : string
}.

Definition apply (u : patch) (r : t) : t :=
  {| id := id r; project_id := project_id r;
     freelancer_id := freelancer_id r; client_id := client_id r;
     completed := completed r;
     outcome_description := outcome_description r;
     on_chain_tx_hash := on_chain_tx_hash r;
     on_chain_task_id := on_chain_task_id r;
     rating := Some (set_rating u);
     rating_comment :=
       match set_rating_comment u with
       | Some c => c
       | None => rating_comment r
       end;
     created_at := created_at r;
     updated_at := set_updated_at u |}.
End TaskRecord.

Module CreateTaskRecordDTO.
(** The request object.  Line 26 destructures the four named properties;
    [other_properties] stands for whatever else the object carries. *)
Record t : Type := {
  project_id : string;
  freelancer_id : string;
  completed : bool;
  outcome_description : option string;
  other_properties : list (string * string)
}.
End CreateTaskRecordDTO.

Module UpdateTaskRatingDTO.
(** [comment] is [None] when the property is [undefined]. *)
Record t : Type := {
  rating : Z;
  comment : option string
}.
End UpdateTaskRatingDTO.

Module RecordTaskInput.
(** The argument of [blockchainService.recordTask], lines 72-78. *)
Record t : Type := {
  project_id : string;
  freelancer_id : string;
  client_id : string;
  completed : bool;
  outcome_description : string
}.
End RecordTaskInput.

(** The error object of a Supabase response. *)
Record PostgrestError : Type := {
  code : string;
  message : string
}.

Module Response.
(** [{ data, error }] as returned by an awaited query; [None] is [null]. *)
Record t (A : Type) : Type := {
  data : option A;
  error : option PostgrestError
}.
End Response.

(** The error classes of [@/utils/AppError].  [AppError] carries its status
    code; the service only ever passes 500, the spec's InternalError. *)
Inductive Exception : Type :=
| NotFoundError (msg : string)
| ValidationError (msg : string)
| AuthorizationError (msg : string)
| ConflictError (msg : string)
| AppError (msg : string) (statusCode : Z).

(** What the service writes with [console.error]. *)
Inductive LogEntry : Type :=
| AttemptFailed (retryCount : Z) (thrown : string)   (* line 82 *)
| GaveUp (maxRetries : Z)                            (* line 86 *)
| ProjectUpdateFailed (msg : string).                (* line 128 *)

(** ** Commands and programs *)

Inductive Cmd : Type :=
| SelectProject (id : string)
    (* from("projects").select("id, client_id, status, title").eq("id", id).single() *)
| SelectTaskIdByProject (project_id : string)
    (* from("task_records").select("id").eq("project_id", project_id).single() *)
| RecordTask (input : RecordTaskInput.t)
    (* blockchainService.recordTask(input), inside try/catch *)
| ConsoleError (entry : LogEntry)
| SetTimeout (ms : Z)
    (* await new Promise(resolve => setTimeout(resolve, ms)) *)
| NewDateISO
    (* new Date().toISOString() *)
| InsertTask (row : TaskRecord.fields)
    (* from("task_records").insert([row]).select().single() *)
| UpdateProject (id : string) (u : Project.patch)
    (* from("projects").update(u).eq("id", id) *)
| SelectTaskById (id : string)
    (* from("task_records").select("*").eq("id", id).single() *)
| UpdateTask (id : string) (u : TaskRecord.patch).
    (* from("task_records").update(u).eq("id", id).select().single() *)

Definition Reply (c : Cmd) : Type :=
  match c with
  | SelectProject _ => Response.t Project.selected
  | SelectTaskIdByProject _ => Response.t string
  | RecordTask _ => (string + BlockchainTaskResult)%type
  | ConsoleError _ => unit
  | SetTimeout _ => unit
  | NewDateISO => string
  | InsertTask _ => Response.t TaskRecord.t
  | UpdateProject _ _ => Response.t unit
  | SelectTaskById _ => Response.t TaskRecord.t
  | UpdateTask _ _ => Response.t TaskRecord.t
  end.

(** A program returns, throws, issues a command and continues with its
    reply, or has used up the budget of a loop ([Spin]). *)
Inductive Prog (A : Type) : Type :=
| Ret (a : A)
| Throw (e : Exception)
| Spin
| Call (c : Cmd) (k : Reply c -> Prog A).

Arguments Ret {A} a.
Arguments Throw {A} e.
Arguments Spin {A}.
Arguments Call {A} c k.

Fixpoint bind {A B : Type} (p : Prog A) (f : A -> Prog B) : Prog B :=
  match p with
  | Ret a => f a
  | Throw e => Throw e
  | Spin => Spin
  | Call c k => Call c (fun r => bind (k r) f)
  end.

Definition call (c : Cmd) : Prog (Reply c) := Call c (fun r => Ret r).

Definition throwIf (b : bool) (e : Exception) : Prog unit :=
  if b then Throw e else Ret tt.

Declare Scope prog_scope.
Delimit Scope prog_scope with prog.
Notation "x <- p ;; q" := (bind p (fun x => q))
  (at level 61, p at next level, right associativity) : prog_scope.
Notation "p ;; q" := (bind p (fun _ => q))
  (at level 61, right associativity) : prog_scope.
Open Scope prog_scope.

(** ** The service

    [maxRetries] is the constant of line 67. *)
Definition maxRetries : Z := 3.

(** The [while] loop of lines 70-93 from the loop test on, with the current
    [retryCount]; the result is the final [blockchainResult] ([None] is
    [null]).  [budget] bounds the number of iterations of the model only:
    [retryLoop_within_budget] shows that [maxRetries] iterations are never
    exceeded. *)
Fixpoint retryLoop (budget : nat) (input : RecordTaskInput.t) (retryCount : Z)
  : Prog (option BlockchainTaskResult) :=
  match budget with
  | O => Spin
  | S budget' =>
      if retryCount <? maxRetries then
        attempt <- call (RecordTask input) ;;
        match attempt with
        | inr result => Ret (Some result)
        | inl thrown =>
            let retryCount := retryCount + 1 in
            call (ConsoleError (AttemptFailed retryCount thrown)) ;;
            if retryCount >=? maxRetries then
              call (ConsoleError (GaveUp maxRetries)) ;;
              Ret None
            else
              call (SetTimeout (2 ^ retryCount * 1000)) ;;
              retryLoop budget' input retryCount
        end
      else Ret None
  end.

(** [outcome_description || ''] of line 77. *)
Definition orEmpty (s : option string) : string :=
  match s with
  | Some v => if truthy v then v else EmptyString
  | None => EmptyString
  end.

(** Lines 25-133.  The result is the value of [taskRecord] at line 132;
    [None] is [null]. *)
Definition createTaskRecord (data : CreateTaskRecordDTO.t) (clientId : string)
  : Prog (option TaskRecord.t) :=
  let project_id := CreateTaskRecordDTO.project_id data in
  let freelancer_id := CreateTaskRecordDTO.freelancer_id data in
  let completed := CreateTaskRecordDTO.completed data in
  let outcome_description := CreateTaskRecordDTO.outcome_description data in
  found <- call (SelectProject project_id) ;;
  project <- match Response.error found, Response.data found with
             | None, Some project => Ret project
             | _, _ => Throw (NotFoundError "Project not found")
             end ;;
  throwIf (negb (String.eqb (Project.sel_status project) "in_progress"))
    (ValidationError
       ("Project must be in 'in_progress' status to record task outcome. Current status: "
          ++ Project.sel_status project)) ;;
  throwIf (negb (String.eqb (Project.sel_client_id project) clientId))
    (AuthorizationError "Only the project client can record task outcomes") ;;
  existing <- call (SelectTaskIdByProject project_id) ;;
  throwIf (match Response.data existing with Some _ => true | None => false end)
    (ConflictError "Task record already exists for this project") ;;
  match Response.error existing with
  | Some existingError =>
      throwIf (negb (String.eqb (code existingError) "PGRST116"))
        (AppError ("Database error checking existing records: "
                     ++ message existingError) 500)
  | None => Ret tt
  end ;;
  blockchainResult <-
    retryLoop (Z.to_nat maxRetries)
      {| RecordTaskInput.project_id := project_id;
         RecordTaskInput.freelancer_id := freelancer_id;
         RecordTaskInput.client_id := clientId;
         RecordTaskInput.completed := completed;
         RecordTaskInput.outcome_description := orEmpty outcome_description |}
      0 ;;
  inserted <-
    call (InsertTask
            {| TaskRecord.ins_project_id := project_id;
               TaskRecord.ins_freelancer_id := freelancer_id;
               TaskRecord.ins_client_id := clientId;
               TaskRecord.ins_completed := completed;
               TaskRecord.ins_outcome_description := outcome_description;
               TaskRecord.ins_on_chain_tx_hash :=
                 option_map transactionHash blockchainResult;
               TaskRecord.ins_on_chain_task_id :=
                 option_map taskId blockchainResult |}) ;;
  match Response.error inserted with
  | Some insertError =>
      Throw (AppError ("Failed to create task record: " ++ message insertError) 500)
  | None => Ret tt
  end ;;
  let newProjectStatus := if completed then "completed" else "cancelled" in
  now <- call NewDateISO ;;
  updated <- call (UpdateProject project_id
                     {| Project.set_status := newProjectStatus;
                        Project.set_updated_at := now |}) ;;
  match Response.error updated with
  | Some updateError =>
      call (ConsoleError
              (ProjectUpdateFailed
                 ("Failed to update project status: " ++ message updateError)))
  | None => Ret tt
  end ;;
  Ret (Response.data inserted).

(** [updateData.rating_comment] of line 242, for a [comment] that is not
    [undefined]. *)
Definition normalizeComment (comment : string) : option string :=
  if truthy comment && (0 <? Z.of_nat (String.length (trim comment)))
  then Some (trim comment) else None.

(** Lines 202-257. *)
Definition updateTaskRating (recordId : string) (data : UpdateTaskRatingDTO.t)
    (clientId : string) : Prog (option TaskRecord.t) :=
  let rating := UpdateTaskRatingDTO.rating data in
  let comment := UpdateTaskRatingDTO.comment data in
  fetched <- call (SelectTaskById recordId) ;;
  taskRecord <- match Response.error fetched, Response.data fetched with
                | None, Some taskRecord => Ret taskRecord
                | Some fetchError, _ =>
                    if String.eqb (code fetchError) "PGRST116"
                    then Throw (NotFoundError "Task record not found")
                    else Throw (AppError
                                  ("Database error: "
                                     ++ (if truthy (message fetchError)
                                         then message fetchError
                                         else "Unknown error")) 500)
                | None, None =>
                    Throw (AppError ("Database error: " ++ "Unknown error") 500)
                end ;;
  throwIf (negb (String.eqb (TaskRecord.client_id taskRecord) clientId))
    (AuthorizationError "Only the project client can rate the task") ;;
  throwIf (match TaskRecord.rating taskRecord with Some _ => true | None => false end)
    (ConflictError "Rating has already been set and cannot be changed") ;;
  throwIf (negb (TaskRecord.completed taskRecord))
    (ValidationError "Only completed tasks can be rated") ;;
  now <- call NewDateISO ;;
  let updateData :=
    {| TaskRecord.set_rating := rating;
       TaskRecord.set_rating_comment := option_map normalizeComment comment;
       TaskRecord.set_updated_at := now |} in
  updated <- call (UpdateTask recordId updateData) ;;
  match Response.error updated with
  | Some updateError =>
      Throw (AppError ("Failed to update task rating: " ++ message updateError) 500)
  | None => Ret tt
  end ;;
  Ret (Response.data updated).

(** ** The collaborators

    What the store and the registrar answer.  The store runs a request on
    the tables unless the environment makes that request fail; a failed
    request changes nothing and answers with [data = null] and the error. *)

Record Env : Type := {
  (** the failure, if any, of the n-th request sent to the store *)
  store_fault : nat -> option PostgrestError;
  (** what the n-th call of [recordTask] does: throw ([inl]) or resolve *)
  recordTask : nat -> RecordTaskInput.t -> string + BlockchainTaskResult;
  (** the key the store gives to the n-th row of [task_records] *)
  gen_random_uuid : nat -> string;
  (** the rendering of a time in milliseconds by [Date.prototype.toISOString] *)
  toISOString : Z -> string
}.

Record World : Type := {
  projects : list Project.t;
  task_records : list TaskRecord.t;
  clock : Z;                      (* milliseconds *)
  store_requests : nat;           (* requests sent to the store so far *)
  registrar_calls : nat;          (* calls of [recordTask] so far *)
  trace : list Cmd                (* every command issued so far, oldest first *)
}.

Definition issued (c : Cmd) (w : World) : World :=
  {| projects := projects w; task_records := task_records w;
     clock := clock w; store_requests := store_requests w;
     registrar_calls := registrar_calls w; trace := trace w ++ [c] |}.

Definition requested (c : Cmd) (w : World) : World :=
  {| projects := projects w; task_records := task_records w;
     clock := clock w; store_requests := S (store_requests w);
     registrar_calls := registrar_calls w; trace := trace w ++ [c] |}.

Definition with_projects (ps : list Project.t) (w : World) : World :=
  {| projects := ps; task_records := task_records w;
     clock := clock w; store_requests := store_requests w;
     registrar_calls := registrar_calls w; trace := trace w |}.

Definition with_task_records (rs : list TaskRecord.t) (w : World) : World :=
  {| projects := projects w; task_records := rs;
     clock := clock w; store_requests := store_requests w;
     registrar_calls := registrar_calls w; trace := trace w |}.

(** PostgREST's answer to a request for a single object when the result
    has no row or more than one. *)
Definition notSingular : PostgrestError :=
  {| code := "PGRST116";
     message := "JSON object requested, multiple (or no) rows returned" |}.

Definition succeeded {A : Type} (a : A) : Response.t A :=
  {| Response.data := Some a; Response.error := None |}.

Definition failed {A : Type} (e : PostgrestError) : Response.t A :=
  {| Response.data := None; Response.error := Some e |}.

(** [.single()] *)
Definition single {A : Type} (rows : list A) : Response.t A :=
  match rows with
  | [row] => succeeded row
  | _ => failed notSingular
  end.

Definition projectsWithId (id : string) (w : World) : list Project.t :=
  filter (fun p => String.eqb (Project.id p) id) (projects w).

Definition tasksOfProject (project_id : string) (w : World) : list TaskRecord.t :=
  filter (fun r => String.eqb (TaskRecord.project_id r) project_id) (task_records w).

Definition tasksWithId (id : string) (w : World) : list TaskRecord.t :=
  filter (fun r => String.eqb (TaskRecord.id r) id) (task_records w).

(** The row an insert creates.  The schema is not part of the sources; the
    columns the service does not supply take the usual defaults: a
    generated key, [NULL] for the rating columns, the time of the insert
    for both timestamps. *)
Definition newRow (env : Env) (w : World) (f : TaskRecord.fields) : TaskRecord.t :=
  {| TaskRecord.id := gen_random_uuid env (length (task_records w));
     TaskRecord.project_id := TaskRecord.ins_project_id f;
     TaskRecord.freelancer_id := TaskRecord.ins_freelancer_id f;
     TaskRecord.client_id := TaskRecord.ins_client_id f;
     TaskRecord.completed := TaskRecord.ins_completed f;
     TaskRecord.outcome_description := TaskRecord.ins_outcome_description f;
     TaskRecord.on_chain_tx_hash := TaskRecord.ins_on_chain_tx_hash f;
     TaskRecord.on_chain_task_id := TaskRecord.ins_on_chain_task_id f;
     TaskRecord.rating := None;
     TaskRecord.rating_comment := None;
     TaskRecord.created_at := toISOString env (clock w);
     TaskRecord.updated_at := toISOString env (clock w) |}.

Definition patchProjects (id : string) (u : Project.patch) (ps : list Project.t)
  : list Project.t :=
  map (fun p => if String.eqb (Project.id p) id then Project.apply u p else p) ps.

Definition patchTasks (id : string) (u : TaskRecord.patch) (rs : list TaskRecord.t)
  : list TaskRecord.t :=
  map (fun r => if String.eqb (TaskRecord.id r) id then TaskRecord.apply u r else r) rs.

(** One command: its reply and the world after it.  An update that asks
    for a single object and does not touch exactly one row is rolled back
    by PostgREST. *)
Definition handle (env : Env) (c : Cmd) (w : World) : Reply c * World :=
  match c return Reply c * World with
  | SelectProject id =>
      (match store_fault env (store_requests w) with
       | Some e => failed e
       | None => single (map Project.select_columns (projectsWithId id w))
       end, requested c w)
  | SelectTaskIdByProject project_id =>
      (match store_fault env (store_requests w) with
       | Some e => failed e
       | None => single (map TaskRecord.id (tasksOfProject project_id w))
       end, requested c w)
  | RecordTask input =>
      (recordTask env (registrar_calls w) input,
       {| projects := projects w; task_records := task_records w;
          clock := clock w; store_requests := store_requests w;
          registrar_calls := S (registrar_calls w); trace := trace w ++ [c] |})
  | ConsoleError _ => (tt, issued c w)
  | SetTimeout ms =>
      (tt,
       {| projects := projects w; task_records := task_records w;
          clock := clock w + Z.max 0 ms; store_requests := store_requests w;
          registrar_calls := registrar_calls w; trace := trace w ++ [c] |})
  | NewDateISO => (toISOString env (clock w), issued c w)
  | InsertTask row =>
      match store_fault env (store_requests w) with
      | Some e => (failed e, requested c w)
      | None =>
          (succeeded (newRow env w row),
           with_task_records (task_records w ++ [newRow env w row]) (requested c w))
      end
  | UpdateProject id u =>
      match store_fault env (store_requests w) with
      | Some e => (failed e, requested c w)
      | None =>
          ({| Response.data := None; Response.error := None |},
           with_projects (patchProjects id u (projects w)) (requested c w))
      end
  | SelectTaskById id =>
      (match store_fault env (store_requests w) with
       | Some e => failed e
       | None => single (tasksWithId id w)
       end, requested c w)
  | UpdateTask id u =>
      match store_fault env (store_requests w) with
      | Some e => (failed e, requested c w)
      | None =>
          match tasksWithId id w with
          | [row] =>
              (succeeded (TaskRecord.apply u row),
               with_task_records (patchTasks id u (task_records w)) (requested c w))
          | _ => (failed notSingular, requested c w)
          end
      end
  end.

(** How a program ends. *)
Inductive Outcome (A : Type) : Type :=
| Returned (a : A)
| Thrown (e : Exception)
| Diverged.

Arguments Returned {A} a.
Arguments Thrown {A} e.
Arguments Diverged {A}.

Fixpoint run {A : Type} (env : Env) (p : Prog A) (w : World) : Outcome A * World :=
  match p with
  | Ret a => (Returned a, w)
  | Throw e => (Thrown e, w)
  | Spin => (Diverged, w)
  | Call c k => let (r, w') := handle env c w in run env (k r) w'
  end.

(** The commands a run has issued, given the worlds before and after it. *)
Definition issuedSince (before after : World) : list Cmd :=
  skipn (length (trace before)) (trace after).

Definition isAttemptOrWait (c : Cmd) : bool :=
  match c with
  | RecordTask _ | SetTimeout _ => true
  | _ => false
  end.

(** [Issues P p]: whatever the replies, every command [p] issues
    satisfies [P]. *)
Inductive Issues (P : Cmd -> Prop) {A : Type} : Prog A -> Prop :=
| Issues_Ret (a : A) : Issues P (Ret a)
| Issues_Throw (e : Exception) : Issues P (Throw e)
| Issues_Spin : Issues P Spin
| Issues_Call (c : Cmd) (k : Reply c -> Prog A) :
    P c -> (forall r, Issues P (k r)) -> Issues P (Call c k).

(** The commands of the retry loop: they reach neither table. *)
Definition offStore (c : Cmd) : Prop :=
  match c with
  | RecordTask _ | ConsoleError _ | SetTimeout _ => True
  | _ => False
  end.

(** The commands that leave table [task_records] alone, and the inserts
    made in the name of [clientId]. *)
Definition insertsFor (clientId : string) (c : Cmd) : Prop :=
  match c with
  | InsertTask row => TaskRecord.ins_client_id row = clientId
  | UpdateTask _ _ => False
  | _ => True
  end.

(** The columns of a task record that a rating must leave alone. *)
Definition sameOutsideRating (old new : TaskRecord.t) : Prop :=
  TaskRecord.id new = TaskRecord.id old
  /\ TaskRecord.project_id new = TaskRecord.project_id old
  /\ TaskRecord.freelancer_id new = TaskRecord.freelancer_id old
  /\ TaskRecord.client_id new = TaskRecord.client_id old
  /\ TaskRecord.completed new = TaskRecord.completed old
  /\ TaskRecord.outcome_description new = TaskRecord.outcome_description old
  /\ TaskRecord.on_chain_tx_hash new = TaskRecord.on_chain_tx_hash old
  /\ TaskRecord.on_chain_task_id new = TaskRecord.on_chain_task_id old
  /\ TaskRecord.created_at new = TaskRecord.created_at old.

(** ** The read operations

    [getTaskRecordByProjectId], [getTaskRecordsByClientId] and
    [getTaskRecordsByFreelancerId] send one request each and write nothing;
    they are embedded as functions of the world.  A read counts as a
    request to the store; the trace keeps recording the commands of the
    two writing operations only. *)

Definition asked (w : World) : World :=
  {| projects := projects w; task_records := task_records w;
     clock := clock w; store_requests := S (store_requests w);
     registrar_calls := registrar_calls w; trace := trace w |}.

(** [created_at] values have one fixed-width format, so the order of the
    strings is the order of the instants.  [newerFirst r r'] holds when
    [r] may stand before [r'] in a listing by [created_at], descending. *)
Definition newerFirst (r r' : TaskRecord.t) : bool :=
  String.leb (TaskRecord.created_at r') (TaskRecord.created_at r).

Fixpoint insertNewerFirst (r : TaskRecord.t) (rows : list TaskRecord.t)
  : list TaskRecord.t :=
  match rows with
  | [] => [r]
  | r' :: rest =>
      if newerFirst r r' then r :: rows else r' :: insertNewerFirst r rest
  end.

(** [.order("created_at", { ascending: false })] *)
Definition orderByCreatedAtDesc (rows : list TaskRecord.t) : list TaskRecord.t :=
  fold_right insertNewerFirst [] rows.

Definition tasksOfClient (client_id : string) (w : World) : list TaskRecord.t :=
  filter (fun r => String.eqb (TaskRecord.client_id r) client_id) (task_records w).

Definition tasksOfFreelancer (freelancer_id : string) (w : World) : list TaskRecord.t :=
  filter (fun r => String.eqb (TaskRecord.freelancer_id r) freelancer_id)
    (task_records w).

(** from("task_records").select("*").eq("project_id", project_id).single() *)
Definition selectTaskByProject (env : Env) (project_id : string) (w : World)
  : Response.t TaskRecord.t * World :=
  (match store_fault env (store_requests w) with
   | Some e => failed e
   | None => single (tasksOfProject project_id w)
   end, asked w).

(** from("task_records").select("*").eq("client_id", client_id)
      .order("created_at", { ascending: false }) *)
Definition selectTasksByClient (env : Env) (client_id : string) (w : World)
  : Response.t (list TaskRecord.t) * World :=
  (match store_fault env (store_requests w) with
   | Some e => failed e
   | None => succeeded (orderByCreatedAtDesc (tasksOfClient client_id w))
   end, asked w).

(** from("task_records").select("*").eq("freelancer_id", freelancer_id)
      .order("created_at", { ascending: false }) *)
Definition selectTasksByFreelancer (env : Env) (freelancer_id : string) (w : World)
  : Response.t (list TaskRecord.t) * World :=
  (match store_fault env (store_requests w) with
   | Some e => failed e
   | None => succeeded (orderByCreatedAtDesc (tasksOfFreelancer freelancer_id w))
   end, asked w).

(** Lines 140-155. *)
Definition getTaskRecordByProjectId (env : Env) (projectId : string) (w : World)
  : Outcome (option TaskRecord.t) * World :=
  let (reply, w') := selectTaskByProject env projectId w in
  match Response.error reply with
  | Some error =>
      if String.eqb (code error) "PGRST116"
      then (Returned None, w')
      else (Thrown (AppError ("Database error: " ++ message error) 500), w')
  | None => (Returned (Response.data reply), w')
  end.

(** Lines 162-174.  The result is the value of [taskRecords] at line 173;
    [None] is [null]. *)
Definition getTaskRecordsByClientId (env : Env) (clientId : string) (w : World)
  : Outcome (option (list TaskRecord.t)) * World :=
  let (reply, w') := selectTasksByClient env clientId w in
  match Response.error reply with
  | Some error =>
      (Thrown (AppError ("Database error: " ++ message error) 500), w')
  | None => (Returned (Response.data reply), w')
  end.

(** Lines 181-193. *)
Definition getTaskRecordsByFreelancerId (env : Env) (freelancerId : string)
    (w : World) : Outcome (option (list TaskRecord.t)) * World :=
  let (reply, w') := selectTasksByFreelancer env freelancerId w in
  match Response.error reply with
  | Some error =>
      (Thrown (AppError ("Database error: " ++ message error) 500), w')
  | None => (Returned (Response.data reply), w')
  end.

(** ** Vocabulary of the statements on whole runs *)

(** The object line 72 passes to the registrar, the object line 98 inserts
    and the object line 121 sends to [projects], as [createTaskRecord]
    builds them. *)
Definition registrationOf (data : CreateTaskRecordDTO.t) (clientId : string)
  : RecordTaskInput.t :=
  {| RecordTaskInput.project_id := CreateTaskRecordDTO.project_id data;
     RecordTaskInput.freelancer_id := CreateTaskRecordDTO.freelancer_id data;
     RecordTaskInput.client_id := clientId;
     RecordTaskInput.completed := CreateTaskRecordDTO.completed data;
     RecordTaskInput.outcome_description :=
       orEmpty (CreateTaskRecordDTO.outcome_description data) |}.

Definition insertOf (data : CreateTaskRecordDTO.t) (clientId : string)
    (blockchainResult : option BlockchainTaskResult) : TaskRecord.fields :=
  {| TaskRecord.ins_project_id := CreateTaskRecordDTO.project_id data;
     TaskRecord.ins_freelancer_id := CreateTaskRecordDTO.freelancer_id data;
     TaskRecord.ins_client_id := clientId;
     TaskRecord.ins_completed := CreateTaskRecordDTO.completed data;
     TaskRecord.ins_outcome_description :=
       CreateTaskRecordDTO.outcome_description data;
     TaskRecord.ins_on_chain_tx_hash := option_map transactionHash blockchainResult;
     TaskRecord.ins_on_chain_task_id := option_map taskId blockchainResult |}.

Definition closingOf (data : CreateTaskRecordDTO.t) (now : string) : Project.patch :=
  {| Project.set_status :=
       if CreateTaskRecordDTO.completed data then "completed" else "cancelled";
     Project.set_updated_at := now |}.

(** The world once the project lookup and the duplicate check have been
    answered. *)
Definition afterChecks (project_id : string) (w : World) : World :=
  requested (SelectTaskIdByProject project_id) (requested (SelectProject project_id) w).

(** The record [createTaskRecord] inserts when the loop has ended in world
    [registered] with [blockchainResult], and the worlds after the insert,
    after the update of the project, and after a failed update of the
    project has been logged. *)
Definition recordOf (env : Env) (data : CreateTaskRecordDTO.t) (clientId : string)
    (blockchainResult : option BlockchainTaskResult) (registered : World)
  : TaskRecord.t :=
  newRow env registered (insertOf data clientId blockchainResult).

Definition afterInsert (env : Env) (data : CreateTaskRecordDTO.t) (clientId : string)
    (blockchainResult : option BlockchainTaskResult) (registered : World) : World :=
  with_task_records
    (task_records registered ++ [recordOf env data clientId blockchainResult registered])
    (requested (InsertTask (insertOf data clientId blockchainResult)) registered).

Definition closingAt (env : Env) (data : CreateTaskRecordDTO.t) (registered : World)
  : Project.patch :=
  closingOf data (toISOString env (clock registered)).

Definition afterClose (env : Env) (data : CreateTaskRecordDTO.t) (clientId : string)
    (blockchainResult : option BlockchainTaskResult) (registered : World) : World :=
  with_projects
    (patchProjects (CreateTaskRecordDTO.project_id data)
       (closingAt env data registered) (projects registered))
    (requested
       (UpdateProject (CreateTaskRecordDTO.project_id data)
          (closingAt env data registered))
       (issued NewDateISO (afterInsert env data clientId blockchainResult registered))).

Definition afterFailedClose (env : Env) (data : CreateTaskRecordDTO.t)
    (clientId : string) (blockchainResult : option BlockchainTaskResult)
    (registered : World) (updateError : PostgrestError) : World :=
  issued
    (ConsoleError
       (ProjectUpdateFailed
          ("Failed to update project status: " ++ message updateError)))
    (requested
       (UpdateProject (CreateTaskRecordDTO.project_id data)
          (closingAt env data registered))
       (issued NewDateISO (afterInsert env data clientId blockchainResult registered))).

(** The four checks of lines 28-63 let the request of [clientId] for the
    project row [p] through. *)
Definition passesChecks (env : Env) (w : World) (data : CreateTaskRecordDTO.t)
    (clientId : string) (p : Project.t) : Prop :=
  store_fault env (store_requests w) = None
  /\ projectsWithId (CreateTaskRecordDTO.project_id data) w = [p]
  /\ Project.status p = "in_progress"
  /\ Project.client_id p = clientId
  /\ match store_fault env (S (store_requests w)) with
     | Some existingError => code existingError = "PGRST116"
     | None =>
         forall existing,
           tasksOfProject (CreateTaskRecordDTO.project_id data) w <> [existing]
     end.

(** The ways through [createTaskRecord]: where a run of it from [w] ends,
    and with what. *)
Inductive createPath (env : Env) (w : World) (data : CreateTaskRecordDTO.t)
    (clientId : string) : Outcome (option TaskRecord.t) * World -> Prop :=
| path_lookup_failed (projectError : PostgrestError) :
    store_fault env (store_requests w) = Some projectError ->
    createPath env w data clientId
      (Thrown (NotFoundError "Project not found"),
       requested (SelectProject (CreateTaskRecordDTO.project_id data)) w)
| path_project_missing :
    store_fault env (store_requests w) = None ->
    (forall p, projectsWithId (CreateTaskRecordDTO.project_id data) w <> [p]) ->
    createPath env w data clientId
      (Thrown (NotFoundError "Project not found"),
       requested (SelectProject (CreateTaskRecordDTO.project_id data)) w)
| path_wrong_status (p : Project.t) :
    store_fault env (store_requests w) = None ->
    projectsWithId (CreateTaskRecordDTO.project_id data) w = [p] ->
    Project.status p <> "in_progress" ->
    createPath env w data clientId
      (Thrown (ValidationError
         ("Project must be in 'in_progress' status to record task outcome. Current status: "
            ++ Project.status p)),
       requested (SelectProject (CreateTaskRecordDTO.project_id data)) w)
| path_wrong_requester (p : Project.t) :
    store_fault env (store_requests w) = None ->
    projectsWithId (CreateTaskRecordDTO.project_id data) w = [p] ->
    Project.status p = "in_progress" ->
    Project.client_id p <> clientId ->
    createPath env w data clientId
      (Thrown (AuthorizationError "Only the project client can record task outcomes"),
       requested (SelectProject (CreateTaskRecordDTO.project_id data)) w)
| path_duplicate (p : Project.t) (existing : TaskRecord.t) :
    store_fault env (store_requests w) = None ->
    projectsWithId (CreateTaskRecordDTO.project_id data) w = [p] ->
    Project.status p = "in_progress" ->
    Project.client_id p = clientId ->
    store_fault env (S (store_requests w)) = None ->
    tasksOfProject (CreateTaskRecordDTO.project_id data) w = [existing] ->
    createPath env w data clientId
      (Thrown (ConflictError "Task record already exists for this project"),
       afterChecks (CreateTaskRecordDTO.project_id data) w)
| path_duplicate_check_failed (p : Project.t) (existingError : PostgrestError) :
    store_fault env (store_requests w) = None ->
    projectsWithId (CreateTaskRecordDTO.project_id data) w = [p] ->
    Project.status p = "in_progress" ->
    Project.client_id p = clientId ->
    store_fault env (S (store_requests w)) = Some existingError ->
    code existingError <> "PGRST116" ->
    createPath env w data clientId
      (Thrown (AppError ("Database error checking existing records: "
                           ++ message existingError) 500),
       afterChecks (CreateTaskRecordDTO.project_id data) w)
| path_insert_failed (p : Project.t) (blockchainResult : option BlockchainTaskResult)
    (registered : World) (insertError : PostgrestError) :
    passesChecks env w data clientId p ->
    run env (retryLoop (Z.to_nat maxRetries) (registrationOf data clientId) 0)
      (afterChecks (CreateTaskRecordDTO.project_id data) w)
    = (Returned blockchainResult, registered) ->
    store_fault env (store_requests registered) = Some insertError ->
    createPath env w data clientId
      (Thrown (AppError ("Failed to create task record: " ++ message insertError) 500),
       requested (InsertTask (insertOf data clientId blockchainResult)) registered)
| path_created (p : Project.t) (blockchainResult : option BlockchainTaskResult)
    (registered : World) :
    passesChecks env w data clientId p ->
    run env (retryLoop (Z.to_nat maxRetries) (registrationOf data clientId) 0)
      (afterChecks (CreateTaskRecordDTO.project_id data) w)
    = (Returned blockchainResult, registered) ->
    store_fault env (store_requests registered) = None ->
    store_fault env (S (store_requests registered)) = None ->
    createPath env w data clientId
      (Returned (Some (recordOf env data clientId blockchainResult registered)),
       afterClose env data clientId blockchainResult registered)
| path_created_not_closed (p : Project.t)
    (blockchainResult : option BlockchainTaskResult) (registered : World)
    (updateError : PostgrestError) :
    passesChecks env w data clientId p ->
    run env (retryLoop (Z.to_nat maxRetries) (registrationOf data clientId) 0)
      (afterChecks (CreateTaskRecordDTO.project_id data) w)
    = (Returned blockchainResult, registered) ->
    store_fault env (store_requests registered) = None ->
    store_fault env (S (store_requests registered)) = Some updateError ->
    createPath env w data clientId
      (Returned (Some (recordOf env data clientId blockchainResult registered)),
       afterFailedClose env data clientId blockchainResult registered updateError).


(** [updateData] as [updateTaskRating] builds it in world [w]. *)
Definition updateDataOf (env : Env) (data : UpdateTaskRatingDTO.t) (w : World)
  : TaskRecord.patch :=
  {| TaskRecord.set_rating := UpdateTaskRatingDTO.rating data;
     TaskRecord.set_rating_comment :=
       option_map normalizeComment (UpdateTaskRatingDTO.comment data);
     TaskRecord.set_updated_at := toISOString env (clock w) |}.

(** The three checks of lines 219-232 let [clientId] rate the record. *)
Definition ratable (clientId : string) (taskRecord : TaskRecord.t) : Prop :=
  TaskRecord.client_id taskRecord = clientId
  /\ TaskRecord.rating taskRecord = None
  /\ TaskRecord.completed taskRecord = true.

(** The world in which [updateTaskRating] sends its update. *)
Definition beforeUpdate (recordId : string) (w : World) : World :=
  issued NewDateISO (requested (SelectTaskById recordId) w).

(** The ways through [updateTaskRating]. *)
Inductive ratePath (env : Env) (w : World) (recordId : string)
    (data : UpdateTaskRatingDTO.t) (clientId : string)
  : Outcome (option TaskRecord.t) * World -> Prop :=
| rate_no_rows (fetchError : PostgrestError) :
    store_fault env (store_requests w) = Some fetchError ->
    code fetchError = "PGRST116" ->
    ratePath env w recordId data clientId
      (Thrown (NotFoundError "Task record not found"),
       requested (SelectTaskById recordId) w)
| rate_fetch_failed (fetchError : PostgrestError) :
    store_fault env (store_requests w) = Some fetchError ->
    code fetchError <> "PGRST116" ->
    ratePath env w recordId data clientId
      (Thrown (AppError
         ("Database error: "
            ++ (if truthy (message fetchError) then message fetchError
                else "Unknown error")) 500),
       requested (SelectTaskById recordId) w)
| rate_record_missing :
    store_fault env (store_requests w) = None ->
    (forall taskRecord, tasksWithId recordId w <> [taskRecord]) ->
    ratePath env w recordId data clientId
      (Thrown (NotFoundError "Task record not found"),
       requested (SelectTaskById recordId) w)
| rate_wrong_requester (taskRecord : TaskRecord.t) :
    store_fault env (store_requests w) = None ->
    tasksWithId recordId w = [taskRecord] ->
    TaskRecord.client_id taskRecord <> clientId ->
    ratePath env w recordId data clientId
      (Thrown (AuthorizationError "Only the project client can rate the task"),
       requested (SelectTaskById recordId) w)
| rate_already_rated (taskRecord : TaskRecord.t) :
    store_fault env (store_requests w) = None ->
    tasksWithId recordId w = [taskRecord] ->
    TaskRecord.client_id taskRecord = clientId ->
    TaskRecord.rating taskRecord <> None ->
    ratePath env w recordId data clientId
      (Thrown (ConflictError "Rating has already been set and cannot be changed"),
       requested (SelectTaskById recordId) w)
| rate_not_completed (taskRecord : TaskRecord.t) :
    store_fault env (store_requests w) = None ->
    tasksWithId recordId w = [taskRecord] ->
    TaskRecord.client_id taskRecord = clientId ->
    TaskRecord.rating taskRecord = None ->
    TaskRecord.completed taskRecord = false ->
    ratePath env w recordId data clientId
      (Thrown (ValidationError "Only completed tasks can be rated"),
       requested (SelectTaskById recordId) w)
| rate_update_failed (taskRecord : TaskRecord.t) (updateError : PostgrestError) :
    store_fault env (store_requests w) = None ->
    tasksWithId recordId w = [taskRecord] ->
    ratable clientId taskRecord ->
    store_fault env (S (store_requests w)) = Some updateError ->
    ratePath env w recordId data clientId
      (Thrown (AppError ("Failed to update task rating: " ++ message updateError) 500),
       requested (UpdateTask recordId (updateDataOf env data w))
         (beforeUpdate recordId w))
| rate_done (taskRecord : TaskRecord.t) :
    store_fault env (store_requests w) = None ->
    tasksWithId recordId w = [taskRecord] ->
    ratable clientId taskRecord ->
    store_fault env (S (store_requests w)) = None ->
    ratePath env w recordId data clientId
      (Returned (Some (TaskRecord.apply (updateDataOf env data w) taskRecord)),
       with_task_records
         (patchTasks recordId (updateDataOf env data w) (task_records w))
         (requested (UpdateTask recordId (updateDataOf env data w))
            (beforeUpdate recordId w))).

(** The two tables of [w'] are those of [w]. *)
Definition sameTables (w w' : World) : Prop :=
  projects w' = projects w /\ task_records w' = task_records w.

(** No project has two task records. *)
Definition oneRecordPerProject (w : World) : Prop :=
  forall project_id, (length (tasksOfProject project_id w) <= 1)%nat.

(** ** Sample data

    A small marketplace used by the examples and by the concrete instances
    of the theorems. *)
Module Sample.
Definition t0 : string := "2025-01-01T00:00:00.000Z".

Definition P1 : Project.t :=
  {| Project.id := "P1"; Project.client_id := "C1";
     Project.status := "in_progress"; Project.title := "Logo design";
     Project.updated_at := t0 |}.

Definition P2 : Project.t :=
  {| Project.id := "P2"; Project.client_id := "C1";
     Project.status := "completed"; Project.title := "Landing page";
     Project.updated_at := t0 |}.

Definition P3 : Project.t :=
  {| Project.id := "P3"; Project.client_id := "C1";
     Project.status := "in_progress"; Project.title := "Data import";
     Project.updated_at := t0 |}.

(** the record of [P2]: completed and already rated *)
Definition T2 : TaskRecord.t :=
  {| TaskRecord.id := "T2"; TaskRecord.project_id := "P2";
     TaskRecord.freelancer_id := "F1"; TaskRecord.client_id := "C1";
     TaskRecord.completed := true;
     TaskRecord.outcome_description := Some "Delivered";
     TaskRecord.on_chain_tx_hash := Some "0xa1";
     TaskRecord.on_chain_task_id := Some 11;
     TaskRecord.rating := Some 5;
     TaskRecord.rating_comment := Some "Great work";
     TaskRecord.created_at := t0; TaskRecord.updated_at := t0 |}.

(** a record of [P3], left over while [P3] is still in progress: the
    task was not completed and is not rated *)
Definition T3 : TaskRecord.t :=
  {| TaskRecord.id := "T3"; TaskRecord.project_id := "P3";
     TaskRecord.freelancer_id := "F2"; TaskRecord.client_id := "C1";
     TaskRecord.completed := false;
     TaskRecord.outcome_description := None;
     TaskRecord.on_chain_tx_hash := None;
     TaskRecord.on_chain_task_id := None;
     TaskRecord.rating := None;
     TaskRecord.rating_comment := None;
     TaskRecord.created_at := t0; TaskRecord.updated_at := t0 |}.

(** a completed record that is not rated yet *)
Definition T4 : TaskRecord.t :=
  {| TaskRecord.id := "T4"; TaskRecord.project_id := "P4";
     TaskRecord.freelancer_id := "F1"; TaskRecord.client_id := "C1";
     TaskRecord.completed := true;
     TaskRecord.outcome_description := Some "Shipped";
     TaskRecord.on_chain_tx_hash := None;
     TaskRecord.on_chain_task_id := None;
     TaskRecord.rating := None;
     TaskRecord.rating_comment := Some "draft note";
     TaskRecord.created_at := t0; TaskRecord.updated_at := t0 |}.

Definition world : World :=
  {| projects := [P1; P2; P3]; task_records := [T2; T3; T4];
     clock := 0; store_requests := 0; registrar_calls := 0; trace := [] |}.

Definition uuid (n : nat) : string :=
  String "N" (String (ascii_of_nat (48 + n)) EmptyString).

Definition iso (ms : Z) : string :=
  if ms <? 6000 then "2025-01-01T00:00:00.000Z" else "2025-01-01T00:00:06.000Z".

Definition chainResult : BlockchainTaskResult :=
  {| transactionHash := "0xb7"; taskId := 42 |}.

(** every collaborator works *)
Definition healthy : Env :=
  {| store_fault := fun _ => None;
     recordTask := fun _ _ => inr chainResult;
     gen_random_uuid := uuid; toISOString := iso |}.

(** the registrar throws on every call *)
Definition registrarDown : Env :=
  {| store_fault := fun _ => None;
     recordTask := fun _ _ => inl "ledger unreachable";
     gen_random_uuid := uuid; toISOString := iso |}.

Definition connectionLost : PostgrestError :=
  {| code := "08006"; message := "connection failure" |}.

(** every request to the store fails *)
Definition storeDown : Env :=
  {| store_fault := fun _ => Some connectionLost;
     recordTask := fun _ _ => inr chainResult;
     gen_random_uuid := uuid; toISOString := iso |}.

(** the second request to the store fails, the others work *)
Definition secondRequestFails : Env :=
  {| store_fault := fun n => match n with 1%nat => Some connectionLost | _ => None end;
     recordTask := fun _ _ => inr chainResult;
     gen_random_uuid := uuid; toISOString := iso |}.

Definition request (project_id : string) (completed : bool) : CreateTaskRecordDTO.t :=
  {| CreateTaskRecordDTO.project_id := project_id;
     CreateTaskRecordDTO.freelancer_id := "F1";
     CreateTaskRecordDTO.completed := completed;
     CreateTaskRecordDTO.outcome_description := Some "All milestones met";
     CreateTaskRecordDTO.other_properties := [("client_id", "C9")] |}.

(** what [createTaskRecord (request "P1" true) "C1"] passes to the registrar *)
Definition registration : RecordTaskInput.t :=
  {| RecordTaskInput.project_id := "P1";
     RecordTaskInput.freelancer_id := "F1";
     RecordTaskInput.client_id := "C1";
     RecordTaskInput.completed := true;
     RecordTaskInput.outcome_description := "All milestones met" |}.

Definition rate (rating : Z) (comment : option string) : UpdateTaskRatingDTO.t :=
  {| UpdateTaskRatingDTO.rating := rating; UpdateTaskRatingDTO.comment := comment |}.

(** the world after client C1 has rated T4 with 4 and a padded comment *)
Definition afterRating : World :=
  snd (run healthy (updateTaskRating "T4" (rate 4 (Some "  ok then ")) "C1") world).

(** the world after client C1 has recorded the outcome of P1 *)
Definition afterCreate : World :=
  snd (run healthy (createTaskRecord (request "P1" true) "C1") world).

(** the insert, the third request of [createTaskRecord], fails *)
Definition insertFails : Env :=
  {| store_fault := fun n => match n with 2%nat => Some connectionLost | _ => None end;
     recordTask := fun _ _ => inr chainResult;
     gen_random_uuid := uuid; toISOString := iso |}.

(** the update of the project, the fourth request, fails *)
Definition projectUpdateFails : Env :=
  {| store_fault := fun n => match n with 3%nat => Some connectionLost | _ => None end;
     recordTask := fun _ _ => inr chainResult;
     gen_random_uuid := uuid; toISOString := iso |}.

(** the registrar throws once and then resolves *)
Definition registrarFailsOnce : Env :=
  {| store_fault := fun _ => None;
     recordTask := fun n _ => match n with
                              | O => inl "ledger busy"
                              | _ => inr chainResult
                              end;
     gen_random_uuid := uuid; toISOString := iso |}.

(** a later record of client C1 and freelancer F1 *)
Definition T5 : TaskRecord.t :=
  {| TaskRecord.id := "T5"; TaskRecord.project_id := "P5";
     TaskRecord.freelancer_id := "F1"; TaskRecord.client_id := "C1";
     TaskRecord.completed := true;
     TaskRecord.outcome_description := None;
     TaskRecord.on_chain_tx_hash := None;
     TaskRecord.on_chain_task_id := None;
     TaskRecord.rating := None;
     TaskRecord.rating_comment := None;
     TaskRecord.created_at := "2025-03-01T00:00:00.000Z";
     TaskRecord.updated_at := "2025-03-01T00:00:00.000Z" |}.

(** a record of another client, later still *)
Definition T6 : TaskRecord.t :=
  {| TaskRecord.id := "T6"; TaskRecord.project_id := "P6";
     TaskRecord.freelancer_id := "F2"; TaskRecord.client_id := "C2";
     TaskRecord.completed := true;
     TaskRecord.outcome_description := None;
     TaskRecord.on_chain_tx_hash := None;
     TaskRecord.on_chain_task_id := None;
     TaskRecord.rating := None;
     TaskRecord.rating_comment := None;
     TaskRecord.created_at := "2025-04-01T00:00:00.000Z";
     TaskRecord.updated_at := "2025-04-01T00:00:00.000Z" |}.

Definition history : World :=
  {| projects := [P1; P2; P3]; task_records := [T2; T3; T5; T6; T4];
     clock := 0; store_requests := 0; registrar_calls := 0; trace := [] |}.

(** the world after client C1 has recorded P1 as not completed *)
Definition afterCancel : World :=
  snd (run healthy (createTaskRecord (request "P1" false) "C1") world).
End Sample.

(** * Properties *)

Unset Implicit Arguments.

(** ** Trimming *)

Section Trim.

Lemma trimStart_blank (s : string) :
  allWhiteSpace s = true -> trimStart s = EmptyString.
Proof.
  induction s as [|c rest IH]; simpl; [reflexivity|].
  intros H. apply andb_true_iff in H as [Hc Hrest].
  rewrite Hc. auto.
Qed.

(** [trimStart] removes a prefix of white space. *)
Lemma trimStart_prefix (s : string) :
  exists blank, s = blank ++ trimStart s /\ allWhiteSpace blank = true.
Proof.
  induction s as [|c rest [blank [Heq Hblank]]]; simpl.
  - exists EmptyString. split; reflexivity.
  - destruct (isWhiteSpace c) eqn:Hc.
    + exists (String c blank). simpl. rewrite Hc, Hblank, <- Heq. auto.
    + exists EmptyString. split; reflexivity.
Qed.

(** What [trimStart] leaves does not begin with white space. *)
Lemma trimStart_head (s : string) (c : ascii) (rest : string) :
  trimStart s = String c rest -> isWhiteSpace c = false.
Proof.
  induction s as [|d s' IH]; simpl; [discriminate|].
  destruct (isWhiteSpace d) eqn:Hd; [exact IH|].
  intros H. injection H as -> _. exact Hd.
Qed.

Lemma trimEnd_blank_iff (s : string) :
  trimEnd s = EmptyString <-> allWhiteSpace s = true.
Proof.
  induction s as [|c rest IH]; simpl; [tauto|].
  destruct (trimEnd rest) eqn:Hrest.
  - destruct (isWhiteSpace c); simpl.
    + split; intros _; [apply IH|]; reflexivity.
    + split; discriminate.
  - split; [discriminate|].
    intros H. apply andb_true_iff in H as [_ H].
    apply IH in H. discriminate.
Qed.

(** [trimEnd] removes a suffix of white space. *)
Lemma trimEnd_suffix (s : string) :
  exists blank, s = trimEnd s ++ blank /\ allWhiteSpace blank = true.
Proof.
  induction s as [|c rest [blank [Heq Hblank]]]; simpl.
  - exists EmptyString. split; reflexivity.
  - destruct (trimEnd rest) eqn:Hrest.
    + destruct (isWhiteSpace c) eqn:Hc.
      * exists (String c rest). simpl. rewrite Hc. split; [reflexivity|].
        apply trimEnd_blank_iff. exact Hrest.
      * exists blank. simpl in *. subst blank. auto.
    + exists blank. simpl in *. rewrite <- Heq. auto.
Qed.

(** [trimEnd] keeps the first code unit of a string that does not begin
    with white space. *)
Lemma trimEnd_head (c : ascii) (rest : string) :
  isWhiteSpace c = false ->
  exists kept, trimEnd (String c rest) = String c kept.
Proof.
  intros Hc. simpl. destruct (trimEnd rest); [rewrite Hc|]; eauto.
Qed.

(** What [trimEnd] leaves does not end with white space. *)
Lemma trimEnd_last (s front : string) (c : ascii) :
  trimEnd s = front ++ String c EmptyString -> isWhiteSpace c = false.
Proof.
  revert front. induction s as [|d rest IH]; intros front; simpl.
  - destruct front; discriminate.
  - destruct (trimEnd rest) as [|e kept] eqn:Hrest.
    + destruct (isWhiteSpace d) eqn:Hd.
      * destruct front; discriminate.
      * destruct front as [|f front']; simpl; intros H.
        -- injection H as <-. exact Hd.
        -- injection H as _ H. destruct front'; discriminate.
    + destruct front as [|f front']; simpl; intros H.
      * discriminate.
      * injection H as _ H. exact (IH front' H).
Qed.

(** [trim] cuts white space off both ends and nothing else. *)
Lemma trim_decomposition (s : string) :
  exists before after,
    s = before ++ trim s ++ after
    /\ allWhiteSpace before = true /\ allWhiteSpace after = true.
Proof.
  destruct (trimStart_prefix s) as [before [Hs Hbefore]].
  destruct (trimEnd_suffix (trimStart s)) as [after [Ht Hafter]].
  exists before, after. unfold trim. rewrite <- Ht. auto.
Qed.

Lemma trim_ends (s : string) :
  (forall c rest, trim s = String c rest -> isWhiteSpace c = false)
  /\ (forall front c, trim s = front ++ String c EmptyString -> isWhiteSpace c = false).
Proof.
  unfold trim. split.
  - intros c rest H. destruct (trimStart s) as [|d s'] eqn:Hs; [discriminate|].
    pose proof (trimStart_head s d s' Hs) as Hd.
    destruct (trimEnd_head d s' Hd) as [kept Hk].
    rewrite Hk in H. injection H as -> _. exact Hd.
  - intros front c. apply trimEnd_last.
Qed.

(** A string is blank after trimming exactly when it is all white space. *)
Lemma trim_blank_iff (s : string) :
  trim s = EmptyString <-> allWhiteSpace s = true.
Proof.
  unfold trim. rewrite trimEnd_blank_iff. split.
  - intros H. destruct (trimStart_prefix s) as [blank [Hs Hblank]].
    rewrite Hs. clear Hs. induction blank as [|c b IH]; simpl in *; [exact H|].
    apply andb_true_iff in Hblank as [-> Hb]. auto.
  - intros H. rewrite (trimStart_blank _ H). reflexivity.
Qed.

Lemma normalizeComment_kept (comment : string) :
  trim comment <> EmptyString -> normalizeComment comment = Some (trim comment).
Proof.
  intros H. unfold normalizeComment, truthy.
  destruct comment as [|c rest]; [contradiction H; reflexivity|].
  destruct (trim (String c rest)); [contradiction H; reflexivity|].
  reflexivity.
Qed.

Lemma normalizeComment_blank (comment : string) :
  trim comment = EmptyString -> normalizeComment comment = None.
Proof.
  intros H. unfold normalizeComment. rewrite H. simpl.
  rewrite andb_false_r. reflexivity.
Qed.

End Trim.


(** ** Running programs *)

Section Running.

Variable env : Env.

Lemma run_bind (A B : Type) (p : Prog A) (f : A -> Prog B) (w : World) :
  run env (bind p f) w =
  match run env p w with
  | (Returned a, w') => run env (f a) w'
  | (Thrown e, w') => (Thrown e, w')
  | (Diverged, w') => (Diverged, w')
  end.
Proof.
  revert w. induction p as [a|e| |c k IH]; intros w; simpl; try reflexivity.
  destruct (handle env c w) as [r w']. apply IH.
Qed.

Lemma run_call (A : Type) (c : Cmd) (k : Reply c -> Prog A) (w : World) :
  run env (Call c k) w = run env (k (fst (handle env c w))) (snd (handle env c w)).
Proof. simpl. destruct (handle env c w). reflexivity. Qed.

Lemma run_call_bind (A : Type) (c : Cmd) (f : Reply c -> Prog A) (w : World) :
  run env (bind (call c) f) w =
  run env (f (fst (handle env c w))) (snd (handle env c w)).
Proof. simpl. destruct (handle env c w). reflexivity. Qed.

Lemma run_throwIf_bind (A : Type) (b : bool) (e : Exception) (p : Prog A) (w : World) :
  run env (throwIf b e ;; p) w = if b then (Thrown e, w) else run env p w.
Proof. destruct b; reflexivity. Qed.

Lemma Issues_bind (P : Cmd -> Prop) (A B : Type) (p : Prog A) (f : A -> Prog B) :
  Issues P p -> (forall a, Issues P (f a)) -> Issues P (bind p f).
Proof.
  intros Hp Hf. induction Hp; simpl; try constructor; auto.
Qed.

Lemma Issues_weaken (P Q : Cmd -> Prop) (A : Type) (p : Prog A) :
  (forall c, P c -> Q c) -> Issues P p -> Issues Q p.
Proof.
  intros HPQ Hp. induction Hp; constructor; auto.
Qed.

Lemma Issues_call (P : Cmd -> Prop) (c : Cmd) : P c -> Issues P (call c).
Proof. intros H. constructor; [exact H|]. intros r. constructor. Qed.

Lemma Issues_throwIf (P : Cmd -> Prop) (b : bool) (e : Exception) :
  Issues P (throwIf b e).
Proof. destruct b; constructor. Qed.

(** A property of worlds that every step of a program keeps is kept by the
    program. *)
Lemma run_preserves (P : Cmd -> Prop) (I : World -> Prop) :
  (forall c w, P c -> I w -> I (snd (handle env c w))) ->
  forall (A : Type) (p : Prog A), Issues P p ->
  forall w, I w -> I (snd (run env p w)).
Proof.
  intros Hstep A p Hp. induction Hp as [a|e| |c k Hc Hk IH]; intros w Hw; simpl; auto.
  specialize (Hstep c w Hc Hw).
  destruct (handle env c w) as [r w']. apply IH. exact Hstep.
Qed.

(** Every run only appends to the trace. *)
Lemma run_trace (A : Type) (p : Prog A) (w : World) :
  exists new, trace (snd (run env p w)) = (trace w ++ new)%list.
Proof.
  revert w. induction p as [a|e| |c k IH]; intros w; simpl;
    try (exists []; rewrite app_nil_r; reflexivity).
  assert (Hc : trace (snd (handle env c w)) = (trace w ++ [c])%list).
  { destruct c; simpl; try reflexivity;
      destruct (store_fault env (store_requests w)); try reflexivity.
    destruct (tasksWithId id w) as [|r0 [|r1 l]]; reflexivity. }
  destruct (handle env c w) as [r w']. simpl in Hc.
  destruct (IH r w') as [new Hnew]. exists (c :: new).
  rewrite Hnew, Hc, <- app_assoc. reflexivity.
Qed.

Lemma issuedSince_app (w w' : World) (new : list Cmd) :
  trace w' = (trace w ++ new)%list -> issuedSince w w' = new.
Proof.
  intros H. unfold issuedSince. rewrite H.
  rewrite skipn_app, skipn_all, Nat.sub_diag. reflexivity.
Qed.

End Running.

(** ** The retry loop *)

Section RetryLoop.

Variable env : Env.
Variable input : RecordTaskInput.t.

Lemma retryLoop_offStore (budget : nat) (retryCount : Z) :
  Issues offStore (retryLoop budget input retryCount).
Proof.
  revert retryCount. induction budget as [|budget' IH]; intros retryCount;
    cbn [retryLoop].
  - constructor.
  - destruct (retryCount <? maxRetries); [|constructor].
    apply Issues_bind; [apply Issues_call; exact I|].
    intros [thrown|result]; [|constructor].
    apply Issues_bind; [apply Issues_call; exact I|]. intros _.
    destruct (retryCount + 1 >=? maxRetries).
    + apply Issues_bind; [apply Issues_call; exact I|]. intros _. constructor.
    + apply Issues_bind; [apply Issues_call; exact I|]. intros _. apply IH.
Qed.

(** The loop reaches neither table and sends nothing to the store. *)
Lemma retryLoop_frame (budget : nat) (retryCount : Z) (w : World) :
  let w' := snd (run env (retryLoop budget input retryCount) w) in
  projects w' = projects w /\ task_records w' = task_records w
  /\ store_requests w' = store_requests w.
Proof.
  apply (run_preserves env offStore
           (fun w' => projects w' = projects w /\ task_records w' = task_records w
                      /\ store_requests w' = store_requests w)).
  - intros c w0 Hc Hw0. destruct c; simpl in Hc; try contradiction; exact Hw0.
  - apply retryLoop_offStore.
  - auto.
Qed.

(** The loop never throws, and with a budget that covers the attempts left
    it returns. *)
Lemma retryLoop_within_budget (budget : nat) (retryCount : Z) (w : World) :
  (0 < budget)%nat -> maxRetries - retryCount <= Z.of_nat budget ->
  exists blockchainResult,
    fst (run env (retryLoop budget input retryCount) w) = Returned blockchainResult.
Proof.
  revert retryCount w. induction budget as [|budget' IH]; intros retryCount w Hpos Hle.
  - lia.
  - cbn [retryLoop]. destruct (retryCount <? maxRetries) eqn:Hlt; [|eexists; reflexivity].
    rewrite run_call_bind.
    destruct (fst (handle env (RecordTask input) w)) as [thrown|result];
      [|eexists; reflexivity].
    rewrite run_call_bind.
    destruct (retryCount + 1 >=? maxRetries) eqn:Hge.
    + rewrite run_call_bind. eexists; reflexivity.
    + rewrite run_call_bind. apply IH; unfold maxRetries in *; lia.
Qed.

(** When every call of the registrar throws, the loop makes three attempts,
    waits 2000 ms and 4000 ms between them, and leaves [blockchainResult]
    null. *)
Lemma retryLoop_all_attempts_fail (w : World) :
  (forall n, exists thrown, recordTask env n input = inl thrown) ->
  exists w' new,
    run env (retryLoop (Z.to_nat maxRetries) input 0) w = (Returned None, w')
    /\ registrar_calls w' = (registrar_calls w + 3)%nat
    /\ clock w' = clock w + 2000 + 4000
    /\ trace w' = (trace w ++ new)%list
    /\ filter isAttemptOrWait new =
         [RecordTask input; SetTimeout 2000; RecordTask input;
          SetTimeout 4000; RecordTask input].
Proof.
  intros Hfail.
  destruct (Hfail (registrar_calls w)) as [t1 H1].
  destruct (Hfail (S (registrar_calls w))) as [t2 H2].
  destruct (Hfail (S (S (registrar_calls w)))) as [t3 H3].
  change (Z.to_nat maxRetries) with 3%nat.
  eexists. eexists. split.
  - simpl. rewrite H1. simpl. rewrite H2. simpl. rewrite H3. simpl. reflexivity.
  - cbn. repeat rewrite <- app_assoc. cbn.
    repeat split; try reflexivity; lia.
Qed.

End RetryLoop.

(** ** Termination

    [Spin] marks the exhausted budget of the model's loop; no run of the
    two operations ends there. *)

Lemma run_bind_Diverged (env : Env) (A B : Type) (p : Prog A) (f : A -> Prog B)
    (w : World) :
  fst (run env (bind p f) w) = Diverged ->
  fst (run env p w) = Diverged
  \/ exists a mid, run env p w = (Returned a, mid) /\ fst (run env (f a) mid) = Diverged.
Proof.
  rewrite run_bind. destruct (run env p w) as [[a|e|] mid]; cbn [fst]; intros H.
  - right. exists a, mid. split; [reflexivity|exact H].
  - discriminate.
  - left. reflexivity.
Qed.

Lemma run_call_halts (env : Env) (c : Cmd) (w : World) :
  fst (run env (call c) w) <> Diverged.
Proof. unfold call. rewrite run_call. cbn [run fst]. discriminate. Qed.

Lemma run_throwIf_halts (env : Env) (b : bool) (e : Exception) (w : World) :
  fst (run env (throwIf b e) w) <> Diverged.
Proof. destruct b; cbn; discriminate. Qed.

(** Peels one [bind] off a run assumed to end in [Spin], closing the case
    in which the first part does with [tac]. *)
Ltac peel H tac :=
  apply run_bind_Diverged in H as [H|(? & ? & _ & H)]; [revert H; tac|].

Theorem createTaskRecord_terminates
    (env : Env) (w : World) (data : CreateTaskRecordDTO.t) (clientId : string) :
  fst (run env (createTaskRecord data clientId) w) <> Diverged.
Proof.
  unfold createTaskRecord. intros H.
  peel H ltac:(apply run_call_halts).
  peel H ltac:(destruct (Response.error _); [|destruct (Response.data _)];
               cbn; discriminate).
  peel H ltac:(apply run_throwIf_halts).
  peel H ltac:(apply run_throwIf_halts).
  peel H ltac:(apply run_call_halts).
  peel H ltac:(apply run_throwIf_halts).
  peel H ltac:(destruct (Response.error _);
               [apply run_throwIf_halts|cbn; discriminate]).
  peel H ltac:(idtac).
  { intros H.
    match type of H with
    | fst (run env (retryLoop ?budget ?input ?retryCount) ?w0) = _ =>
        destruct (retryLoop_within_budget env input budget retryCount w0)
          as [blockchainResult Hreturns]; [unfold maxRetries; lia..|]
    end.
    rewrite Hreturns in H. discriminate. }
  peel H ltac:(apply run_call_halts).
  peel H ltac:(destruct (Response.error _); cbn; discriminate).
  peel H ltac:(apply run_call_halts).
  peel H ltac:(apply run_call_halts).
  peel H ltac:(destruct (Response.error _);
               [apply (run_call_halts env (ConsoleError _))|cbn; discriminate]).
  cbn in H. discriminate.
Qed.

Theorem updateTaskRating_terminates
    (env : Env) (w : World) (recordId : string) (data : UpdateTaskRatingDTO.t)
    (clientId : string) :
  fst (run env (updateTaskRating recordId data clientId) w) <> Diverged.
Proof.
  unfold updateTaskRating. intros H.
  peel H ltac:(apply run_call_halts).
  peel H ltac:(destruct (Response.error _) as [fetchError|];
               [destruct (String.eqb (code fetchError) "PGRST116")
               |destruct (Response.data _)];
               cbn; discriminate).
  peel H ltac:(apply run_throwIf_halts).
  peel H ltac:(apply run_throwIf_halts).
  peel H ltac:(apply run_throwIf_halts).
  peel H ltac:(apply run_call_halts).
  peel H ltac:(apply run_call_halts).
  peel H ltac:(destruct (Response.error _); cbn; discriminate).
  cbn in H. discriminate.
Qed.

(** ** createTaskRecord: the checks *)

Lemma eqb_neq_false (a b : string) : a <> b -> String.eqb a b = false.
Proof. intros H. apply String.eqb_neq. exact H. Qed.

(** Runs [createTaskRecord] up to the point where the project row has been
    returned. *)
Ltac project_found Hok Hrow :=
  unfold createTaskRecord;
  rewrite run_call_bind; cbn [handle fst snd];
  rewrite Hok, Hrow;
  cbn [map single succeeded Response.error Response.data];
  rewrite run_bind; cbn [run];
  cbn [Project.select_columns Project.sel_status Project.sel_client_id].

(** Closes the frame conditions of a run whose final world is explicit. *)
Ltac frame :=
  cbn [projects task_records registrar_calls clock trace requested issued
       with_projects with_task_records];
  repeat split; try reflexivity;
  try (apply issuedSince_app; cbn [trace requested issued];
       repeat rewrite <- app_assoc; reflexivity).

(** A project lookup that fails for any reason is reported as
    "Project not found". *)
Lemma createTaskRecord_lookup_failure
    (env : Env) (w : World) (data : CreateTaskRecordDTO.t) (clientId : string)
    (e : PostgrestError) :
  store_fault env (store_requests w) = Some e ->
  fst (run env (createTaskRecord data clientId) w)
  = Thrown (NotFoundError "Project not found").
Proof.
  intros Hfault. unfold createTaskRecord.
  rewrite run_call_bind. cbn [handle fst snd]. rewrite Hfault. reflexivity.
Qed.

(** C4.  For a project that exists and is not in progress, createTaskRecord
    throws a ValidationError whose message ends with the project's status;
    the only command issued is the project lookup, so the registrar is not
    called and neither table changes. *)
Theorem createTaskRecord_rejects_project_not_in_progress
    (env : Env) (w : World) (data : CreateTaskRecordDTO.t) (clientId : string)
    (p : Project.t) :
  store_fault env (store_requests w) = None ->
  projectsWithId (CreateTaskRecordDTO.project_id data) w = [p] ->
  Project.status p <> "in_progress" ->
  exists w',
    run env (createTaskRecord data clientId) w
    = (Thrown (ValidationError
         ("Project must be in 'in_progress' status to record task outcome. Current status: "
            ++ Project.status p)), w')
    /\ projects w' = projects w
    /\ task_records w' = task_records w
    /\ registrar_calls w' = registrar_calls w
    /\ issuedSince w w' = [SelectProject (CreateTaskRecordDTO.project_id data)].
Proof.
  intros Hok Hrow Hstatus. eexists. split.
  - project_found Hok Hrow.
    rewrite run_throwIf_bind, (eqb_neq_false _ _ Hstatus). reflexivity.
  - frame.
Qed.

(** An instance: client C1 asks to record the outcome of P2, which is
    completed. *)
Lemma createTaskRecord_rejects_project_not_in_progress_witness :
  store_fault Sample.healthy (store_requests Sample.world) = None
  /\ projectsWithId "P2" Sample.world = [Sample.P2]
  /\ Project.status Sample.P2 <> "in_progress"
  /\ exists w',
       run Sample.healthy (createTaskRecord (Sample.request "P2" true) "C1") Sample.world
       = (Thrown (ValidationError
            "Project must be in 'in_progress' status to record task outcome. Current status: completed"), w')
       /\ projects w' = projects Sample.world
       /\ task_records w' = task_records Sample.world
       /\ registrar_calls w' = registrar_calls Sample.world
       /\ issuedSince Sample.world w' = [SelectProject "P2"].
Proof.
  assert (H1 : store_fault Sample.healthy (store_requests Sample.world) = None)
    by reflexivity.
  assert (H2 : projectsWithId "P2" Sample.world = [Sample.P2]) by reflexivity.
  assert (H3 : Project.status Sample.P2 <> "in_progress") by discriminate.
  split; [exact H1|]. split; [exact H2|]. split; [exact H3|].
  exact (createTaskRecord_rejects_project_not_in_progress
           Sample.healthy Sample.world (Sample.request "P2" true) "C1" Sample.P2
           H1 H2 H3).
Defined.

(** C6, as the code has it.  For a project that exists and is in progress,
    a requester other than the project's client gets an AuthorizationError;
    the only command issued is the project lookup, so the failure precedes
    every registrar call. *)
Theorem createTaskRecord_rejects_other_requester
    (env : Env) (w : World) (data : CreateTaskRecordDTO.t) (clientId : string)
    (p : Project.t) :
  store_fault env (store_requests w) = None ->
  projectsWithId (CreateTaskRecordDTO.project_id data) w = [p] ->
  Project.status p = "in_progress" ->
  Project.client_id p <> clientId ->
  exists w',
    run env (createTaskRecord data clientId) w
    = (Thrown (AuthorizationError "Only the project client can record task outcomes"), w')
    /\ projects w' = projects w
    /\ task_records w' = task_records w
    /\ registrar_calls w' = registrar_calls w
    /\ issuedSince w w' = [SelectProject (CreateTaskRecordDTO.project_id data)].
Proof.
  intros Hok Hrow Hstatus Hclient. eexists. split.
  - project_found Hok Hrow.
    rewrite run_throwIf_bind, Hstatus. cbn [String.eqb Ascii.eqb Bool.eqb negb].
    rewrite run_throwIf_bind, (eqb_neq_false _ _ Hclient). reflexivity.
  - frame.
Qed.

(** An instance: C7, who is not the client of P1, asks to record its
    outcome. *)
Lemma createTaskRecord_rejects_other_requester_witness :
  store_fault Sample.healthy (store_requests Sample.world) = None
  /\ projectsWithId "P1" Sample.world = [Sample.P1]
  /\ Project.status Sample.P1 = "in_progress"
  /\ Project.client_id Sample.P1 <> "C7"
  /\ exists w',
       run Sample.healthy (createTaskRecord (Sample.request "P1" true) "C7") Sample.world
       = (Thrown (AuthorizationError "Only the project client can record task outcomes"), w')
       /\ projects w' = projects Sample.world
       /\ task_records w' = task_records Sample.world
       /\ registrar_calls w' = registrar_calls Sample.world
       /\ issuedSince Sample.world w' = [SelectProject "P1"].
Proof.
  assert (H1 : store_fault Sample.healthy (store_requests Sample.world) = None)
    by reflexivity.
  assert (H2 : projectsWithId "P1" Sample.world = [Sample.P1]) by reflexivity.
  assert (H3 : Project.status Sample.P1 = "in_progress") by reflexivity.
  assert (H4 : Project.client_id Sample.P1 <> "C7") by discriminate.
  split; [exact H1|]. split; [exact H2|]. split; [exact H3|]. split; [exact H4|].
  exact (createTaskRecord_rejects_other_requester
           Sample.healthy Sample.world (Sample.request "P1" true) "C7" Sample.P1
           H1 H2 H3 H4).
Defined.

(** C6 as stated fails: project P2 exists, the requester C7 is not its
    client, and createTaskRecord throws the ValidationError of the status
    check, not an AuthorizationError. *)
Lemma createTaskRecord_status_checked_before_requester :
  projectsWithId "P2" Sample.world = [Sample.P2]
  /\ Project.client_id Sample.P2 <> "C7"
  /\ fst (run Sample.healthy (createTaskRecord (Sample.request "P2" true) "C7")
            Sample.world)
     = Thrown (ValidationError
         "Project must be in 'in_progress' status to record task outcome. Current status: completed")
  /\ forall msg,
       fst (run Sample.healthy (createTaskRecord (Sample.request "P2" true) "C7")
              Sample.world)
       <> Thrown (AuthorizationError msg).
Proof.
  split; [reflexivity|]. split; [discriminate|]. split; [reflexivity|].
  intros msg. vm_compute. discriminate.
Qed.

(** C7, evaluated.  Project P1 exists, the store loses its connection
    (SQLSTATE 08006, not PGRST116) while it is looked up, and
    createTaskRecord reports "Project not found"; the same failure in the
    lookup of updateTaskRating is reported as an AppError with status
    500. *)
Lemma createTaskRecord_reports_store_failure_as_NotFound :
  projectsWithId "P1" Sample.world = [Sample.P1]
  /\ store_fault Sample.storeDown (store_requests Sample.world)
     = Some Sample.connectionLost
  /\ code Sample.connectionLost <> "PGRST116"
  /\ fst (run Sample.storeDown (createTaskRecord (Sample.request "P1" true) "C1")
            Sample.world)
     = Thrown (NotFoundError "Project not found")
  /\ fst (run Sample.storeDown (updateTaskRating "T4" (Sample.rate 4 None) "C1")
            Sample.world)
     = Thrown (AppError "Database error: connection failure" 500).
Proof.
  split; [reflexivity|]. split; [reflexivity|]. split; [discriminate|].
  split; reflexivity.
Qed.

(** Runs the status and requester checks of a project that passes both. *)
Ltac checks_pass Hstatus Hclient :=
  rewrite run_throwIf_bind, Hstatus;
  cbn [String.eqb Ascii.eqb Bool.eqb negb];
  rewrite run_throwIf_bind, Hclient, String.eqb_refl; cbn [negb].

(** C2, as the code has it.  When the project lookup, the status check and
    the requester check pass: if the store holds exactly one record of the
    project, createTaskRecord throws a ConflictError after the two lookups,
    with no registrar call and no insert, and both tables are as before;
    if instead the duplicate check fails with a code other than PGRST116,
    it throws an AppError with status 500, again without writing. *)
Theorem createTaskRecord_rejects_duplicate
    (env : Env) (w : World) (data : CreateTaskRecordDTO.t) (clientId : string)
    (p : Project.t) :
  store_fault env (store_requests w) = None ->
  projectsWithId (CreateTaskRecordDTO.project_id data) w = [p] ->
  Project.status p = "in_progress" ->
  Project.client_id p = clientId ->
  (forall existing,
      store_fault env (S (store_requests w)) = None ->
      tasksOfProject (CreateTaskRecordDTO.project_id data) w = [existing] ->
      exists w',
        run env (createTaskRecord data clientId) w
        = (Thrown (ConflictError "Task record already exists for this project"), w')
        /\ projects w' = projects w
        /\ task_records w' = task_records w
        /\ registrar_calls w' = registrar_calls w
        /\ issuedSince w w'
           = [SelectProject (CreateTaskRecordDTO.project_id data);
              SelectTaskIdByProject (CreateTaskRecordDTO.project_id data)])
  /\ (forall existingError,
      store_fault env (S (store_requests w)) = Some existingError ->
      code existingError <> "PGRST116" ->
      exists w',
        run env (createTaskRecord data clientId) w
        = (Thrown (AppError ("Database error checking existing records: "
                               ++ message existingError) 500), w')
        /\ projects w' = projects w
        /\ task_records w' = task_records w
        /\ registrar_calls w' = registrar_calls w
        /\ issuedSince w w'
           = [SelectProject (CreateTaskRecordDTO.project_id data);
              SelectTaskIdByProject (CreateTaskRecordDTO.project_id data)]).
Proof.
  intros Hok Hrow Hstatus Hclient. split.
  - intros existing Hok2 Hdup. eexists. split.
    + project_found Hok Hrow. checks_pass Hstatus Hclient.
      rewrite run_call_bind. cbn [handle fst snd requested store_requests].
      unfold tasksOfProject in *. cbn [task_records requested].
      rewrite Hok2, Hdup. reflexivity.
    + frame.
  - intros existingError Hfault Hcode. eexists. split.
    + project_found Hok Hrow. checks_pass Hstatus Hclient.
      rewrite run_call_bind. cbn [handle fst snd requested store_requests].
      rewrite Hfault. cbn [failed Response.data Response.error].
      rewrite run_throwIf_bind. rewrite run_bind.
      rewrite (eqb_neq_false _ _ Hcode). reflexivity.
    + frame.
Qed.

(** Two instances: P3 already has record T3; and the duplicate check for
    P1 loses its connection to the store. *)
Lemma createTaskRecord_rejects_duplicate_witness :
  (projectsWithId "P3" Sample.world = [Sample.P3]
   /\ tasksOfProject "P3" Sample.world = [Sample.T3]
   /\ exists w',
        run Sample.healthy (createTaskRecord (Sample.request "P3" true) "C1") Sample.world
        = (Thrown (ConflictError "Task record already exists for this project"), w')
        /\ projects w' = projects Sample.world
        /\ task_records w' = task_records Sample.world
        /\ registrar_calls w' = registrar_calls Sample.world
        /\ issuedSince Sample.world w'
           = [SelectProject "P3"; SelectTaskIdByProject "P3"])
  /\ (store_fault Sample.secondRequestFails 1 = Some Sample.connectionLost
      /\ exists w',
        run Sample.secondRequestFails
          (createTaskRecord (Sample.request "P1" true) "C1") Sample.world
        = (Thrown (AppError
             "Database error checking existing records: connection failure" 500), w')
        /\ projects w' = projects Sample.world
        /\ task_records w' = task_records Sample.world
        /\ registrar_calls w' = registrar_calls Sample.world
        /\ issuedSince Sample.world w'
           = [SelectProject "P1"; SelectTaskIdByProject "P1"]).
Proof.
  split.
  - split; [reflexivity|]. split; [reflexivity|].
    apply (proj1 (createTaskRecord_rejects_duplicate
                    Sample.healthy Sample.world (Sample.request "P3" true) "C1"
                    Sample.P3 eq_refl eq_refl eq_refl eq_refl) Sample.T3);
      reflexivity.
  - split; [reflexivity|].
    apply (proj2 (createTaskRecord_rejects_duplicate
                    Sample.secondRequestFails Sample.world
                    (Sample.request "P1" true) "C1"
                    Sample.P1 eq_refl eq_refl eq_refl eq_refl) Sample.connectionLost);
      [reflexivity|discriminate].
Defined.

(** C2 as stated fails.  The first createTaskRecord for P1 succeeds and
    leaves one record of P1 in the store and P1 completed; the second call,
    by the same client, throws the ValidationError of the status check, not
    a ConflictError. *)
Lemma createTaskRecord_twice_is_ValidationError :
  (exists taskRecord,
      run Sample.healthy (createTaskRecord (Sample.request "P1" true) "C1") Sample.world
      = (Returned (Some taskRecord), Sample.afterCreate)
      /\ tasksOfProject "P1" Sample.afterCreate = [taskRecord])
  /\ fst (run Sample.healthy (createTaskRecord (Sample.request "P1" true) "C1")
            Sample.afterCreate)
     = Thrown (ValidationError
         "Project must be in 'in_progress' status to record task outcome. Current status: completed")
  /\ (forall msg,
        fst (run Sample.healthy (createTaskRecord (Sample.request "P1" true) "C1")
               Sample.afterCreate)
        <> Thrown (ConflictError msg)).
Proof.
  split; [eexists; split; reflexivity|].
  split; [reflexivity|].
  intros msg. vm_compute. discriminate.
Qed.

(** ** createTaskRecord: registration, insert and project update *)

(** Once the checks have passed and the loop has returned, an insert that
    the store accepts makes createTaskRecord return the inserted row,
    whether the update of the project then fails or not; nothing after the
    loop calls the registrar or waits. *)
Lemma createTaskRecord_after_checks
    (env : Env) (w : World) (data : CreateTaskRecordDTO.t) (clientId : string)
    (p : Project.t) :
  store_fault env (store_requests w) = None ->
  projectsWithId (CreateTaskRecordDTO.project_id data) w = [p] ->
  Project.status p = "in_progress" ->
  Project.client_id p = clientId ->
  store_fault env (S (store_requests w)) = None ->
  tasksOfProject (CreateTaskRecordDTO.project_id data) w = [] ->
  store_fault env (S (S (store_requests w))) = None ->
  let input :=
    {| RecordTaskInput.project_id := CreateTaskRecordDTO.project_id data;
       RecordTaskInput.freelancer_id := CreateTaskRecordDTO.freelancer_id data;
       RecordTaskInput.client_id := clientId;
       RecordTaskInput.completed := CreateTaskRecordDTO.completed data;
       RecordTaskInput.outcome_description :=
         orEmpty (CreateTaskRecordDTO.outcome_description data) |} in
  let checked :=
    requested (SelectTaskIdByProject (CreateTaskRecordDTO.project_id data))
      (requested (SelectProject (CreateTaskRecordDTO.project_id data)) w) in
  forall blockchainResult registered,
    run env (retryLoop (Z.to_nat maxRetries) input 0) checked
    = (Returned blockchainResult, registered) ->
    exists taskRecord w' rest,
      run env (createTaskRecord data clientId) w = (Returned (Some taskRecord), w')
      /\ task_records w' = (task_records w ++ [taskRecord])%list
      /\ TaskRecord.client_id taskRecord = clientId
      /\ TaskRecord.on_chain_tx_hash taskRecord
         = option_map transactionHash blockchainResult
      /\ TaskRecord.on_chain_task_id taskRecord = option_map taskId blockchainResult
      /\ registrar_calls w' = registrar_calls registered
      /\ clock w' = clock registered
      /\ trace w' = (trace registered ++ rest)%list
      /\ filter isAttemptOrWait rest = [].
Proof.
  intros Hok Hrow Hstatus Hclient Hok2 Hdup Hok3 input checked
         blockchainResult registered Hloop.
  pose proof (retryLoop_frame env input (Z.to_nat maxRetries) 0 checked) as Hframe.
  rewrite Hloop in Hframe. cbn [snd] in Hframe.
  destruct Hframe as (Hprojects & Htasks & Hrequests).
  destruct (store_fault env (S (S (S (store_requests w))))) as [updateError|] eqn:Hupdate;
    eexists; eexists; eexists;
    (split;
     [ project_found Hok Hrow; checks_pass Hstatus Hclient;
       rewrite run_call_bind; cbn [handle fst snd requested store_requests];
       unfold tasksOfProject in *; cbn [task_records requested];
       rewrite Hok2, Hdup;
       cbn [map single failed succeeded Response.data Response.error];
       rewrite run_throwIf_bind; rewrite run_bind;
       cbn [notSingular code String.eqb Ascii.eqb Bool.eqb negb throwIf run];
       rewrite run_bind; fold input; fold checked;
       rewrite Hloop;
       rewrite run_call_bind; cbn [handle fst snd];
       rewrite Hrequests; cbn [checked requested store_requests]; rewrite Hok3;
       cbn [fst snd succeeded Response.data Response.error];
       rewrite run_bind; cbn [run]; rewrite run_call_bind; cbn [handle fst snd];
       rewrite run_call_bind; cbn [handle fst snd];
       cbn [with_task_records requested issued store_requests];
       rewrite Hrequests; cbn [checked requested store_requests];
       rewrite Hupdate;
       cbn [fst snd failed Response.data Response.error];
       rewrite run_bind; try rewrite run_call_bind; cbn [handle fst snd run];
       reflexivity
     | cbn [projects task_records registrar_calls clock trace requested issued
            with_projects with_task_records newRow TaskRecord.client_id
            TaskRecord.on_chain_tx_hash TaskRecord.on_chain_task_id
            TaskRecord.ins_client_id TaskRecord.ins_on_chain_tx_hash
            TaskRecord.ins_on_chain_task_id];
       rewrite Htasks; repeat rewrite <- app_assoc;
       repeat split; reflexivity ]).
Qed.

(** C1.  When the checks pass and the insert succeeds, createTaskRecord
    returns the record it has persisted whatever the registrar does.  If
    every call of the registrar throws, the registrar has been called
    three times, with waits of 2000 ms and 4000 ms before the second and
    the third call, and the record's on-chain columns are null. *)
Theorem createTaskRecord_survives_registrar_failure
    (env : Env) (w : World) (data : CreateTaskRecordDTO.t) (clientId : string)
    (p : Project.t) :
  store_fault env (store_requests w) = None ->
  projectsWithId (CreateTaskRecordDTO.project_id data) w = [p] ->
  Project.status p = "in_progress" ->
  Project.client_id p = clientId ->
  store_fault env (S (store_requests w)) = None ->
  tasksOfProject (CreateTaskRecordDTO.project_id data) w = [] ->
  store_fault env (S (S (store_requests w))) = None ->
  let input :=
    {| RecordTaskInput.project_id := CreateTaskRecordDTO.project_id data;
       RecordTaskInput.freelancer_id := CreateTaskRecordDTO.freelancer_id data;
       RecordTaskInput.client_id := clientId;
       RecordTaskInput.completed := CreateTaskRecordDTO.completed data;
       RecordTaskInput.outcome_description :=
         orEmpty (CreateTaskRecordDTO.outcome_description data) |} in
  exists taskRecord w',
    run env (createTaskRecord data clientId) w = (Returned (Some taskRecord), w')
    /\ task_records w' = (task_records w ++ [taskRecord])%list
    /\ ((forall n i, exists thrown, recordTask env n i = inl thrown) ->
        TaskRecord.on_chain_tx_hash taskRecord = None
        /\ TaskRecord.on_chain_task_id taskRecord = None
        /\ registrar_calls w' = (registrar_calls w + 3)%nat
        /\ clock w' = clock w + 2000 + 4000
        /\ filter isAttemptOrWait (issuedSince w w')
           = [RecordTask input; SetTimeout 2000; RecordTask input;
              SetTimeout 4000; RecordTask input]).
Proof.
  intros Hok Hrow Hstatus Hclient Hok2 Hdup Hok3 input.
  set (checked :=
         requested (SelectTaskIdByProject (CreateTaskRecordDTO.project_id data))
           (requested (SelectProject (CreateTaskRecordDTO.project_id data)) w)).
  destruct (retryLoop_within_budget env input (Z.to_nat maxRetries) 0 checked)
    as [blockchainResult Hreturns]; [unfold maxRetries; lia..|].
  destruct (run env (retryLoop (Z.to_nat maxRetries) input 0) checked)
    as [outcome registered] eqn:Hloop.
  cbn [fst] in Hreturns. subst outcome.
  destruct (createTaskRecord_after_checks env w data clientId p
              Hok Hrow Hstatus Hclient Hok2 Hdup Hok3 blockchainResult registered Hloop)
    as (taskRecord & w' & rest & Hrun & Htasks & _ & Htx & Hid & Hcalls & Hclock
        & Htrace & Hrest).
  exists taskRecord, w'. split; [exact Hrun|]. split; [exact Htasks|].
  intros Hfail.
  destruct (retryLoop_all_attempts_fail env input checked (fun n => Hfail n input))
    as (registered' & new & Hloop' & Hcalls' & Hclock' & Htrace' & Hnew).
  fold checked in Hloop. rewrite Hloop in Hloop'.
  injection Hloop' as -> <-.
  rewrite Htx, Hid, Hcalls, Hclock, Hcalls', Hclock'.
  repeat split.
  rewrite (issuedSince_app w w'
             ([SelectProject (CreateTaskRecordDTO.project_id data);
               SelectTaskIdByProject (CreateTaskRecordDTO.project_id data)]
                ++ new ++ rest)).
  - cbn [app filter isAttemptOrWait]. rewrite filter_app, Hnew, Hrest.
    reflexivity.
  - rewrite Htrace, Htrace'. cbn [checked trace requested].
    repeat rewrite <- app_assoc. reflexivity.
Qed.

(** An instance: the outcome of P1 is recorded while the ledger is
    unreachable. *)
Lemma createTaskRecord_survives_registrar_failure_witness :
  projectsWithId "P1" Sample.world = [Sample.P1]
  /\ tasksOfProject "P1" Sample.world = []
  /\ (forall n i, exists thrown, recordTask Sample.registrarDown n i = inl thrown)
  /\ exists taskRecord w',
       run Sample.registrarDown (createTaskRecord (Sample.request "P1" true) "C1")
         Sample.world
       = (Returned (Some taskRecord), w')
       /\ task_records w' = (task_records Sample.world ++ [taskRecord])%list
       /\ TaskRecord.on_chain_tx_hash taskRecord = None
       /\ TaskRecord.on_chain_task_id taskRecord = None
       /\ registrar_calls w' = 3%nat
       /\ clock w' = 6000
       /\ filter isAttemptOrWait (issuedSince Sample.world w')
          = [RecordTask Sample.registration; SetTimeout 2000;
             RecordTask Sample.registration; SetTimeout 4000;
             RecordTask Sample.registration].
Proof.
  assert (Hdown : forall n i, exists thrown,
               recordTask Sample.registrarDown n i = inl thrown).
  { intros n i. exists "ledger unreachable". reflexivity. }
  split; [reflexivity|]. split; [reflexivity|]. split; [exact Hdown|].
  destruct (createTaskRecord_survives_registrar_failure
              Sample.registrarDown Sample.world (Sample.request "P1" true) "C1"
              Sample.P1 eq_refl eq_refl eq_refl eq_refl eq_refl eq_refl eq_refl)
    as (taskRecord & w' & Hrun & Htasks & Hfail).
  destruct (Hfail Hdown) as (Htx & Hid & Hcalls & Hclock & Htrace).
  exists taskRecord, w'.
  split; [exact Hrun|]. split; [exact Htasks|]. split; [exact Htx|].
  split; [exact Hid|]. split; [exact Hcalls|]. split; [exact Hclock|].
  exact Htrace.
Defined.

(** ** Runs that return *)

Section Returning.

Variable env : Env.

Lemma run_bind_Returned (A B : Type) (p : Prog A) (f : A -> Prog B)
    (w w' : World) (b : B) :
  run env (bind p f) w = (Returned b, w') ->
  exists a mid, run env p w = (Returned a, mid) /\ run env (f a) mid = (Returned b, w').
Proof.
  rewrite run_bind. destruct (run env p w) as [[a|e|] mid]; intros H.
  - exists a, mid. split; [reflexivity|exact H].
  - discriminate.
  - discriminate.
Qed.

Lemma run_call_Returned (c : Cmd) (w w' : World) (r : Reply c) :
  run env (call c) w = (Returned r, w') ->
  r = fst (handle env c w) /\ w' = snd (handle env c w).
Proof.
  unfold call. rewrite run_call. cbn [run]. intros H.
  injection H as <- <-. split; reflexivity.
Qed.

Lemma run_throwIf_Returned (b : bool) (e : Exception) (w w' : World) (u : unit) :
  run env (throwIf b e) w = (Returned u, w') -> b = false /\ w' = w.
Proof.
  destruct b; cbn [throwIf run]; intros H; [discriminate|].
  injection H as _ <-. split; reflexivity.
Qed.

End Returning.

(** ** createTaskRecord: whose record is stored *)

Lemma createTaskRecord_inserts_for_requester
    (data : CreateTaskRecordDTO.t) (clientId : string) :
  Issues (insertsFor clientId) (createTaskRecord data clientId).
Proof.
  unfold createTaskRecord.
  apply Issues_bind; [apply Issues_call; exact I|]. intros found.
  apply Issues_bind.
  { destruct (Response.error found), (Response.data found); constructor. }
  intros project.
  apply Issues_bind; [apply Issues_throwIf|]. intros _.
  apply Issues_bind; [apply Issues_throwIf|]. intros _.
  apply Issues_bind; [apply Issues_call; exact I|]. intros existing.
  apply Issues_bind; [apply Issues_throwIf|]. intros _.
  apply Issues_bind.
  { destruct (Response.error existing); [apply Issues_throwIf|constructor]. }
  intros _.
  apply Issues_bind.
  { apply (Issues_weaken offStore); [|apply retryLoop_offStore].
    intros [] Hc; cbn in *; tauto. }
  intros blockchainResult.
  apply Issues_bind; [apply Issues_call; reflexivity|]. intros inserted.
  apply Issues_bind.
  { destruct (Response.error inserted); constructor. }
  intros _.
  apply Issues_bind; [apply Issues_call; exact I|]. intros now.
  apply Issues_bind; [apply Issues_call; exact I|]. intros updated.
  apply Issues_bind; [|intros _; constructor].
  destruct (Response.error updated);
    [apply (Issues_call _ (ConsoleError _)); exact I|constructor].
Qed.

(** A command other than an update of [task_records] only ever appends to
    that table, and what an insert appends carries the inserted
    [client_id]. *)
Lemma handle_appends (env : Env) (clientId : string) (c : Cmd) (w : World) :
  insertsFor clientId c ->
  exists added,
    task_records (snd (handle env c w)) = (task_records w ++ added)%list
    /\ Forall (fun r => TaskRecord.client_id r = clientId) added.
Proof.
  intros Hc.
  assert (Hnone : exists added,
             task_records w = (task_records w ++ added)%list
             /\ Forall (fun r => TaskRecord.client_id r = clientId) added).
  { exists []. rewrite app_nil_r. split; [reflexivity|constructor]. }
  destruct c as [| | | | | |row|id u| |id u];
    cbn [insertsFor] in Hc; cbn [handle snd]; try exact Hnone.
  - destruct (store_fault env (store_requests w)); [exact Hnone|].
    exists [newRow env w row]. split; [reflexivity|].
    constructor; [exact Hc|constructor].
  - destruct (store_fault env (store_requests w)); exact Hnone.
  - contradiction.
Qed.

(** Every run of createTaskRecord leaves [task_records] extended by rows
    whose [client_id] is the requester. *)
Lemma createTaskRecord_appends
    (env : Env) (w : World) (data : CreateTaskRecordDTO.t) (clientId : string) :
  exists added,
    task_records (snd (run env (createTaskRecord data clientId) w))
    = (task_records w ++ added)%list
    /\ Forall (fun r => TaskRecord.client_id r = clientId) added.
Proof.
  apply (run_preserves env (insertsFor clientId)
           (fun w' => exists added,
                task_records w' = (task_records w ++ added)%list
                /\ Forall (fun r => TaskRecord.client_id r = clientId) added)).
  - intros c w0 Hc (added & Hw0 & Hadded).
    destruct (handle_appends env clientId c w0 Hc) as (more & Hmore & Hclient).
    exists (added ++ more)%list. split.
    + rewrite Hmore, Hw0, app_assoc. reflexivity.
    + apply Forall_app. split; assumption.
  - apply createTaskRecord_inserts_for_requester.
  - exists []. rewrite app_nil_r. split; [reflexivity|constructor].
Qed.

(** What a run of createTaskRecord that returns has gone through. *)
Lemma createTaskRecord_Returned
    (env : Env) (w w' : World) (data : CreateTaskRecordDTO.t) (clientId : string)
    (result : option TaskRecord.t) :
  run env (createTaskRecord data clientId) w = (Returned result, w') ->
  exists p taskRecord,
    projectsWithId (CreateTaskRecordDTO.project_id data) w = [p]
    /\ Project.status p = "in_progress"
    /\ Project.client_id p = clientId
    /\ result = Some taskRecord
    /\ TaskRecord.client_id taskRecord = clientId
    /\ TaskRecord.project_id taskRecord = CreateTaskRecordDTO.project_id data
    /\ task_records w' = (task_records w ++ [taskRecord])%list.
Proof.
  unfold createTaskRecord. intros Hrun.
  apply run_bind_Returned in Hrun as (found & w1 & Hfound & Hrun).
  apply run_call_Returned in Hfound as [-> ->].
  apply run_bind_Returned in Hrun as (project & w1' & Hproject & Hrun).
  cbn [handle fst snd] in Hproject.
  destruct (store_fault env (store_requests w)); [discriminate|].
  destruct (projectsWithId (CreateTaskRecordDTO.project_id data) w)
    as [|p [|q others]] eqn:Hrow; try discriminate.
  cbn in Hproject. injection Hproject as <- <-.
  apply run_bind_Returned in Hrun as (u & w2 & Hstatus & Hrun).
  apply run_throwIf_Returned in Hstatus as [Hstatus ->].
  apply negb_false_iff, String.eqb_eq in Hstatus.
  apply run_bind_Returned in Hrun as (u' & w2 & Hclient & Hrun).
  apply run_throwIf_Returned in Hclient as [Hclient ->].
  apply negb_false_iff, String.eqb_eq in Hclient.
  apply run_bind_Returned in Hrun as (existing & w2 & Hexisting & Hrun).
  apply run_call_Returned in Hexisting as [-> ->].
  apply run_bind_Returned in Hrun as (u2 & w3 & Hnone & Hrun).
  apply run_throwIf_Returned in Hnone as [_ ->].
  apply run_bind_Returned in Hrun as (u3 & w3 & Hcheck & Hrun).
  assert (w3 = requested (SelectTaskIdByProject (CreateTaskRecordDTO.project_id data))
                 (requested (SelectProject (CreateTaskRecordDTO.project_id data)) w))
    as ->.
  { destruct (Response.error _).
    - apply run_throwIf_Returned in Hcheck as [_ ->]. reflexivity.
    - injection Hcheck as _ <-. reflexivity. }
  clear Hcheck.
  apply run_bind_Returned in Hrun as (blockchainResult & w4 & Hloop & Hrun).
  match type of Hloop with
  | run env (retryLoop ?budget ?input ?retryCount) ?w0 = _ =>
      pose proof (retryLoop_frame env input budget retryCount w0) as Hframe
  end.
  rewrite Hloop in Hframe.
  cbn [snd requested task_records projects store_requests] in Hframe.
  destruct Hframe as (_ & Htasks & _). clear Hloop.
  apply run_bind_Returned in Hrun as (inserted & w5 & Hinserted & Hrun).
  apply run_call_Returned in Hinserted as [-> ->].
  apply run_bind_Returned in Hrun as (u4 & w5 & Hinsert & Hrun).
  cbn [handle] in Hinsert, Hrun.
  destruct (store_fault env (store_requests w4)); [discriminate|].
  cbn [fst snd succeeded Response.data Response.error run] in Hinsert, Hrun.
  injection Hinsert as _ <-.
  apply run_bind_Returned in Hrun as (now & w5 & Hnow & Hrun).
  apply run_call_Returned in Hnow as [-> ->].
  apply run_bind_Returned in Hrun as (updated & w5 & Hupdated & Hrun).
  apply run_call_Returned in Hupdated as [-> ->].
  apply run_bind_Returned in Hrun as (u5 & w5 & Hlogged & Hrun).
  cbn [run] in Hrun. injection Hrun as <- <-.
  exists p, (newRow env w4
               {| TaskRecord.ins_project_id := CreateTaskRecordDTO.project_id data;
                  TaskRecord.ins_freelancer_id := CreateTaskRecordDTO.freelancer_id data;
                  TaskRecord.ins_client_id := clientId;
                  TaskRecord.ins_completed := CreateTaskRecordDTO.completed data;
                  TaskRecord.ins_outcome_description :=
                    CreateTaskRecordDTO.outcome_description data;
                  TaskRecord.ins_on_chain_tx_hash :=
                    option_map transactionHash blockchainResult;
                  TaskRecord.ins_on_chain_task_id :=
                    option_map taskId blockchainResult |}).
  repeat split; try assumption; try reflexivity.
  cbn [handle] in Hlogged.
  destruct (store_fault env _).
  - cbn [fst snd failed Response.error] in Hlogged.
    apply (run_call_Returned env (ConsoleError _)) in Hlogged as [_ ->].
    cbn [handle snd issued requested with_task_records task_records].
    rewrite Htasks. reflexivity.
  - cbn [fst snd Response.error run] in Hlogged. injection Hlogged as _ <-.
    cbn [with_projects issued requested with_task_records task_records].
    rewrite Htasks. reflexivity.
Qed.

(** C9.  Whatever a run of createTaskRecord adds to [task_records] has the
    requester as [client_id]; the record a run returns is stored, has the
    requester as [client_id], and the requester is the [client_id] of the
    project; the properties of the request object other than the four that
    line 26 reads have no influence on the program. *)
Theorem createTaskRecord_stores_requester_as_client
    (env : Env) (w : World) (data : CreateTaskRecordDTO.t) (clientId : string) :
  (exists added,
      task_records (snd (run env (createTaskRecord data clientId) w))
      = (task_records w ++ added)%list
      /\ Forall (fun r => TaskRecord.client_id r = clientId) added)
  /\ (forall taskRecord w',
         run env (createTaskRecord data clientId) w = (Returned (Some taskRecord), w') ->
         TaskRecord.client_id taskRecord = clientId
         /\ In taskRecord (task_records w')
         /\ exists p,
              In p (projects w)
              /\ Project.id p = CreateTaskRecordDTO.project_id data
              /\ Project.client_id p = clientId)
  /\ (forall others,
         createTaskRecord
           {| CreateTaskRecordDTO.project_id := CreateTaskRecordDTO.project_id data;
              CreateTaskRecordDTO.freelancer_id := CreateTaskRecordDTO.freelancer_id data;
              CreateTaskRecordDTO.completed := CreateTaskRecordDTO.completed data;
              CreateTaskRecordDTO.outcome_description :=
                CreateTaskRecordDTO.outcome_description data;
              CreateTaskRecordDTO.other_properties := others |} clientId
         = createTaskRecord data clientId).
Proof.
  split; [apply createTaskRecord_appends|]. split; [|reflexivity].
  intros taskRecord w' Hrun.
  apply createTaskRecord_Returned in Hrun
    as (p & stored & Hrow & _ & Hclient & Hsome & Hstored & _ & Htasks).
  injection Hsome as ->.
  split; [exact Hstored|]. split.
  - rewrite Htasks. apply in_or_app. right. left. reflexivity.
  - exists p.
    assert (Hin : In p (projectsWithId (CreateTaskRecordDTO.project_id data) w))
      by (rewrite Hrow; left; reflexivity).
    apply filter_In in Hin as [Hin Hid].
    apply String.eqb_eq in Hid. auto.
Qed.

(** An instance: the request object carries a [client_id] property of its
    own, C9; the stored record has the requester, C1. *)
Lemma createTaskRecord_stores_requester_as_client_witness :
  CreateTaskRecordDTO.other_properties (Sample.request "P1" true) = [("client_id", "C9")]
  /\ exists taskRecord,
       run Sample.healthy (createTaskRecord (Sample.request "P1" true) "C1") Sample.world
       = (Returned (Some taskRecord), Sample.afterCreate)
       /\ TaskRecord.client_id taskRecord = "C1"
       /\ In taskRecord (task_records Sample.afterCreate)
       /\ exists p,
            In p (projects Sample.world)
            /\ Project.id p = "P1" /\ Project.client_id p = "C1".
Proof.
  split; [reflexivity|].
  eexists. split; [reflexivity|].
  exact (proj1 (proj2 (createTaskRecord_stores_requester_as_client
                         Sample.healthy Sample.world (Sample.request "P1" true) "C1"))
           _ Sample.afterCreate eq_refl).
Defined.

(** ** updateTaskRating: the checks *)

(** Runs [updateTaskRating] up to the point where the record has been
    returned. *)
Ltac record_fetched Hok Hrow :=
  unfold updateTaskRating;
  rewrite run_call_bind; cbn [handle fst snd];
  rewrite Hok, Hrow;
  cbn [single succeeded Response.error Response.data];
  rewrite run_bind; cbn [run].

(** The checks of lines 219-232 on a record that has been fetched, in the
    order in which they are made. *)
Lemma updateTaskRating_rejections
    (env : Env) (w : World) (recordId : string) (data : UpdateTaskRatingDTO.t)
    (clientId : string) (taskRecord : TaskRecord.t) :
  store_fault env (store_requests w) = None ->
  tasksWithId recordId w = [taskRecord] ->
  (TaskRecord.client_id taskRecord <> clientId ->
   run env (updateTaskRating recordId data clientId) w
   = (Thrown (AuthorizationError "Only the project client can rate the task"),
      requested (SelectTaskById recordId) w))
  /\ (TaskRecord.client_id taskRecord = clientId ->
      TaskRecord.rating taskRecord <> None ->
      run env (updateTaskRating recordId data clientId) w
      = (Thrown (ConflictError "Rating has already been set and cannot be changed"),
         requested (SelectTaskById recordId) w))
  /\ (TaskRecord.client_id taskRecord = clientId ->
      TaskRecord.rating taskRecord = None ->
      TaskRecord.completed taskRecord = false ->
      run env (updateTaskRating recordId data clientId) w
      = (Thrown (ValidationError "Only completed tasks can be rated"),
         requested (SelectTaskById recordId) w)).
Proof.
  intros Hok Hrow. repeat split.
  - intros Hclient. record_fetched Hok Hrow.
    rewrite run_throwIf_bind, (eqb_neq_false _ _ Hclient). reflexivity.
  - intros Hclient Hrated. record_fetched Hok Hrow.
    rewrite run_throwIf_bind, Hclient, String.eqb_refl. cbn [negb].
    rewrite run_throwIf_bind.
    destruct (TaskRecord.rating taskRecord); [reflexivity|contradiction].
  - intros Hclient Hunrated Hopen. record_fetched Hok Hrow.
    rewrite run_throwIf_bind, Hclient, String.eqb_refl. cbn [negb].
    rewrite run_throwIf_bind, Hunrated.
    rewrite run_throwIf_bind, Hopen. reflexivity.
Qed.

(** C3, as the code has it.  A call of updateTaskRating on a record whose
    rating is set, with any rating and comment, throws: a ConflictError
    when the requester is the record's client, an AuthorizationError
    otherwise.  The only command issued is the lookup; both tables, and so
    the stored rating, are as before. *)
Theorem updateTaskRating_rejects_rated_record
    (env : Env) (w : World) (recordId : string) (data : UpdateTaskRatingDTO.t)
    (clientId : string) (taskRecord : TaskRecord.t) (rating : Z) :
  store_fault env (store_requests w) = None ->
  tasksWithId recordId w = [taskRecord] ->
  TaskRecord.rating taskRecord = Some rating ->
  exists e w',
    run env (updateTaskRating recordId data clientId) w = (Thrown e, w')
    /\ (TaskRecord.client_id taskRecord = clientId ->
        e = ConflictError "Rating has already been set and cannot be changed")
    /\ (TaskRecord.client_id taskRecord <> clientId ->
        e = AuthorizationError "Only the project client can rate the task")
    /\ task_records w' = task_records w
    /\ projects w' = projects w
    /\ tasksWithId recordId w' = [taskRecord]
    /\ issuedSince w w' = [SelectTaskById recordId].
Proof.
  intros Hok Hrow Hrated.
  destruct (updateTaskRating_rejections env w recordId data clientId taskRecord Hok Hrow)
    as (Hother & Hset & _).
  assert (Hsome : TaskRecord.rating taskRecord <> None) by (rewrite Hrated; discriminate).
  destruct (string_dec (TaskRecord.client_id taskRecord) clientId) as [Hclient|Hclient].
  - eexists. eexists. split; [exact (Hset Hclient Hsome)|].
    split; [reflexivity|]. split; [contradiction|].
    split; [reflexivity|]. split; [reflexivity|]. split; [exact Hrow|].
    apply issuedSince_app. reflexivity.
  - eexists. eexists. split; [exact (Hother Hclient)|].
    split; [contradiction|]. split; [reflexivity|].
    split; [reflexivity|]. split; [reflexivity|]. split; [exact Hrow|].
    apply issuedSince_app. reflexivity.
Qed.

(** C5, as the code has it.  A call of updateTaskRating on a record that is
    not completed and not rated throws a ValidationError when the requester
    is the record's client and an AuthorizationError otherwise; nothing is
    written. *)
Theorem updateTaskRating_rejects_incomplete_record
    (env : Env) (w : World) (recordId : string) (data : UpdateTaskRatingDTO.t)
    (clientId : string) (taskRecord : TaskRecord.t) :
  store_fault env (store_requests w) = None ->
  tasksWithId recordId w = [taskRecord] ->
  TaskRecord.completed taskRecord = false ->
  TaskRecord.rating taskRecord = None ->
  exists e w',
    run env (updateTaskRating recordId data clientId) w = (Thrown e, w')
    /\ (TaskRecord.client_id taskRecord = clientId ->
        e = ValidationError "Only completed tasks can be rated")
    /\ (TaskRecord.client_id taskRecord <> clientId ->
        e = AuthorizationError "Only the project client can rate the task")
    /\ task_records w' = task_records w
    /\ projects w' = projects w
    /\ issuedSince w w' = [SelectTaskById recordId].
Proof.
  intros Hok Hrow Hopen Hunrated.
  destruct (updateTaskRating_rejections env w recordId data clientId taskRecord Hok Hrow)
    as (Hother & _ & Hincomplete).
  destruct (string_dec (TaskRecord.client_id taskRecord) clientId) as [Hclient|Hclient].
  - eexists. eexists. split; [exact (Hincomplete Hclient Hunrated Hopen)|].
    split; [reflexivity|]. split; [contradiction|].
    split; [reflexivity|]. split; [reflexivity|].
    apply issuedSince_app. reflexivity.
  - eexists. eexists. split; [exact (Hother Hclient)|].
    split; [contradiction|]. split; [reflexivity|].
    split; [reflexivity|]. split; [reflexivity|].
    apply issuedSince_app. reflexivity.
Qed.

(** An instance: T4 has been rated 4 by its client, who then sends the same
    rating again. *)
Lemma updateTaskRating_rejects_rated_record_witness :
  exists taskRecord,
    tasksWithId "T4" Sample.afterRating = [taskRecord]
    /\ TaskRecord.rating taskRecord = Some 4
    /\ TaskRecord.client_id taskRecord = "C1"
    /\ exists w',
         run Sample.healthy (updateTaskRating "T4" (Sample.rate 4 None) "C1")
           Sample.afterRating
         = (Thrown (ConflictError "Rating has already been set and cannot be changed"), w')
         /\ tasksWithId "T4" w' = [taskRecord].
Proof.
  eexists. split; [reflexivity|]. split; [reflexivity|]. split; [reflexivity|].
  destruct (updateTaskRating_rejects_rated_record
              Sample.healthy Sample.afterRating "T4" (Sample.rate 4 None) "C1"
              _ 4 eq_refl eq_refl eq_refl)
    as (e & w' & Hrun & Hclient & _ & _ & _ & Hstored & _).
  exists w'. split; [|exact Hstored].
  rewrite Hrun, (Hclient eq_refl). reflexivity.
Defined.

(** C3 as stated fails: record T2 is rated, and a call on it by C7, who is
    not its client, throws an AuthorizationError, not a ConflictError. *)
Lemma updateTaskRating_requester_checked_before_rating :
  tasksWithId "T2" Sample.world = [Sample.T2]
  /\ TaskRecord.rating Sample.T2 = Some 5
  /\ fst (run Sample.healthy (updateTaskRating "T2" (Sample.rate 5 None) "C7")
            Sample.world)
     = Thrown (AuthorizationError "Only the project client can rate the task")
  /\ forall msg,
       fst (run Sample.healthy (updateTaskRating "T2" (Sample.rate 5 None) "C7")
              Sample.world)
       <> Thrown (ConflictError msg).
Proof.
  split; [reflexivity|]. split; [reflexivity|]. split; [reflexivity|].
  intros msg. vm_compute. discriminate.
Qed.

(** An instance: the client of T3, which is not completed, rates it. *)
Lemma updateTaskRating_rejects_incomplete_record_witness :
  tasksWithId "T3" Sample.world = [Sample.T3]
  /\ TaskRecord.completed Sample.T3 = false
  /\ TaskRecord.rating Sample.T3 = None
  /\ exists w',
       run Sample.healthy (updateTaskRating "T3" (Sample.rate 5 None) "C1") Sample.world
       = (Thrown (ValidationError "Only completed tasks can be rated"), w')
       /\ task_records w' = task_records Sample.world
       /\ projects w' = projects Sample.world.
Proof.
  split; [reflexivity|]. split; [reflexivity|]. split; [reflexivity|].
  destruct (updateTaskRating_rejects_incomplete_record
              Sample.healthy Sample.world "T3" (Sample.rate 5 None) "C1"
              Sample.T3 eq_refl eq_refl eq_refl eq_refl)
    as (e & w' & Hrun & Hclient & _ & Htasks & Hprojects & _).
  exists w'. split; [|split; assumption].
  rewrite Hrun, (Hclient eq_refl). reflexivity.
Defined.

(** C5 as stated fails: record T3 is not completed and not rated, and a
    call on it by C7, who is not its client, throws an AuthorizationError,
    not a ValidationError. *)
Lemma updateTaskRating_requester_checked_before_completion :
  tasksWithId "T3" Sample.world = [Sample.T3]
  /\ TaskRecord.completed Sample.T3 = false
  /\ TaskRecord.rating Sample.T3 = None
  /\ TaskRecord.client_id Sample.T3 <> "C7"
  /\ fst (run Sample.healthy (updateTaskRating "T3" (Sample.rate 5 None) "C7")
            Sample.world)
     = Thrown (AuthorizationError "Only the project client can rate the task")
  /\ forall msg,
       fst (run Sample.healthy (updateTaskRating "T3" (Sample.rate 5 None) "C7")
              Sample.world)
       <> Thrown (ValidationError msg).
Proof.
  split; [reflexivity|]. split; [reflexivity|]. split; [reflexivity|].
  split; [discriminate|]. split; [reflexivity|].
  intros msg. vm_compute. discriminate.
Qed.

(** ** updateTaskRating: the update *)

Lemma filter_map_stable (A : Type) (f : A -> bool) (g : A -> A) (l : list A) :
  (forall a, f (g a) = f a) -> filter f (map g l) = map g (filter f l).
Proof.
  intros Hfg. induction l as [|a l IH]; cbn [map filter]; [reflexivity|].
  rewrite Hfg. destruct (f a); cbn [map]; rewrite IH; reflexivity.
Qed.

(** Patching by key keeps the keys, so the rows with the patched key are
    the patched rows. *)
Lemma tasksWithId_patchTasks (id : string) (u : TaskRecord.patch) (w : World) :
  filter (fun r => String.eqb (TaskRecord.id r) id) (patchTasks id u (task_records w))
  = map (TaskRecord.apply u) (tasksWithId id w).
Proof.
  unfold patchTasks, tasksWithId.
  rewrite filter_map_stable.
  - induction (task_records w) as [|r l IH]; cbn [filter map]; [reflexivity|].
    destruct (String.eqb (TaskRecord.id r) id) eqn:Hid; cbn [map]; rewrite ?Hid, IH;
      reflexivity.
  - intros r. destruct (String.eqb (TaskRecord.id r) id) eqn:Hid;
      [cbn [TaskRecord.apply TaskRecord.id]|]; exact Hid.
Qed.

(** Each row of a patched table is the patched row when its key is the
    patched key, and the old row otherwise. *)
Lemma patchTasks_pointwise (id : string) (u : TaskRecord.patch) (rows : list TaskRecord.t) :
  Forall2 (fun old new =>
             new = if String.eqb (TaskRecord.id old) id
                   then TaskRecord.apply u old else old)
    rows (patchTasks id u rows).
Proof.
  induction rows as [|r l IH]; cbn [patchTasks map]; constructor.
  - reflexivity.
  - exact IH.
Qed.

(** What a run of updateTaskRating that returns has gone through: the
    record was the only one with the key, passed the three checks, and was
    patched with [updateData]. *)
Lemma updateTaskRating_Returned
    (env : Env) (w w' : World) (recordId : string) (data : UpdateTaskRatingDTO.t)
    (clientId : string) (result : option TaskRecord.t) :
  run env (updateTaskRating recordId data clientId) w = (Returned result, w') ->
  exists taskRecord,
    let updateData :=
      {| TaskRecord.set_rating := UpdateTaskRatingDTO.rating data;
         TaskRecord.set_rating_comment :=
           option_map normalizeComment (UpdateTaskRatingDTO.comment data);
         TaskRecord.set_updated_at :=
           toISOString env (clock w) |} in
    tasksWithId recordId w = [taskRecord]
    /\ TaskRecord.client_id taskRecord = clientId
    /\ TaskRecord.rating taskRecord = None
    /\ TaskRecord.completed taskRecord = true
    /\ result = Some (TaskRecord.apply updateData taskRecord)
    /\ task_records w' = patchTasks recordId updateData (task_records w)
    /\ projects w' = projects w
    /\ issuedSince w w'
       = [SelectTaskById recordId; NewDateISO; UpdateTask recordId updateData].
Proof.
  unfold updateTaskRating. intros Hrun.
  apply run_bind_Returned in Hrun as (fetched & w1 & Hfetched & Hrun).
  apply run_call_Returned in Hfetched as [-> ->].
  apply run_bind_Returned in Hrun as (taskRecord & w1 & Hrecord & Hrun).
  cbn [handle fst snd] in Hrecord.
  destruct (store_fault env (store_requests w)) as [fetchError|].
  { cbn in Hrecord. destruct (String.eqb (code fetchError) "PGRST116"); discriminate. }
  destruct (tasksWithId recordId w) as [|found [|second others]] eqn:Hrow;
    try discriminate.
  cbn in Hrecord. injection Hrecord as <- <-.
  apply run_bind_Returned in Hrun as (u1 & w1 & Hclient & Hrun).
  apply run_throwIf_Returned in Hclient as [Hclient ->].
  apply negb_false_iff, String.eqb_eq in Hclient.
  apply run_bind_Returned in Hrun as (u2 & w1 & Hunrated & Hrun).
  apply run_throwIf_Returned in Hunrated as [Hunrated ->].
  apply run_bind_Returned in Hrun as (u3 & w1 & Hcompleted & Hrun).
  apply run_throwIf_Returned in Hcompleted as [Hcompleted ->].
  apply negb_false_iff in Hcompleted.
  apply run_bind_Returned in Hrun as (now & w1 & Hnow & Hrun).
  apply run_call_Returned in Hnow as [-> ->].
  apply run_bind_Returned in Hrun as (updated & w1 & Hupdated & Hrun).
  apply run_call_Returned in Hupdated as [-> ->].
  apply run_bind_Returned in Hrun as (u4 & w1 & Herror & Hrun).
  cbn [run] in Hrun. injection Hrun as <- <-.
  cbn [handle fst snd issued requested store_requests clock] in Herror |- *.
  unfold tasksWithId in *.
  cbn [task_records issued requested] in Herror |- *.
  destruct (store_fault env (S (store_requests w))); [discriminate|].
  rewrite Hrow in Herror |- *.
  cbn [fst snd succeeded Response.data Response.error run] in Herror |- *.
  injection Herror as _ <-.
  exists found. cbn zeta.
  split; [reflexivity|]. split; [exact Hclient|].
  split; [destruct (TaskRecord.rating found); [discriminate|reflexivity]|].
  split; [exact Hcompleted|]. split; [reflexivity|].
  split; [reflexivity|]. split; [reflexivity|].
  apply issuedSince_app.
  cbn [trace with_task_records requested issued].
  repeat rewrite <- app_assoc. reflexivity.
Qed.

(** C8.  In a run of updateTaskRating that returns, the single record with
    the key is replaced by the returned one, and its [rating_comment] is:
    the trimmed comment when a comment is given that is not blank after
    trimming; null when a comment is given that is blank after trimming;
    what it was when no comment is given, in which case the update object
    has no [rating_comment] property. *)
Theorem updateTaskRating_normalizes_comment
    (env : Env) (w w' : World) (recordId : string) (data : UpdateTaskRatingDTO.t)
    (clientId : string) (result : option TaskRecord.t) :
  run env (updateTaskRating recordId data clientId) w = (Returned result, w') ->
  exists old new updateData,
    tasksWithId recordId w = [old]
    /\ tasksWithId recordId w' = [new]
    /\ result = Some new
    /\ issuedSince w w'
       = [SelectTaskById recordId; NewDateISO; UpdateTask recordId updateData]
    /\ match UpdateTaskRatingDTO.comment data with
       | Some comment =>
           (trim comment <> EmptyString ->
            TaskRecord.set_rating_comment updateData = Some (Some (trim comment))
            /\ TaskRecord.rating_comment new = Some (trim comment))
           /\ (trim comment = EmptyString ->
               TaskRecord.set_rating_comment updateData = Some None
               /\ TaskRecord.rating_comment new = None)
       | None =>
           TaskRecord.set_rating_comment updateData = None
           /\ TaskRecord.rating_comment new = TaskRecord.rating_comment old
       end.
Proof.
  intros Hrun.
  apply updateTaskRating_Returned in Hrun
    as (old & Hrow & _ & _ & _ & Hresult & Htasks & _ & Hissued).
  eexists old, _, _. split; [exact Hrow|]. split.
  { unfold tasksWithId at 1. rewrite Htasks, tasksWithId_patchTasks, Hrow.
    reflexivity. }
  split; [exact Hresult|]. split; [exact Hissued|].
  cbn [TaskRecord.set_rating_comment TaskRecord.apply TaskRecord.rating_comment].
  destruct (UpdateTaskRatingDTO.comment data) as [comment|]; cbn [option_map].
  - split; intros Htrim.
    + rewrite (normalizeComment_kept comment Htrim). split; reflexivity.
    + rewrite (normalizeComment_blank comment Htrim). split; reflexivity.
  - split; reflexivity.
Qed.

(** Three instances on T4, whose comment is "draft note": a comment of
    three spaces, a padded comment, and no comment. *)
Lemma updateTaskRating_normalizes_comment_witness :
  (exists new w',
      run Sample.healthy (updateTaskRating "T4" (Sample.rate 4 (Some "   ")) "C1")
        Sample.world
      = (Returned (Some new), w')
      /\ tasksWithId "T4" w' = [new]
      /\ TaskRecord.rating_comment new = None)
  /\ (exists new,
      run Sample.healthy (updateTaskRating "T4" (Sample.rate 4 (Some "  ok then ")) "C1")
        Sample.world
      = (Returned (Some new), Sample.afterRating)
      /\ tasksWithId "T4" Sample.afterRating = [new]
      /\ TaskRecord.rating_comment new = Some "ok then")
  /\ (exists new w',
      run Sample.healthy (updateTaskRating "T4" (Sample.rate 4 None) "C1") Sample.world
      = (Returned (Some new), w')
      /\ tasksWithId "T4" w' = [new]
      /\ TaskRecord.rating_comment new = TaskRecord.rating_comment Sample.T4).
Proof.
  split; [|split].
  - destruct (updateTaskRating_normalizes_comment
                Sample.healthy Sample.world _ "T4" (Sample.rate 4 (Some "   ")) "C1" _
                eq_refl)
      as (old & new & updateData & _ & Hnew & Hresult & _ & _ & Hblank).
    exists new, (snd (run Sample.healthy
                        (updateTaskRating "T4" (Sample.rate 4 (Some "   ")) "C1")
                        Sample.world)).
    split; [|split; [exact Hnew|exact (proj2 (Hblank eq_refl))]].
    injection Hresult as <-. reflexivity.
  - destruct (updateTaskRating_normalizes_comment
                Sample.healthy Sample.world _ "T4"
                (Sample.rate 4 (Some "  ok then ")) "C1" _ eq_refl)
      as (old & new & updateData & _ & Hnew & Hresult & _ & Hkept & _).
    exists new.
    split; [|split; [exact Hnew|]].
    + injection Hresult as <-. reflexivity.
    + apply Hkept. discriminate.
  - destruct (updateTaskRating_normalizes_comment
                Sample.healthy Sample.world _ "T4" (Sample.rate 4 None) "C1" _ eq_refl)
      as (old & new & updateData & Hold & Hnew & Hresult & _ & _ & Hsame).
    exists new, (snd (run Sample.healthy
                        (updateTaskRating "T4" (Sample.rate 4 None) "C1")
                        Sample.world)).
    split; [|split; [exact Hnew|]].
    + injection Hresult as <-. reflexivity.
    + injection Hold as <-. exact Hsame.
Defined.

(** C10.  A run of updateTaskRating that returns leaves table [projects]
    as it was and changes table [task_records] row by row as follows: a
    row with another key is unchanged; a row with the key has the new
    rating, keeps every column other than [rating], [rating_comment] and
    [updated_at], and keeps [rating_comment] as well when no comment is
    given.  The only write issued is the one update. *)
Theorem updateTaskRating_writes_rating_columns_only
    (env : Env) (w w' : World) (recordId : string) (data : UpdateTaskRatingDTO.t)
    (clientId : string) (result : option TaskRecord.t) :
  run env (updateTaskRating recordId data clientId) w = (Returned result, w') ->
  projects w' = projects w
  /\ Forall2 (fun old new =>
                if String.eqb (TaskRecord.id old) recordId
                then sameOutsideRating old new
                     /\ TaskRecord.rating new = Some (UpdateTaskRatingDTO.rating data)
                     /\ (UpdateTaskRatingDTO.comment data = None ->
                         TaskRecord.rating_comment new = TaskRecord.rating_comment old)
                else new = old)
       (task_records w) (task_records w')
  /\ exists updateData,
       issuedSince w w'
       = [SelectTaskById recordId; NewDateISO; UpdateTask recordId updateData].
Proof.
  intros Hrun.
  apply updateTaskRating_Returned in Hrun
    as (old & _ & _ & _ & _ & _ & Htasks & Hprojects & Hissued).
  split; [exact Hprojects|]. split; [|eexists; exact Hissued].
  rewrite Htasks.
  eapply Forall2_impl; [|apply patchTasks_pointwise].
  intros r r' ->. cbn beta.
  destruct (String.eqb (TaskRecord.id r) recordId); [|reflexivity].
  split; [repeat split|]. split; [reflexivity|].
  intros Hnone. cbn [TaskRecord.apply TaskRecord.rating_comment
                     TaskRecord.set_rating_comment].
  rewrite Hnone. reflexivity.
Qed.

(** An instance: T4 is rated 4 with a comment; T2, T3 and the projects are
    as before. *)
Lemma updateTaskRating_writes_rating_columns_only_witness :
  exists result,
    run Sample.healthy (updateTaskRating "T4" (Sample.rate 4 (Some "  ok then ")) "C1")
      Sample.world
    = (Returned result, Sample.afterRating)
    /\ projects Sample.afterRating = projects Sample.world
    /\ Forall2 (fun old new =>
                  if String.eqb (TaskRecord.id old) "T4"
                  then sameOutsideRating old new
                       /\ TaskRecord.rating new = Some 4
                       /\ (Some "  ok then " = None ->
                           TaskRecord.rating_comment new = TaskRecord.rating_comment old)
                  else new = old)
         (task_records Sample.world) (task_records Sample.afterRating).
Proof.
  eexists. split; [reflexivity|].
  destruct (updateTaskRating_writes_rating_columns_only
              Sample.healthy Sample.world Sample.afterRating "T4"
              (Sample.rate 4 (Some "  ok then ")) "C1" _ eq_refl)
    as (Hprojects & Htasks & _).
  split; [exact Hprojects|exact Htasks].
Defined.

(** ** A complete scenario

    Project P1 of client C1 is in progress.  Recording its outcome as
    completed returns an unrated record and completes the project; rating
    the record with 5 and "Great work" stores both; rating it again, with
    1, is a conflict and leaves the 5 in place. *)
Example lifecycle_of_P1 :
  exists record rated,
    run Sample.healthy (createTaskRecord (Sample.request "P1" true) "C1") Sample.world
    = (Returned (Some record), Sample.afterCreate)
    /\ TaskRecord.completed record = true
    /\ TaskRecord.rating record = None
    /\ map Project.status (projectsWithId "P1" Sample.afterCreate) = ["completed"]
    /\ fst (run Sample.healthy
              (updateTaskRating (TaskRecord.id record)
                 (Sample.rate 5 (Some "Great work")) "C1")
              Sample.afterCreate)
       = Returned (Some rated)
    /\ TaskRecord.rating rated = Some 5
    /\ TaskRecord.rating_comment rated = Some "Great work"
    /\ run Sample.healthy
         (updateTaskRating (TaskRecord.id record) (Sample.rate 1 None) "C1")
         (snd (run Sample.healthy
                 (updateTaskRating (TaskRecord.id record)
                    (Sample.rate 5 (Some "Great work")) "C1")
                 Sample.afterCreate))
       = (Thrown (ConflictError "Rating has already been set and cannot be changed"),
          requested (SelectTaskById (TaskRecord.id record))
            (snd (run Sample.healthy
                    (updateTaskRating (TaskRecord.id record)
                       (Sample.rate 5 (Some "Great work")) "C1")
                    Sample.afterCreate))).
Proof.
  eexists. eexists.
  split; [reflexivity|]. split; [reflexivity|]. split; [reflexivity|].
  split; [reflexivity|]. split; [reflexivity|]. split; [reflexivity|].
  split; reflexivity.
Qed.

(** * Further properties *)

(** ** createTaskRecord: every way through *)

Lemma eqb_false_neq (a b : string) : String.eqb a b = false -> a <> b.
Proof. intros H. apply String.eqb_neq. exact H. Qed.

(** Every run of createTaskRecord follows one of the paths. *)
Lemma createTaskRecord_path
    (env : Env) (w : World) (data : CreateTaskRecordDTO.t) (clientId : string) :
  createPath env w data clientId (run env (createTaskRecord data clientId) w).
Proof.
  unfold createTaskRecord.
  rewrite run_call_bind. cbn [handle fst snd].
  destruct (store_fault env (store_requests w)) as [projectError|] eqn:Hok.
  { eapply path_lookup_failed. exact Hok. }
  destruct (projectsWithId (CreateTaskRecordDTO.project_id data) w)
    as [|p [|q others]] eqn:Hrow.
  { apply path_project_missing; [exact Hok|]. rewrite Hrow. discriminate. }
  2: { apply path_project_missing; [exact Hok|]. rewrite Hrow. discriminate. }
  cbn [map single succeeded Response.error Response.data].
  rewrite run_bind. cbn [run].
  cbn [Project.select_columns Project.sel_status Project.sel_client_id].
  rewrite run_throwIf_bind.
  destruct (String.eqb (Project.status p) "in_progress") eqn:Hstatus; cbn [negb].
  2: { eapply path_wrong_status; [exact Hok|exact Hrow|].
       apply eqb_false_neq. exact Hstatus. }
  apply String.eqb_eq in Hstatus.
  rewrite run_throwIf_bind.
  destruct (String.eqb (Project.client_id p) clientId) eqn:Hclient; cbn [negb].
  2: { eapply path_wrong_requester; [exact Hok|exact Hrow|exact Hstatus|].
       apply eqb_false_neq. exact Hclient. }
  apply String.eqb_eq in Hclient.
  match goal with
  | |- context [bind (retryLoop ?budget ?input ?retryCount) ?k] =>
      set (rest := bind (retryLoop budget input retryCount) k)
  end.
  assert (Hrest : passesChecks env w data clientId p ->
                  createPath env w data clientId
                    (run env rest (afterChecks (CreateTaskRecordDTO.project_id data) w))).
  { intros Hpass. unfold rest. rewrite run_bind.
    fold (registrationOf data clientId).
    destruct (retryLoop_within_budget env (registrationOf data clientId)
                (Z.to_nat maxRetries) 0
                (afterChecks (CreateTaskRecordDTO.project_id data) w))
      as [blockchainResult Hreturns]; [unfold maxRetries; lia..|].
    destruct (run env (retryLoop (Z.to_nat maxRetries) (registrationOf data clientId) 0)
                (afterChecks (CreateTaskRecordDTO.project_id data) w))
      as [outcome registered] eqn:Hloop.
    cbn [fst] in Hreturns. subst outcome.
    fold (insertOf data clientId blockchainResult).
    rewrite run_call_bind. cbn [handle].
    destruct (store_fault env (store_requests registered)) as [insertError|] eqn:Hok3.
    { cbn [fst snd failed Response.error]. rewrite run_bind. cbn [run].
      eapply path_insert_failed; eassumption. }
    cbn [fst snd succeeded Response.error Response.data].
    rewrite run_bind. cbn [run].
    rewrite run_call_bind. cbn [handle fst snd].
    rewrite run_call_bind. cbn [handle].
    cbn [store_requests issued with_task_records requested].
    destruct (store_fault env (S (store_requests registered))) as [updateError|] eqn:Hok4.
    - cbn [fst snd failed Response.error].
      rewrite (run_call_bind env _ (ConsoleError _)). cbn [handle fst snd run].
      eapply path_created_not_closed; eassumption.
    - cbn [fst snd Response.error]. rewrite run_bind. cbn [run].
      eapply path_created; eassumption. }
  clearbody rest.
  rewrite run_call_bind. cbn [handle fst snd requested store_requests].
  change (tasksOfProject (CreateTaskRecordDTO.project_id data)
            (requested (SelectProject (CreateTaskRecordDTO.project_id data)) w))
    with (tasksOfProject (CreateTaskRecordDTO.project_id data) w).
  assert (Hpass :
            match store_fault env (S (store_requests w)) with
            | Some existingError => code existingError = "PGRST116"
            | None => forall existing,
                tasksOfProject (CreateTaskRecordDTO.project_id data) w <> [existing]
            end ->
            passesChecks env w data clientId p).
  { intros H. repeat split; assumption. }
  destruct (store_fault env (S (store_requests w))) as [existingError|] eqn:Hok2.
  - cbn [failed Response.data Response.error].
    rewrite run_throwIf_bind. rewrite run_bind.
    destruct (String.eqb (code existingError) "PGRST116") eqn:Hcode;
      cbn [negb throwIf run].
    2: { eapply path_duplicate_check_failed;
           [exact Hok|exact Hrow|exact Hstatus|exact Hclient|exact Hok2|].
         apply eqb_false_neq. exact Hcode. }
    apply String.eqb_eq in Hcode. exact (Hrest (Hpass Hcode)).
  - destruct (tasksOfProject (CreateTaskRecordDTO.project_id data) w)
      as [|existing [|second others]] eqn:Hdup;
      cbn [map single failed succeeded Response.data Response.error].
    + rewrite run_throwIf_bind, run_bind.
      cbn [notSingular code String.eqb Ascii.eqb Bool.eqb negb throwIf run].
      apply Hrest, Hpass. discriminate.
    + rewrite run_throwIf_bind.
      eapply path_duplicate; eassumption.
    + rewrite run_throwIf_bind, run_bind.
      cbn [notSingular code String.eqb Ascii.eqb Bool.eqb negb throwIf run].
      apply Hrest, Hpass. discriminate.
Qed.

(** ** The retry loop: what it costs *)

(** The loop of [createTaskRecord] calls the registrar at least once and at
    most three times, and waits for at most 6000 ms. *)
Lemma retryLoop_spends (env : Env) (input : RecordTaskInput.t) (w : World) :
  (registrar_calls w
   < registrar_calls (snd (run env (retryLoop (Z.to_nat maxRetries) input 0) w))
   <= registrar_calls w + 3)%nat
  /\ clock w
     <= clock (snd (run env (retryLoop (Z.to_nat maxRetries) input 0) w))
     <= clock w + 6000.
Proof.
  change (Z.to_nat maxRetries) with 3%nat. simpl.
  destruct (recordTask env (registrar_calls w) input); simpl; [|lia].
  destruct (recordTask env (S (registrar_calls w)) input); simpl; [|lia].
  destruct (recordTask env (S (S (registrar_calls w))) input); simpl; lia.
Qed.

(** When the first [failures] calls of the registrar throw and the next one
    resolves, with [failures] below 3, the loop ends with that result after
    [failures + 1] calls and a wait of 0, 2000 or 6000 ms. *)
Lemma retryLoop_resolves_after (env : Env) (input : RecordTaskInput.t) (w : World)
    (failures : nat) (result : BlockchainTaskResult) :
  (failures < 3)%nat ->
  (forall j, (j < failures)%nat ->
             exists thrown, recordTask env (registrar_calls w + j) input = inl thrown) ->
  recordTask env (registrar_calls w + failures) input = inr result ->
  exists w',
    run env (retryLoop (Z.to_nat maxRetries) input 0) w = (Returned (Some result), w')
    /\ registrar_calls w' = (registrar_calls w + failures + 1)%nat
    /\ clock w' = clock w + (2 ^ Z.of_nat (failures + 1) - 2) * 1000.
Proof.
  intros Hlt Hfail Hresolves.
  change (Z.to_nat maxRetries) with 3%nat.
  destruct failures as [|[|[|failures]]]; [| | |lia].
  - rewrite Nat.add_0_r in Hresolves.
    eexists. split; [simpl; rewrite Hresolves; reflexivity|].
    simpl. split; lia.
  - destruct (Hfail 0%nat) as [t0 H0]; [lia|]. rewrite Nat.add_0_r in H0.
    rewrite Nat.add_1_r in Hresolves.
    eexists. split; [simpl; rewrite H0; simpl; rewrite Hresolves; reflexivity|].
    simpl. split; lia.
  - destruct (Hfail 0%nat) as [t0 H0]; [lia|]. rewrite Nat.add_0_r in H0.
    destruct (Hfail 1%nat) as [t1 H1]; [lia|]. rewrite Nat.add_1_r in H1.
    replace (registrar_calls w + 2)%nat with (S (S (registrar_calls w))) in Hresolves
      by lia.
    eexists. split;
      [simpl; rewrite H0; simpl; rewrite H1; simpl; rewrite Hresolves; reflexivity|].
    simpl. split; lia.
Qed.

(** ** createTaskRecord: consequences *)

(** The world in which the loop of [createTaskRecord] ends has the tables
    of the initial world, two store requests more, and the cost of the
    loop. *)
Lemma registered_world
    (env : Env) (w registered : World) (data : CreateTaskRecordDTO.t)
    (clientId : string) (blockchainResult : option BlockchainTaskResult) :
  run env (retryLoop (Z.to_nat maxRetries) (registrationOf data clientId) 0)
    (afterChecks (CreateTaskRecordDTO.project_id data) w)
  = (Returned blockchainResult, registered) ->
  projects registered = projects w
  /\ task_records registered = task_records w
  /\ store_requests registered = S (S (store_requests w))
  /\ (registrar_calls w < registrar_calls registered <= registrar_calls w + 3)%nat
  /\ clock w <= clock registered <= clock w + 6000.
Proof.
  intros Hloop.
  pose proof (retryLoop_frame env (registrationOf data clientId) (Z.to_nat maxRetries) 0
                (afterChecks (CreateTaskRecordDTO.project_id data) w)) as Hframe.
  pose proof (retryLoop_spends env (registrationOf data clientId)
                (afterChecks (CreateTaskRecordDTO.project_id data) w)) as Hspends.
  rewrite Hloop in Hframe, Hspends. cbn [snd] in Hframe, Hspends.
  destruct Hframe as (Hprojects & Htasks & Hrequests).
  repeat split; try assumption; apply Hspends.
Qed.

(** Unfolds the worlds the paths end in, as far as the projections of the
    goal need. *)
Ltac worlds :=
  cbn [afterClose afterFailedClose afterInsert afterChecks
       projects task_records registrar_calls clock store_requests trace
       requested issued with_projects with_task_records asked].

(** A run of createTaskRecord that throws ends with the tables it started
    with. *)
Lemma createTaskRecord_failure_tables
    (env : Env) (w w' : World) (data : CreateTaskRecordDTO.t) (clientId : string)
    (e : Exception) :
  run env (createTaskRecord data clientId) w = (Thrown e, w') ->
  projects w' = projects w /\ task_records w' = task_records w.
Proof.
  intros Hrun.
  pose proof (createTaskRecord_path env w data clientId) as Hpath.
  rewrite Hrun in Hpath.
  inversion Hpath; subst; worlds; try (split; reflexivity).
  match goal with
  | Hloop : run env (retryLoop _ _ _) _ = _ |- _ =>
      apply registered_world in Hloop as (Hprojects & Htasks & _)
  end.
  split; assumption.
Qed.

(** X1.  A run of createTaskRecord that throws has changed neither table. *)
Theorem createTaskRecord_failure_writes_nothing
    (env : Env) (w w' : World) (data : CreateTaskRecordDTO.t) (clientId : string)
    (e : Exception) :
  run env (createTaskRecord data clientId) w = (Thrown e, w') ->
  sameTables w w'.
Proof.
  intros Hrun. exact (createTaskRecord_failure_tables env w w' data clientId e Hrun).
Qed.

(** X2.  The registrar is called only for a request that has passed the four
    checks: a run that has called it has found the project, in progress,
    owned by the requester, and has found no record of it. *)
Theorem createTaskRecord_registers_only_checked_requests
    (env : Env) (w : World) (data : CreateTaskRecordDTO.t) (clientId : string) :
  registrar_calls (snd (run env (createTaskRecord data clientId) w))
  <> registrar_calls w ->
  exists p, passesChecks env w data clientId p.
Proof.
  intros Hcalled.
  pose proof (createTaskRecord_path env w data clientId) as Hpath.
  destruct (run env (createTaskRecord data clientId) w) as [outcome w'].
  cbn [snd] in Hcalled.
  inversion Hpath; subst; try (exfalso; apply Hcalled; reflexivity);
    eexists; eassumption.
Qed.

(** X3.  No run of createTaskRecord calls the registrar more than three times
    or waits for more than 6000 ms in all. *)
Theorem createTaskRecord_retry_bounds
    (env : Env) (w : World) (data : CreateTaskRecordDTO.t) (clientId : string) :
  (registrar_calls w
   <= registrar_calls (snd (run env (createTaskRecord data clientId) w))
   <= registrar_calls w + 3)%nat
  /\ clock w
     <= clock (snd (run env (createTaskRecord data clientId) w))
     <= clock w + 6000.
Proof.
  pose proof (createTaskRecord_path env w data clientId) as Hpath.
  destruct (run env (createTaskRecord data clientId) w) as [outcome w'].
  cbn [snd].
  inversion Hpath; subst; worlds; try lia;
    match goal with
    | Hloop : run env (retryLoop _ _ _) _ = _ |- _ =>
        apply registered_world in Hloop as (_ & _ & _ & Hcalls & Hclock)
    end; lia.
Qed.

(** A request that passes the checks goes through the loop; what follows
    depends on the answers to the insert and to the update of the
    project. *)
Lemma createTaskRecord_passed
    (env : Env) (w : World) (data : CreateTaskRecordDTO.t) (clientId : string)
    (p : Project.t) :
  passesChecks env w data clientId p ->
  exists blockchainResult registered,
    run env (retryLoop (Z.to_nat maxRetries) (registrationOf data clientId) 0)
      (afterChecks (CreateTaskRecordDTO.project_id data) w)
    = (Returned blockchainResult, registered)
    /\ run env (createTaskRecord data clientId) w
       = match store_fault env (S (S (store_requests w))) with
         | Some insertError =>
             (Thrown (AppError ("Failed to create task record: "
                                  ++ message insertError) 500),
              requested (InsertTask (insertOf data clientId blockchainResult))
                registered)
         | None =>
             (Returned (Some (recordOf env data clientId blockchainResult registered)),
              match store_fault env (S (S (S (store_requests w)))) with
              | Some updateError =>
                  afterFailedClose env data clientId blockchainResult registered
                    updateError
              | None => afterClose env data clientId blockchainResult registered
              end)
         end.
Proof.
  intros (Hok & Hrow & Hstatus & Hclient & Hdup).
  pose proof (createTaskRecord_path env w data clientId) as Hpath.
  inversion Hpath as
      [projectError Hfault Hrun
      |Hok' Hmissing Hrun
      |q Hok' Hrow' Hstatus' Hrun
      |q Hok' Hrow' Hstatus' Hclient' Hrun
      |q existing Hok' Hrow' Hstatus' Hclient' Hok2 Hexisting Hrun
      |q existingError Hok' Hrow' Hstatus' Hclient' Hfault2 Hcode Hrun
      |q blockchainResult registered insertError Hpass Hloop Hinsert Hrun
      |q blockchainResult registered Hpass Hloop Hinsert Hupdate Hrun
      |q blockchainResult registered updateError Hpass Hloop Hinsert Hupdate Hrun].
  - congruence.
  - contradiction (Hmissing p).
  - rewrite Hrow in Hrow'. injection Hrow' as <-. contradiction.
  - rewrite Hrow in Hrow'. injection Hrow' as <-. contradiction.
  - rewrite Hok2 in Hdup. contradiction (Hdup existing).
  - rewrite Hfault2 in Hdup. contradiction.
  - exists blockchainResult, registered. split; [exact Hloop|].
    apply registered_world in Hloop as (_ & _ & Hrequests & _).
    rewrite Hrequests in Hinsert. rewrite Hinsert. symmetry. exact Hrun.
  - exists blockchainResult, registered. split; [exact Hloop|].
    apply registered_world in Hloop as (_ & _ & Hrequests & _).
    rewrite Hrequests in Hinsert, Hupdate. rewrite Hinsert, Hupdate.
    symmetry. exact Hrun.
  - exists blockchainResult, registered. split; [exact Hloop|].
    apply registered_world in Hloop as (_ & _ & Hrequests & _).
    rewrite Hrequests in Hinsert, Hupdate. rewrite Hinsert, Hupdate.
    symmetry. exact Hrun.
Qed.


Lemma projectsWithId_patchProjects (id : string) (u : Project.patch) (w : World) :
  filter (fun p => String.eqb (Project.id p) id) (patchProjects id u (projects w))
  = map (Project.apply u) (projectsWithId id w).
Proof.
  unfold patchProjects, projectsWithId.
  rewrite filter_map_stable.
  - induction (projects w) as [|p l IH]; cbn [filter map]; [reflexivity|].
    destruct (String.eqb (Project.id p) id) eqn:Hid; cbn [map]; rewrite ?Hid, IH;
      reflexivity.
  - intros p. destruct (String.eqb (Project.id p) id) eqn:Hid;
      [cbn [Project.apply Project.id]|]; exact Hid.
Qed.

Lemma patchProjects_pointwise (id : string) (u : Project.patch) (rows : list Project.t) :
  Forall2 (fun old new =>
             new = if String.eqb (Project.id old) id then Project.apply u old else old)
    rows (patchProjects id u rows).
Proof.
  induction rows as [|p l IH]; cbn [patchProjects map]; constructor.
  - reflexivity.
  - exact IH.
Qed.

(** X4.  When the insert fails after the checks have passed, createTaskRecord
    throws an AppError with status 500 that quotes the store's message;
    neither table has changed, although the registrar has been called. *)
Theorem createTaskRecord_insert_failure
    (env : Env) (w : World) (data : CreateTaskRecordDTO.t) (clientId : string)
    (p : Project.t) (insertError : PostgrestError) :
  passesChecks env w data clientId p ->
  store_fault env (S (S (store_requests w))) = Some insertError ->
  exists w',
    run env (createTaskRecord data clientId) w
    = (Thrown (AppError ("Failed to create task record: " ++ message insertError) 500),
       w')
    /\ sameTables w w'
    /\ (registrar_calls w < registrar_calls w')%nat.
Proof.
  intros Hpass Hinsert.
  destruct (createTaskRecord_passed env w data clientId p Hpass)
    as (blockchainResult & registered & Hloop & Hrun).
  rewrite Hinsert in Hrun.
  apply registered_world in Hloop as (Hprojects & Htasks & _ & Hcalls & _).
  eexists. split; [exact Hrun|].
  unfold sameTables. worlds. repeat split; try assumption. lia.
Qed.

(** X5.  When the checks pass and the store accepts the insert and the update,
    createTaskRecord returns the new record and closes the project: its
    status becomes "completed" or "cancelled" as [completed] says, its
    [updated_at] the time of the call, and no other project changes. *)
Theorem createTaskRecord_closes_project
    (env : Env) (w : World) (data : CreateTaskRecordDTO.t) (clientId : string)
    (p : Project.t) :
  passesChecks env w data clientId p ->
  store_fault env (S (S (store_requests w))) = None ->
  store_fault env (S (S (S (store_requests w)))) = None ->
  exists taskRecord w',
    run env (createTaskRecord data clientId) w = (Returned (Some taskRecord), w')
    /\ task_records w' = (task_records w ++ [taskRecord])%list
    /\ projectsWithId (CreateTaskRecordDTO.project_id data) w'
       = [{| Project.id := Project.id p;
             Project.client_id := Project.client_id p;
             Project.status :=
               if CreateTaskRecordDTO.completed data then "completed" else "cancelled";
             Project.title := Project.title p;
             Project.updated_at := toISOString env (clock w') |}]
    /\ Forall2 (fun old new =>
                  String.eqb (Project.id old) (CreateTaskRecordDTO.project_id data)
                  = false ->
                  new = old)
         (projects w) (projects w').
Proof.
  intros Hpass Hinsert Hupdate.
  destruct (createTaskRecord_passed env w data clientId p Hpass)
    as (blockchainResult & registered & Hloop & Hrun).
  rewrite Hinsert, Hupdate in Hrun.
  destruct Hpass as (_ & Hrow & _).
  apply registered_world in Hloop as (Hprojects & Htasks & _).
  eexists. eexists. split; [exact Hrun|]. worlds.
  rewrite Htasks, Hprojects. split; [reflexivity|]. split.
  - unfold projectsWithId at 1. worlds.
    rewrite Hprojects, projectsWithId_patchProjects, Hrow. reflexivity.
  - eapply Forall2_impl; [|apply patchProjects_pointwise].
    intros old new -> Hother. rewrite Hother. reflexivity.
Qed.

(** X6.  When the update of the project fails after the insert, createTaskRecord
    still returns the stored record; the project keeps its status and the
    failure is only logged, as the last thing the run does. *)
Theorem createTaskRecord_swallows_project_update_failure
    (env : Env) (w : World) (data : CreateTaskRecordDTO.t) (clientId : string)
    (p : Project.t) (updateError : PostgrestError) :
  passesChecks env w data clientId p ->
  store_fault env (S (S (store_requests w))) = None ->
  store_fault env (S (S (S (store_requests w)))) = Some updateError ->
  exists taskRecord w' earlier,
    run env (createTaskRecord data clientId) w = (Returned (Some taskRecord), w')
    /\ task_records w' = (task_records w ++ [taskRecord])%list
    /\ projects w' = projects w
    /\ issuedSince w w'
       = (earlier
            ++ [ConsoleError
                  (ProjectUpdateFailed
                     ("Failed to update project status: " ++ message updateError))])%list.
Proof.
  intros Hpass Hinsert Hupdate.
  destruct (createTaskRecord_passed env w data clientId p Hpass)
    as (blockchainResult & registered & Hloop & Hrun).
  rewrite Hinsert, Hupdate in Hrun.
  destruct (run_trace env _
              (retryLoop (Z.to_nat maxRetries) (registrationOf data clientId) 0)
              (afterChecks (CreateTaskRecordDTO.project_id data) w))
    as [new Hnew].
  rewrite Hloop in Hnew. cbn [snd] in Hnew.
  apply registered_world in Hloop as (Hprojects & Htasks & _).
  exists (recordOf env data clientId blockchainResult registered),
    (afterFailedClose env data clientId blockchainResult registered updateError),
    ([SelectProject (CreateTaskRecordDTO.project_id data);
      SelectTaskIdByProject (CreateTaskRecordDTO.project_id data)]
       ++ new
       ++ [InsertTask (insertOf data clientId blockchainResult);
           NewDateISO;
           UpdateProject (CreateTaskRecordDTO.project_id data)
             (closingAt env data registered)])%list.
  split; [exact Hrun|]. worlds.
  rewrite Htasks, Hprojects. split; [reflexivity|]. split; [reflexivity|].
  apply issuedSince_app. worlds. rewrite Hnew. worlds.
  repeat rewrite <- app_assoc. reflexivity.
Qed.

(** X7.  When the registrar throws [failures] times, fewer than 3, and then
    resolves, createTaskRecord calls it [failures + 1] times, has waited
    0, 2000 or 6000 ms, and stores the hash and the task id of that
    result. *)
Theorem createTaskRecord_stops_at_first_success
    (env : Env) (w : World) (data : CreateTaskRecordDTO.t) (clientId : string)
    (p : Project.t) (failures : nat) (result : BlockchainTaskResult) :
  passesChecks env w data clientId p ->
  store_fault env (S (S (store_requests w))) = None ->
  (failures < 3)%nat ->
  (forall j, (j < failures)%nat ->
     exists thrown,
       recordTask env (registrar_calls w + j) (registrationOf data clientId)
       = inl thrown) ->
  recordTask env (registrar_calls w + failures) (registrationOf data clientId)
  = inr result ->
  exists taskRecord w',
    run env (createTaskRecord data clientId) w = (Returned (Some taskRecord), w')
    /\ TaskRecord.on_chain_tx_hash taskRecord = Some (transactionHash result)
    /\ TaskRecord.on_chain_task_id taskRecord = Some (taskId result)
    /\ registrar_calls w' = (registrar_calls w + failures + 1)%nat
    /\ clock w' = clock w + (2 ^ Z.of_nat (failures + 1) - 2) * 1000.
Proof.
  intros Hpass Hinsert Hlt Hfail Hresolves.
  destruct (createTaskRecord_passed env w data clientId p Hpass)
    as (blockchainResult & registered & Hloop & Hrun).
  rewrite Hinsert in Hrun.
  destruct (retryLoop_resolves_after env (registrationOf data clientId)
              (afterChecks (CreateTaskRecordDTO.project_id data) w)
              failures result Hlt Hfail Hresolves)
    as (registered' & Hloop' & Hcalls & Hclock).
  rewrite Hloop in Hloop'. injection Hloop' as -> <-.
  eexists. eexists. split; [exact Hrun|].
  split; [reflexivity|]. split; [reflexivity|].
  destruct (store_fault env (S (S (S (store_requests w))))); worlds;
    split; assumption.
Qed.

(** What a run of createTaskRecord that returns has gone through, in
    full. *)
Lemma createTaskRecord_created
    (env : Env) (w w' : World) (data : CreateTaskRecordDTO.t) (clientId : string)
    (result : option TaskRecord.t) :
  run env (createTaskRecord data clientId) w = (Returned result, w') ->
  exists p blockchainResult registered,
    passesChecks env w data clientId p
    /\ run env (retryLoop (Z.to_nat maxRetries) (registrationOf data clientId) 0)
         (afterChecks (CreateTaskRecordDTO.project_id data) w)
       = (Returned blockchainResult, registered)
    /\ store_fault env (S (S (store_requests w))) = None
    /\ result = Some (recordOf env data clientId blockchainResult registered)
    /\ w' = match store_fault env (S (S (S (store_requests w)))) with
            | Some updateError =>
                afterFailedClose env data clientId blockchainResult registered
                  updateError
            | None => afterClose env data clientId blockchainResult registered
            end.
Proof.
  intros Hrun.
  pose proof (createTaskRecord_path env w data clientId) as Hpath.
  rewrite Hrun in Hpath.
  inversion Hpath as
      [| | | | | |
       |q blockchainResult registered Hpass Hloop Hinsert Hupdate
       |q blockchainResult registered updateError Hpass Hloop Hinsert Hupdate];
    subst; exists q, blockchainResult, registered;
    pose proof (registered_world env w registered data clientId blockchainResult Hloop)
      as (_ & _ & Hrequests & _);
    rewrite Hrequests in Hinsert, Hupdate; rewrite Hupdate; auto.
Qed.

Lemma sameTasks_oneRecordPerProject (w w' : World) :
  task_records w' = task_records w -> oneRecordPerProject w -> oneRecordPerProject w'.
Proof.
  intros Htasks Hone project_id. unfold tasksOfProject. rewrite Htasks. apply Hone.
Qed.

(** X8.  createTaskRecord keeps the store at one record per project at most,
    provided the duplicate check does not fail with PGRST116. *)
Theorem createTaskRecord_keeps_one_record_per_project
    (env : Env) (w : World) (data : CreateTaskRecordDTO.t) (clientId : string) :
  oneRecordPerProject w ->
  (forall existingError,
      store_fault env (S (store_requests w)) = Some existingError ->
      code existingError <> "PGRST116") ->
  oneRecordPerProject (snd (run env (createTaskRecord data clientId) w)).
Proof.
  intros Hone Hcheck.
  destruct (run env (createTaskRecord data clientId) w) as [[result|e|] w'] eqn:Hrun;
    cbn [snd].
  - apply createTaskRecord_created in Hrun
      as (p & blockchainResult & registered & Hpass & Hloop & _ & _ & ->).
    apply registered_world in Hloop as (_ & Htasks & _).
    destruct Hpass as (_ & _ & _ & _ & Hdup).
    assert (Hnone : tasksOfProject (CreateTaskRecordDTO.project_id data) w = []).
    { destruct (store_fault env (S (store_requests w))) as [existingError|] eqn:Hfault.
      - exfalso. exact (Hcheck existingError eq_refl Hdup).
      - specialize (Hone (CreateTaskRecordDTO.project_id data)).
        destruct (tasksOfProject (CreateTaskRecordDTO.project_id data) w)
          as [|existing [|second others]]; [reflexivity| |cbn in Hone; lia].
        exfalso. apply (Hdup existing). reflexivity. }
    intros project_id. unfold tasksOfProject.
    assert (Htable :
              task_records
                (match store_fault env (S (S (S (store_requests w)))) with
                 | Some updateError =>
                     afterFailedClose env data clientId blockchainResult registered
                       updateError
                 | None => afterClose env data clientId blockchainResult registered
                 end)
              = (task_records w
                   ++ [recordOf env data clientId blockchainResult registered])%list).
    { destruct (store_fault env (S (S (S (store_requests w))))); worlds;
        rewrite Htasks; reflexivity. }
    rewrite Htable, filter_app, length_app. cbn [filter recordOf newRow insertOf
      TaskRecord.project_id TaskRecord.ins_project_id].
    destruct (String.eqb (CreateTaskRecordDTO.project_id data) project_id) eqn:Hid.
    + apply String.eqb_eq in Hid. subst project_id.
      unfold tasksOfProject in Hnone. rewrite Hnone. cbn. lia.
    + specialize (Hone project_id). unfold tasksOfProject in Hone. cbn. lia.
  - apply createTaskRecord_failure_tables in Hrun as [_ Htasks].
    exact (sameTasks_oneRecordPerProject w w' Htasks Hone).
  - exfalso. apply (createTaskRecord_terminates env w data clientId).
    rewrite Hrun. reflexivity.
Qed.

(** X9.  Once createTaskRecord has returned and the project has been closed, no
    request for that project gets past the first two checks again,
    whoever sends it and whatever the store and the registrar do: the run
    throws NotFoundError or ValidationError and writes nothing. *)
Theorem createTaskRecord_not_twice
    (env env' : Env) (w w1 : World) (data data' : CreateTaskRecordDTO.t)
    (clientId clientId' : string) (result : option TaskRecord.t) :
  run env (createTaskRecord data clientId) w = (Returned result, w1) ->
  store_fault env (S (S (S (store_requests w)))) = None ->
  CreateTaskRecordDTO.project_id data' = CreateTaskRecordDTO.project_id data ->
  exists e w2,
    run env' (createTaskRecord data' clientId') w1 = (Thrown e, w2)
    /\ (e = NotFoundError "Project not found" \/ exists msg, e = ValidationError msg)
    /\ sameTables w1 w2.
Proof.
  intros Hrun Hupdate Hsame.
  apply createTaskRecord_created in Hrun
    as (p & blockchainResult & registered & Hpass & Hloop & _ & _ & ->).
  rewrite Hupdate.
  destruct Hpass as (_ & Hrow & _).
  apply registered_world in Hloop as (Hprojects & _).
  assert (Hclosed :
            projectsWithId (CreateTaskRecordDTO.project_id data')
              (afterClose env data clientId blockchainResult registered)
            = [Project.apply (closingAt env data registered) p]).
  { rewrite Hsame. unfold projectsWithId at 1. worlds.
    rewrite Hprojects, projectsWithId_patchProjects, Hrow. reflexivity. }
  pose proof (createTaskRecord_path env'
                (afterClose env data clientId blockchainResult registered)
                data' clientId') as Hpath.
  destruct (run env' (createTaskRecord data' clientId')
              (afterClose env data clientId blockchainResult registered))
    as [outcome w2].
  assert (Hnot :
            forall q,
              projectsWithId (CreateTaskRecordDTO.project_id data')
                (afterClose env data clientId blockchainResult registered) = [q] ->
              Project.status q = "in_progress" -> False).
  { intros q Hq Hstatus. rewrite Hclosed in Hq. injection Hq as <-.
    cbn in Hstatus. destruct (CreateTaskRecordDTO.completed data); discriminate. }
  inversion Hpath; subst;
    try (eexists; eexists;
         split; [reflexivity|split; [eauto|split; reflexivity]]);
    try (exfalso; eapply Hnot; eassumption);
    match goal with
    | Hpass : passesChecks _ _ _ _ _ |- _ =>
        destruct Hpass as (_ & Hq & Hstatus & _); exfalso; eapply Hnot; eassumption
    end.
Qed.

(** ** createTaskRecord: the commands it issues *)




(** ** updateTaskRating: every way through *)

Lemma updateTaskRating_path
    (env : Env) (w : World) (recordId : string) (data : UpdateTaskRatingDTO.t)
    (clientId : string) :
  ratePath env w recordId data clientId
    (run env (updateTaskRating recordId data clientId) w).
Proof.
  unfold updateTaskRating.
  rewrite run_call_bind. cbn [handle fst snd].
  destruct (store_fault env (store_requests w)) as [fetchError|] eqn:Hok.
  { cbn [failed Response.error Response.data]. rewrite run_bind.
    destruct (String.eqb (code fetchError) "PGRST116") eqn:Hcode; cbn [run].
    - eapply rate_no_rows; [exact Hok|]. apply String.eqb_eq. exact Hcode.
    - eapply rate_fetch_failed; [exact Hok|]. apply eqb_false_neq. exact Hcode. }
  destruct (tasksWithId recordId w) as [|taskRecord [|second others]] eqn:Hrow.
  { apply rate_record_missing; [exact Hok|]. rewrite Hrow. discriminate. }
  2: { apply rate_record_missing; [exact Hok|]. rewrite Hrow. discriminate. }
  cbn [single succeeded Response.error Response.data].
  rewrite run_bind. cbn [run].
  rewrite run_throwIf_bind.
  destruct (String.eqb (TaskRecord.client_id taskRecord) clientId) eqn:Hclient;
    cbn [negb].
  2: { eapply rate_wrong_requester; [exact Hok|exact Hrow|].
       apply eqb_false_neq. exact Hclient. }
  apply String.eqb_eq in Hclient.
  rewrite run_throwIf_bind.
  destruct (TaskRecord.rating taskRecord) as [rated|] eqn:Hrating.
  { eapply rate_already_rated; [exact Hok|exact Hrow|exact Hclient|].
    rewrite Hrating. discriminate. }
  rewrite run_throwIf_bind.
  destruct (TaskRecord.completed taskRecord) eqn:Hcompleted; cbn [negb].
  2: { eapply rate_not_completed; eassumption. }
  assert (Hratable : ratable clientId taskRecord) by (repeat split; assumption).
  rewrite run_call_bind. cbn [handle fst snd].
  rewrite run_call_bind. cbn [handle].
  cbn [store_requests issued requested].
  change (tasksWithId recordId
            (issued NewDateISO (requested (SelectTaskById recordId) w)))
    with (tasksWithId recordId w).
  destruct (store_fault env (S (store_requests w))) as [updateError|] eqn:Hok2.
  - cbn [fst snd failed Response.error]. rewrite run_bind. cbn [run].
    eapply rate_update_failed; eassumption.
  - rewrite Hrow. cbn [fst snd succeeded Response.error Response.data].
    rewrite run_bind. cbn [run].
    eapply rate_done; eassumption.
Qed.

(** ** updateTaskRating: consequences *)

Lemma updateTaskRating_failure_tables
    (env : Env) (w w' : World) (recordId : string) (data : UpdateTaskRatingDTO.t)
    (clientId : string) (e : Exception) :
  run env (updateTaskRating recordId data clientId) w = (Thrown e, w') ->
  projects w' = projects w /\ task_records w' = task_records w.
Proof.
  intros Hrun.
  pose proof (updateTaskRating_path env w recordId data clientId) as Hpath.
  rewrite Hrun in Hpath.
  inversion Hpath; subst; split; reflexivity.
Qed.

(** X11.  A run of updateTaskRating that throws has changed neither table. *)
Theorem updateTaskRating_failure_writes_nothing
    (env : Env) (w w' : World) (recordId : string) (data : UpdateTaskRatingDTO.t)
    (clientId : string) (e : Exception) :
  run env (updateTaskRating recordId data clientId) w = (Thrown e, w') ->
  sameTables w w'.
Proof.
  intros Hrun.
  exact (updateTaskRating_failure_tables env w w' recordId data clientId e Hrun).
Qed.

(** X12.  When the store answers and holds no record with the id,
    updateTaskRating throws NotFoundError after the lookup alone. *)
Theorem updateTaskRating_not_found
    (env : Env) (w : World) (recordId : string) (data : UpdateTaskRatingDTO.t)
    (clientId : string) :
  store_fault env (store_requests w) = None ->
  tasksWithId recordId w = [] ->
  exists w',
    run env (updateTaskRating recordId data clientId) w
    = (Thrown (NotFoundError "Task record not found"), w')
    /\ sameTables w w'
    /\ issuedSince w w' = [SelectTaskById recordId].
Proof.
  intros Hok Hnone.
  pose proof (updateTaskRating_path env w recordId data clientId) as Hpath.
  destruct (run env (updateTaskRating recordId data clientId) w) as [outcome w'].
  inversion Hpath; subst; try congruence.
  eexists. split; [reflexivity|]. split; [split; reflexivity|].
  apply issuedSince_app. reflexivity.
Qed.

(** X13.  When the lookup fails with a code other than PGRST116, updateTaskRating
    throws an AppError with status 500 whose message quotes the store's
    message, or says "Unknown error" when that is empty; nothing is
    written. *)
Theorem updateTaskRating_fetch_failure
    (env : Env) (w : World) (recordId : string) (data : UpdateTaskRatingDTO.t)
    (clientId : string) (fetchError : PostgrestError) :
  store_fault env (store_requests w) = Some fetchError ->
  code fetchError <> "PGRST116" ->
  exists w',
    run env (updateTaskRating recordId data clientId) w
    = (Thrown (AppError
         ("Database error: "
            ++ (if String.eqb (message fetchError) EmptyString
                then "Unknown error" else message fetchError)) 500), w')
    /\ sameTables w w'.
Proof.
  intros Hfault Hcode.
  pose proof (updateTaskRating_path env w recordId data clientId) as Hpath.
  destruct (run env (updateTaskRating recordId data clientId) w) as [outcome w'].
  inversion Hpath as [e He Hc|e He Hc| | | | | |]; try congruence.
  rewrite Hfault in He. injection He as <-. subst.
  exists (requested (SelectTaskById recordId) w). split; [|split; reflexivity].
  unfold truthy. destruct (String.eqb (message fetchError) EmptyString); reflexivity.
Qed.

(** X14.  updateTaskRating returns only when the requester is the client of the
    one record with the id, and that record is completed and not yet
    rated. *)
Theorem updateTaskRating_returns_only_for_ratable
    (env : Env) (w w' : World) (recordId : string) (data : UpdateTaskRatingDTO.t)
    (clientId : string) (result : option TaskRecord.t) :
  run env (updateTaskRating recordId data clientId) w = (Returned result, w') ->
  exists taskRecord,
    tasksWithId recordId w = [taskRecord]
    /\ TaskRecord.client_id taskRecord = clientId
    /\ TaskRecord.completed taskRecord = true
    /\ TaskRecord.rating taskRecord = None.
Proof.
  intros Hrun.
  pose proof (updateTaskRating_path env w recordId data clientId) as Hpath.
  rewrite Hrun in Hpath.
  inversion Hpath as [| | | | | | |taskRecord Hok Hrow (Hclient & Hrating & Hcompleted)];
    subst.
  exists taskRecord. auto.
Qed.

(** X15.  When the store answers both requests and the one record with the id
    is completed, not rated, and the requester's, updateTaskRating returns
    it with the rating given and [updated_at] at the time of the call, and
    that is the record the store then holds. *)
Theorem updateTaskRating_succeeds
    (env : Env) (w : World) (recordId : string) (data : UpdateTaskRatingDTO.t)
    (clientId : string) (taskRecord : TaskRecord.t) :
  store_fault env (store_requests w) = None ->
  tasksWithId recordId w = [taskRecord] ->
  ratable clientId taskRecord ->
  store_fault env (S (store_requests w)) = None ->
  exists rated w',
    run env (updateTaskRating recordId data clientId) w = (Returned (Some rated), w')
    /\ tasksWithId recordId w' = [rated]
    /\ TaskRecord.rating rated = Some (UpdateTaskRatingDTO.rating data)
    /\ TaskRecord.updated_at rated = toISOString env (clock w)
    /\ sameOutsideRating taskRecord rated.
Proof.
  intros Hok Hrow Hratable Hok2.
  pose proof (updateTaskRating_path env w recordId data clientId) as Hpath.
  destruct (run env (updateTaskRating recordId data clientId) w) as [outcome w'].
  destruct Hratable as (Hclient & Hrating & Hcompleted).
  inversion Hpath as
      [| | |r Hok' Hrow' Hclient'|r Hok' Hrow' Hclient' Hrating'
       |r Hok' Hrow' Hclient' Hrating' Hcompleted'
       |r updateError Hok' Hrow' Hratable' Hfault|r Hok' Hrow' Hratable' Hok2'];
    subst; try congruence;
    rewrite Hrow in Hrow'; injection Hrow' as <-; try congruence.
  eexists. eexists. split; [reflexivity|]. split.
  - unfold tasksWithId at 1. cbn [task_records with_task_records].
    rewrite tasksWithId_patchTasks, Hrow. reflexivity.
  - repeat split.
Qed.

(** X16.  When the update fails, updateTaskRating throws an AppError with status
    500 that quotes the store's message, and the record is as it was. *)
Theorem updateTaskRating_update_failure
    (env : Env) (w : World) (recordId : string) (data : UpdateTaskRatingDTO.t)
    (clientId : string) (taskRecord : TaskRecord.t) (updateError : PostgrestError) :
  store_fault env (store_requests w) = None ->
  tasksWithId recordId w = [taskRecord] ->
  ratable clientId taskRecord ->
  store_fault env (S (store_requests w)) = Some updateError ->
  exists w',
    run env (updateTaskRating recordId data clientId) w
    = (Thrown (AppError ("Failed to update task rating: " ++ message updateError) 500),
       w')
    /\ sameTables w w'
    /\ tasksWithId recordId w' = [taskRecord].
Proof.
  intros Hok Hrow Hratable Hfault.
  pose proof (updateTaskRating_path env w recordId data clientId) as Hpath.
  destruct (run env (updateTaskRating recordId data clientId) w) as [outcome w'].
  destruct Hratable as (Hclient & Hrating & Hcompleted).
  inversion Hpath as
      [| | |r Hok' Hrow' Hclient'|r Hok' Hrow' Hclient' Hrating'
       |r Hok' Hrow' Hclient' Hrating' Hcompleted'
       |r e Hok' Hrow' Hratable' Hfault'|r Hok' Hrow' Hratable' Hok2'];
    subst; try congruence;
    rewrite Hrow in Hrow'; injection Hrow' as <-; try congruence.
  rewrite Hfault in Hfault'. injection Hfault' as <-.
  eexists. split; [reflexivity|]. split; [split; reflexivity|]. exact Hrow.
Qed.

(** X17.  Once updateTaskRating has returned for a record, every further call for
    it throws, whoever sends it, whatever rating it carries and whatever
    the store does, and the stored rating stays the one of the first
    call. *)
Theorem rating_is_write_once
    (env env' : Env) (w w1 : World) (recordId : string)
    (data data' : UpdateTaskRatingDTO.t) (clientId clientId' : string)
    (result : option TaskRecord.t) :
  run env (updateTaskRating recordId data clientId) w = (Returned result, w1) ->
  exists e w2,
    run env' (updateTaskRating recordId data' clientId') w1 = (Thrown e, w2)
    /\ task_records w2 = task_records w1
    /\ map TaskRecord.rating (tasksWithId recordId w2)
       = [Some (UpdateTaskRatingDTO.rating data)].
Proof.
  intros Hrun.
  pose proof (updateTaskRating_path env w recordId data clientId) as Hpath.
  rewrite Hrun in Hpath.
  inversion Hpath as [| | | | | | |taskRecord Hok Hrow Hratable Hok2]; subst.
  set (w1 := with_task_records
               (patchTasks recordId (updateDataOf env data w) (task_records w))
               (requested (UpdateTask recordId (updateDataOf env data w))
                  (beforeUpdate recordId w))) in *.
  assert (Hrated : tasksWithId recordId w1
                   = [TaskRecord.apply (updateDataOf env data w) taskRecord]).
  { unfold tasksWithId at 1. unfold w1. cbn [task_records with_task_records].
    rewrite tasksWithId_patchTasks, Hrow. reflexivity. }
  pose proof (updateTaskRating_path env' w1 recordId data' clientId') as Hpath'.
  destruct (run env' (updateTaskRating recordId data' clientId') w1)
    as [outcome w2].
  inversion Hpath' as
      [| | |r Hok' Hrow'|r Hok' Hrow'
       |r Hok' Hrow' Hclient' Hrating'
       |r e Hok' Hrow' (Hclient' & Hrating' & Hcompleted')
       |r Hok' Hrow' (Hclient' & Hrating' & Hcompleted')];
    subst;
    try (rewrite Hrated in Hrow'; injection Hrow' as <-; discriminate Hrating');
    (eexists; eexists; split; [reflexivity|]; split; [reflexivity|]);
    unfold tasksWithId in *; cbn [task_records requested] in *;
    rewrite Hrated; reflexivity.
Qed.

(** ** The read operations *)

Section Ordering.

Lemma insertNewerFirst_perm (r : TaskRecord.t) (rows : list TaskRecord.t) :
  Permutation (r :: rows) (insertNewerFirst r rows).
Proof.
  induction rows as [|r' rest IH]; cbn [insertNewerFirst]; [reflexivity|].
  destruct (newerFirst r r'); [reflexivity|].
  rewrite perm_swap. apply perm_skip. exact IH.
Qed.

Lemma orderByCreatedAtDesc_perm (rows : list TaskRecord.t) :
  Permutation rows (orderByCreatedAtDesc rows).
Proof.
  induction rows as [|r rest IH]; cbn [orderByCreatedAtDesc fold_right];
    [reflexivity|].
  rewrite <- insertNewerFirst_perm. apply perm_skip. exact IH.
Qed.

Lemma newerFirst_total (r r' : TaskRecord.t) :
  newerFirst r r' = false -> newerFirst r' r = true.
Proof.
  unfold newerFirst. intros H.
  destruct (String.leb_total (TaskRecord.created_at r') (TaskRecord.created_at r))
    as [Hle|Hle]; [congruence|exact Hle].
Qed.

Lemma insertNewerFirst_sorted (r : TaskRecord.t) (rows : list TaskRecord.t) :
  Sorted (fun a b => newerFirst a b = true) rows ->
  Sorted (fun a b => newerFirst a b = true) (insertNewerFirst r rows).
Proof.
  induction rows as [|r' rest IH]; cbn [insertNewerFirst]; intros Hsorted.
  - repeat constructor.
  - destruct (newerFirst r r') eqn:Hnewer.
    + constructor; [exact Hsorted|]. constructor. exact Hnewer.
    + apply Sorted_inv in Hsorted as [Hrest Hhead].
      constructor; [exact (IH Hrest)|].
      destruct rest as [|r'' rest']; cbn [insertNewerFirst].
      * constructor. apply newerFirst_total. exact Hnewer.
      * destruct (newerFirst r r''); constructor.
        -- apply newerFirst_total. exact Hnewer.
        -- apply HdRel_inv in Hhead. exact Hhead.
Qed.

Lemma orderByCreatedAtDesc_sorted (rows : list TaskRecord.t) :
  Sorted (fun a b => newerFirst a b = true) (orderByCreatedAtDesc rows).
Proof.
  induction rows as [|r rest IH]; cbn [orderByCreatedAtDesc fold_right].
  - constructor.
  - apply insertNewerFirst_sorted. exact IH.
Qed.

End Ordering.

(** X18.  getTaskRecordByProjectId treats absence as a result, not as an error:
    when the store answers, it returns the record of the project if there
    is exactly one and null otherwise, and a failure with code PGRST116 is
    returned as null as well; it throws, an AppError with status 500, only
    for a failure with another code.  It changes neither table. *)
Theorem getTaskRecordByProjectId_outcomes
    (env : Env) (w : World) (projectId : string) :
  (store_fault env (store_requests w) = None ->
   fst (getTaskRecordByProjectId env projectId w)
   = Returned (match tasksOfProject projectId w with
               | [taskRecord] => Some taskRecord
               | _ => None
               end))
  /\ (forall error,
         store_fault env (store_requests w) = Some error ->
         fst (getTaskRecordByProjectId env projectId w)
         = if String.eqb (code error) "PGRST116"
           then Returned None
           else Thrown (AppError ("Database error: " ++ message error) 500))
  /\ sameTables w (snd (getTaskRecordByProjectId env projectId w)).
Proof.
  unfold getTaskRecordByProjectId, selectTaskByProject. repeat split.
  - intros Hok. rewrite Hok.
    destruct (tasksOfProject projectId w) as [|r [|r' l]]; reflexivity.
  - intros error Hfault. rewrite Hfault. cbn [failed Response.error].
    destruct (String.eqb (code error) "PGRST116"); reflexivity.
  - destruct (store_fault env (store_requests w)) as [error|].
    + cbn [failed Response.error].
      destruct (String.eqb (code error) "PGRST116"); reflexivity.
    + destruct (tasksOfProject projectId w) as [|r [|r' l]]; reflexivity.
  - destruct (store_fault env (store_requests w)) as [error|].
    + cbn [failed Response.error].
      destruct (String.eqb (code error) "PGRST116"); reflexivity.
    + destruct (tasksOfProject projectId w) as [|r [|r' l]]; reflexivity.
Qed.

(** X19.  When the store answers, getTaskRecordsByClientId returns the records
    of the client and no others, each as often as the table holds it, the
    newer before the older; the list is empty, not null and not an error,
    when the client has none.  It has no "no rows" case: any failure of
    the store, PGRST116 included, is thrown as an AppError with status 500
    that quotes the store's message. *)
Theorem getTaskRecordsByClientId_lists_newest_first
    (env : Env) (w : World) (clientId : string) :
  (store_fault env (store_requests w) = None ->
   exists taskRecords,
     getTaskRecordsByClientId env clientId w = (Returned (Some taskRecords), asked w)
     /\ Permutation (tasksOfClient clientId w) taskRecords
     /\ Sorted (fun a b =>
                  String.leb (TaskRecord.created_at b) (TaskRecord.created_at a) = true)
          taskRecords
     /\ (tasksOfClient clientId w = [] -> taskRecords = []))
  /\ (forall error,
         store_fault env (store_requests w) = Some error ->
         getTaskRecordsByClientId env clientId w
         = (Thrown (AppError ("Database error: " ++ message error) 500), asked w)).
Proof.
  unfold getTaskRecordsByClientId, selectTasksByClient. split.
  - intros Hok. exists (orderByCreatedAtDesc (tasksOfClient clientId w)).
    rewrite Hok.
    split; [reflexivity|]. split; [apply orderByCreatedAtDesc_perm|].
    split; [apply orderByCreatedAtDesc_sorted|]. intros ->. reflexivity.
  - intros error Hfault. rewrite Hfault. reflexivity.
Qed.

(** X20.  The same for getTaskRecordsByFreelancerId and the records of a
    freelancer: those records and no others, the newer before the older,
    the empty list when there are none, and an AppError with status 500
    for any failure of the store. *)
Theorem getTaskRecordsByFreelancerId_lists_newest_first
    (env : Env) (w : World) (freelancerId : string) :
  (store_fault env (store_requests w) = None ->
   exists taskRecords,
     getTaskRecordsByFreelancerId env freelancerId w
     = (Returned (Some taskRecords), asked w)
     /\ Permutation (tasksOfFreelancer freelancerId w) taskRecords
     /\ Sorted (fun a b =>
                  String.leb (TaskRecord.created_at b) (TaskRecord.created_at a) = true)
          taskRecords
     /\ (tasksOfFreelancer freelancerId w = [] -> taskRecords = []))
  /\ (forall error,
         store_fault env (store_requests w) = Some error ->
         getTaskRecordsByFreelancerId env freelancerId w
         = (Thrown (AppError ("Database error: " ++ message error) 500), asked w)).
Proof.
  unfold getTaskRecordsByFreelancerId, selectTasksByFreelancer. split.
  - intros Hok. exists (orderByCreatedAtDesc (tasksOfFreelancer freelancerId w)).
    rewrite Hok.
    split; [reflexivity|]. split; [apply orderByCreatedAtDesc_perm|].
    split; [apply orderByCreatedAtDesc_sorted|]. intros ->. reflexivity.
  - intros error Hfault. rewrite Hfault. reflexivity.
Qed.

(** ** The operations together *)

(** The record a run of createTaskRecord returns, and the table after
    it. *)
Lemma createTaskRecord_created_record
    (env : Env) (w w' : World) (data : CreateTaskRecordDTO.t) (clientId : string)
    (result : option TaskRecord.t) :
  run env (createTaskRecord data clientId) w = (Returned result, w') ->
  exists taskRecord,
    result = Some taskRecord
    /\ task_records w' = (task_records w ++ [taskRecord])%list
    /\ TaskRecord.id taskRecord = gen_random_uuid env (length (task_records w))
    /\ TaskRecord.project_id taskRecord = CreateTaskRecordDTO.project_id data
    /\ TaskRecord.freelancer_id taskRecord = CreateTaskRecordDTO.freelancer_id data
    /\ TaskRecord.client_id taskRecord = clientId
    /\ TaskRecord.completed taskRecord = CreateTaskRecordDTO.completed data
    /\ TaskRecord.rating taskRecord = None.
Proof.
  intros Hrun.
  apply createTaskRecord_created in Hrun
    as (p & blockchainResult & registered & _ & Hloop & _ & -> & ->).
  apply registered_world in Hloop as (_ & Htasks & _).
  exists (recordOf env data clientId blockchainResult registered).
  split; [reflexivity|]. split.
  - destruct (store_fault env (S (S (S (store_requests w))))); worlds;
      rewrite Htasks; reflexivity.
  - cbn [recordOf newRow insertOf TaskRecord.id TaskRecord.project_id
         TaskRecord.freelancer_id TaskRecord.client_id TaskRecord.completed
         TaskRecord.rating TaskRecord.ins_project_id TaskRecord.ins_freelancer_id
         TaskRecord.ins_client_id TaskRecord.ins_completed].
    rewrite Htasks. repeat split.
Qed.

(** X21.  A record that createTaskRecord has returned can be read back: it is
    in the listing of its client and in the listing of its freelancer,
    and it is what getTaskRecordByProjectId returns for its project when
    the project had no record before. *)
Theorem created_record_is_read_back
    (env env' : Env) (w w1 : World) (data : CreateTaskRecordDTO.t)
    (clientId : string) (taskRecord : TaskRecord.t) :
  run env (createTaskRecord data clientId) w = (Returned (Some taskRecord), w1) ->
  store_fault env' (store_requests w1) = None ->
  (tasksOfProject (CreateTaskRecordDTO.project_id data) w = [] ->
   fst (getTaskRecordByProjectId env' (CreateTaskRecordDTO.project_id data) w1)
   = Returned (Some taskRecord))
  /\ (exists taskRecords,
        fst (getTaskRecordsByClientId env' clientId w1) = Returned (Some taskRecords)
        /\ In taskRecord taskRecords)
  /\ (exists taskRecords,
        fst (getTaskRecordsByFreelancerId env'
               (CreateTaskRecordDTO.freelancer_id data) w1)
        = Returned (Some taskRecords)
        /\ In taskRecord taskRecords).
Proof.
  intros Hrun Hok.
  apply createTaskRecord_created_record in Hrun
    as (r & Hsome & Htasks & _ & Hproject & Hfreelancer & Hclient & _).
  injection Hsome as <-.
  split; [|split].
  - intros Hnone.
    unfold getTaskRecordByProjectId, selectTaskByProject. rewrite Hok.
    unfold tasksOfProject in *. rewrite Htasks, filter_app, Hnone.
    cbn [filter app]. rewrite Hproject, String.eqb_refl. reflexivity.
  - unfold getTaskRecordsByClientId, selectTasksByClient. rewrite Hok.
    eexists. split; [reflexivity|].
    apply (Permutation_in _ (orderByCreatedAtDesc_perm _)).
    unfold tasksOfClient. rewrite Htasks. apply filter_In. split.
    + apply in_or_app. right. left. reflexivity.
    + rewrite Hclient. apply String.eqb_refl.
  - unfold getTaskRecordsByFreelancerId, selectTasksByFreelancer. rewrite Hok.
    eexists. split; [reflexivity|].
    apply (Permutation_in _ (orderByCreatedAtDesc_perm _)).
    unfold tasksOfFreelancer. rewrite Htasks. apply filter_In. split.
    + apply in_or_app. right. left. reflexivity.
    + rewrite Hfreelancer. apply String.eqb_refl.
Qed.

(** The rows with a key, in a table that has got one more row. *)
Lemma tasksWithId_app (id : string) (w w' : World) (taskRecord : TaskRecord.t) :
  task_records w' = (task_records w ++ [taskRecord])%list ->
  tasksWithId id w = [] ->
  TaskRecord.id taskRecord = id ->
  tasksWithId id w' = [taskRecord].
Proof.
  intros Htasks Hfresh Hid. unfold tasksWithId in *.
  rewrite Htasks, filter_app, Hfresh. cbn [filter app].
  rewrite Hid, String.eqb_refl. reflexivity.
Qed.

(** X22.  An outcome recorded as completed can be rated by the client who
    recorded it: when the key of the new record is fresh and the store
    answers, updateTaskRating returns the record with the rating. *)
Theorem completed_record_can_be_rated
    (env env' : Env) (w w1 : World) (data : CreateTaskRecordDTO.t)
    (clientId : string) (taskRecord : TaskRecord.t) (rating : UpdateTaskRatingDTO.t) :
  run env (createTaskRecord data clientId) w = (Returned (Some taskRecord), w1) ->
  CreateTaskRecordDTO.completed data = true ->
  tasksWithId (TaskRecord.id taskRecord) w = [] ->
  store_fault env' (store_requests w1) = None ->
  store_fault env' (S (store_requests w1)) = None ->
  exists rated w2,
    run env' (updateTaskRating (TaskRecord.id taskRecord) rating clientId) w1
    = (Returned (Some rated), w2)
    /\ TaskRecord.rating rated = Some (UpdateTaskRatingDTO.rating rating)
    /\ tasksWithId (TaskRecord.id taskRecord) w2 = [rated].
Proof.
  intros Hrun Hcompleted Hfresh Hok Hok2.
  apply createTaskRecord_created_record in Hrun
    as (r & Hsome & Htasks & _ & _ & _ & Hclient & Hdone & Hunrated).
  injection Hsome as <-.
  pose proof (tasksWithId_app _ w w1 taskRecord Htasks Hfresh eq_refl) as Hrow.
  pose proof (updateTaskRating_path env' w1 (TaskRecord.id taskRecord) rating clientId)
    as Hpath.
  destruct (run env' (updateTaskRating (TaskRecord.id taskRecord) rating clientId) w1)
    as [outcome w2].
  inversion Hpath as
      [| | |r Hok' Hrow' Hclient'|r Hok' Hrow' Hclient' Hrating'
       |r Hok' Hrow' Hclient' Hrating' Hcompleted'
       |r updateError Hok' Hrow' Hratable' Hfault|r Hok' Hrow' Hratable' Hok2'];
    subst; try congruence;
    rewrite Hrow in Hrow'; injection Hrow' as <-; try congruence.
  eexists. eexists. split; [reflexivity|]. split; [reflexivity|].
  unfold tasksWithId at 1. cbn [task_records with_task_records].
  rewrite tasksWithId_patchTasks, Hrow. reflexivity.
Qed.

(** X23.  An outcome recorded as not completed cannot be rated: when the key of
    the new record is fresh, every call of updateTaskRating for it throws,
    whoever sends it and whatever the store does, and writes nothing. *)
Theorem incomplete_record_cannot_be_rated
    (env env' : Env) (w w1 : World) (data : CreateTaskRecordDTO.t)
    (clientId clientId' : string) (taskRecord : TaskRecord.t)
    (rating : UpdateTaskRatingDTO.t) :
  run env (createTaskRecord data clientId) w = (Returned (Some taskRecord), w1) ->
  CreateTaskRecordDTO.completed data = false ->
  tasksWithId (TaskRecord.id taskRecord) w = [] ->
  exists e w2,
    run env' (updateTaskRating (TaskRecord.id taskRecord) rating clientId') w1
    = (Thrown e, w2)
    /\ sameTables w1 w2.
Proof.
  intros Hrun Hcompleted Hfresh.
  apply createTaskRecord_created_record in Hrun
    as (r & Hsome & Htasks & _ & _ & _ & _ & Hdone & _).
  injection Hsome as <-.
  pose proof (tasksWithId_app _ w w1 taskRecord Htasks Hfresh eq_refl) as Hrow.
  pose proof (updateTaskRating_path env' w1 (TaskRecord.id taskRecord) rating clientId')
    as Hpath.
  destruct (run env' (updateTaskRating (TaskRecord.id taskRecord) rating clientId') w1)
    as [outcome w2].
  inversion Hpath as
      [| | |r Hok' Hrow'|r Hok' Hrow'
       |r Hok' Hrow' Hclient' Hrating' Hcompleted'
       |r e Hok' Hrow' (Hclient' & Hrating' & Hcompleted')
       |r Hok' Hrow' (Hclient' & Hrating' & Hcompleted')];
    subst;
    try (rewrite Hrow in Hrow'; injection Hrow' as <-; congruence);
    eexists; eexists; (split; [reflexivity|split; reflexivity]).
Qed.

(** X24.  A rating that updateTaskRating has returned is what
    getTaskRecordByProjectId then returns for the project of the record,
    when the project has that one record. *)
Theorem rated_record_is_read_back
    (env env' : Env) (w w1 : World) (recordId : string)
    (data : UpdateTaskRatingDTO.t) (clientId : string) (rated : TaskRecord.t) :
  run env (updateTaskRating recordId data clientId) w = (Returned (Some rated), w1) ->
  length (tasksOfProject (TaskRecord.project_id rated) w) = 1%nat ->
  store_fault env' (store_requests w1) = None ->
  fst (getTaskRecordByProjectId env' (TaskRecord.project_id rated) w1)
  = Returned (Some rated)
  /\ TaskRecord.rating rated = Some (UpdateTaskRatingDTO.rating data).
Proof.
  intros Hrun Hone Hok.
  pose proof (updateTaskRating_path env w recordId data clientId) as Hpath.
  rewrite Hrun in Hpath.
  inversion Hpath as [| | | | | | |old Hok1 Hrow Hratable Hok2]; subst.
  split; [|reflexivity].
  cbn [TaskRecord.apply TaskRecord.project_id] in Hone |- *.
  assert (Hin : In old (tasksOfProject (TaskRecord.project_id old) w)).
  { apply filter_In. split; [|apply String.eqb_refl].
    assert (Hold : In old (tasksWithId recordId w)) by (rewrite Hrow; left; reflexivity).
    apply filter_In in Hold. apply Hold. }
  destruct (tasksOfProject (TaskRecord.project_id old) w) as [|only [|second others]]
    eqn:Hproject; try discriminate Hone.
  destruct Hin as [->|[]].
  assert (Hid : String.eqb (TaskRecord.id old) recordId = true).
  { assert (Hold : In old (tasksWithId recordId w)) by (rewrite Hrow; left; reflexivity).
    apply filter_In in Hold. apply Hold. }
  unfold getTaskRecordByProjectId, selectTaskByProject. rewrite Hok.
  unfold tasksOfProject in *. cbn [task_records with_task_records].
  unfold patchTasks. rewrite filter_map_stable.
  - rewrite Hproject. cbn [map]. rewrite Hid. reflexivity.
  - intros r. destruct (String.eqb (TaskRecord.id r) recordId); reflexivity.
Qed.

(** ** Instances on the sample data *)

Lemma sample_request_passes (env : Env) (completed : bool) :
  store_fault env 0 = None -> store_fault env 1 = None ->
  passesChecks env Sample.world (Sample.request "P1" completed) "C1" Sample.P1.
Proof.
  intros H0 H1. unfold passesChecks.
  change (store_requests Sample.world) with 0%nat. rewrite H0, H1.
  repeat split. intros existing. discriminate.
Qed.

Lemma sample_one_record_per_project : oneRecordPerProject Sample.world.
Proof.
  intros project_id. unfold tasksOfProject.
  cbn [Sample.world task_records filter Sample.T2 Sample.T3 Sample.T4
       TaskRecord.project_id].
  destruct (String.eqb "P2" project_id) eqn:E2;
    destruct (String.eqb "P3" project_id) eqn:E3;
    destruct (String.eqb "P4" project_id) eqn:E4;
    cbn [length]; try lia;
    repeat match goal with
           | H : String.eqb _ _ = true |- _ => apply String.eqb_eq in H
           end; congruence.
Qed.

(** An instance: the duplicate check for P1 loses its connection. *)
Lemma createTaskRecord_failure_writes_nothing_witness :
  fst (run Sample.secondRequestFails (createTaskRecord (Sample.request "P1" true) "C1")
         Sample.world)
  = Thrown (AppError "Database error checking existing records: connection failure" 500)
  /\ sameTables Sample.world
       (snd (run Sample.secondRequestFails
               (createTaskRecord (Sample.request "P1" true) "C1") Sample.world)).
Proof.
  split; [reflexivity|].
  exact (createTaskRecord_failure_writes_nothing
           Sample.secondRequestFails Sample.world _ (Sample.request "P1" true) "C1" _
           eq_refl).
Defined.

(** An instance: the registrar has been called three times for P1; the
    request had passed the checks. *)
Lemma createTaskRecord_registers_only_checked_requests_witness :
  registrar_calls
    (snd (run Sample.registrarDown (createTaskRecord (Sample.request "P1" true) "C1")
            Sample.world))
  = 3%nat
  /\ exists p,
       passesChecks Sample.registrarDown Sample.world (Sample.request "P1" true) "C1" p.
Proof.
  split; [reflexivity|].
  apply createTaskRecord_registers_only_checked_requests.
  vm_compute. discriminate.
Defined.

(** An instance: the registrar throws once, then resolves. *)
Lemma createTaskRecord_stops_at_first_success_witness :
  exists taskRecord w',
    run Sample.registrarFailsOnce (createTaskRecord (Sample.request "P1" true) "C1")
      Sample.world
    = (Returned (Some taskRecord), w')
    /\ TaskRecord.on_chain_tx_hash taskRecord = Some "0xb7"
    /\ TaskRecord.on_chain_task_id taskRecord = Some 42
    /\ registrar_calls w' = 2%nat
    /\ clock w' = 2000.
Proof.
  apply (createTaskRecord_stops_at_first_success
           Sample.registrarFailsOnce Sample.world (Sample.request "P1" true) "C1"
           Sample.P1 1 Sample.chainResult).
  - apply sample_request_passes; reflexivity.
  - reflexivity.
  - lia.
  - intros j Hj. assert (j = 0%nat) as -> by lia.
    exists "ledger busy". reflexivity.
  - reflexivity.
Defined.

(** An instance: the insert for P1 loses its connection after the
    registrar has resolved. *)
Lemma createTaskRecord_insert_failure_witness :
  exists w',
    run Sample.insertFails (createTaskRecord (Sample.request "P1" true) "C1")
      Sample.world
    = (Thrown (AppError "Failed to create task record: connection failure" 500), w')
    /\ sameTables Sample.world w'
    /\ (registrar_calls Sample.world < registrar_calls w')%nat.
Proof.
  apply (createTaskRecord_insert_failure
           Sample.insertFails Sample.world (Sample.request "P1" true) "C1"
           Sample.P1 Sample.connectionLost).
  - apply sample_request_passes; reflexivity.
  - reflexivity.
Defined.

(** An instance: P1 is recorded as not completed and becomes cancelled;
    P2 and P3 are as before. *)
Lemma createTaskRecord_closes_project_witness :
  exists taskRecord,
    run Sample.healthy (createTaskRecord (Sample.request "P1" false) "C1") Sample.world
    = (Returned (Some taskRecord), Sample.afterCancel)
    /\ projectsWithId "P1" Sample.afterCancel
       = [{| Project.id := "P1"; Project.client_id := "C1";
             Project.status := "cancelled"; Project.title := "Logo design";
             Project.updated_at := "2025-01-01T00:00:00.000Z" |}]
    /\ projectsWithId "P2" Sample.afterCancel = [Sample.P2]
    /\ projectsWithId "P3" Sample.afterCancel = [Sample.P3].
Proof.
  destruct (createTaskRecord_closes_project
              Sample.healthy Sample.world (Sample.request "P1" false) "C1" Sample.P1
              (sample_request_passes Sample.healthy false eq_refl eq_refl)
              eq_refl eq_refl)
    as (taskRecord & w' & Hrun & _ & Hclosed & _).
  exists taskRecord.
  assert (Hw' : w' = Sample.afterCancel).
  { change Sample.afterCancel
      with (snd (run Sample.healthy
                   (createTaskRecord (Sample.request "P1" false) "C1") Sample.world)).
    rewrite Hrun. reflexivity. }
  subst w'. split; [exact Hrun|]. split; [exact Hclosed|]. split; reflexivity.
Defined.

(** An instance: the update of P1 loses its connection. *)
Lemma createTaskRecord_swallows_project_update_failure_witness :
  exists taskRecord w' earlier,
    run Sample.projectUpdateFails (createTaskRecord (Sample.request "P1" true) "C1")
      Sample.world
    = (Returned (Some taskRecord), w')
    /\ task_records w' = (task_records Sample.world ++ [taskRecord])%list
    /\ projects w' = projects Sample.world
    /\ issuedSince Sample.world w'
       = (earlier
            ++ [ConsoleError
                  (ProjectUpdateFailed
                     "Failed to update project status: connection failure")])%list.
Proof.
  apply (createTaskRecord_swallows_project_update_failure
           Sample.projectUpdateFails Sample.world (Sample.request "P1" true) "C1"
           Sample.P1 Sample.connectionLost).
  - apply sample_request_passes; reflexivity.
  - reflexivity.
  - reflexivity.
Defined.

(** An instance: the sample store has one record per project at most, and
    so it has after the outcome of P1 has been recorded. *)
Lemma createTaskRecord_keeps_one_record_per_project_witness :
  oneRecordPerProject Sample.world
  /\ oneRecordPerProject Sample.afterCreate.
Proof.
  split; [exact sample_one_record_per_project|].
  apply (createTaskRecord_keeps_one_record_per_project
           Sample.healthy Sample.world (Sample.request "P1" true) "C1").
  - exact sample_one_record_per_project.
  - intros existingError H. discriminate H.
Defined.

(** An instance: after C1 has recorded the outcome of P1, C1 asks again,
    this time with [completed] false. *)
Lemma createTaskRecord_not_twice_witness :
  exists e w2,
    run Sample.healthy (createTaskRecord (Sample.request "P1" false) "C1")
      Sample.afterCreate
    = (Thrown e, w2)
    /\ (e = NotFoundError "Project not found" \/ exists msg, e = ValidationError msg)
    /\ sameTables Sample.afterCreate w2.
Proof.
  eapply createTaskRecord_not_twice
    with (env := Sample.healthy) (w := Sample.world)
         (data := Sample.request "P1" true) (clientId := "C1");
    reflexivity.
Defined.

(** An instance: the store is down when T4 is to be rated. *)
Lemma updateTaskRating_failure_writes_nothing_witness :
  fst (run Sample.storeDown (updateTaskRating "T4" (Sample.rate 4 None) "C1")
         Sample.world)
  = Thrown (AppError "Database error: connection failure" 500)
  /\ sameTables Sample.world
       (snd (run Sample.storeDown (updateTaskRating "T4" (Sample.rate 4 None) "C1")
               Sample.world)).
Proof.
  split; [reflexivity|].
  exact (updateTaskRating_failure_writes_nothing
           Sample.storeDown Sample.world _ "T4" (Sample.rate 4 None) "C1" _ eq_refl).
Defined.

(** An instance: there is no record T9. *)
Lemma updateTaskRating_not_found_witness :
  tasksWithId "T9" Sample.world = []
  /\ exists w',
       run Sample.healthy (updateTaskRating "T9" (Sample.rate 4 None) "C1") Sample.world
       = (Thrown (NotFoundError "Task record not found"), w')
       /\ sameTables Sample.world w'
       /\ issuedSince Sample.world w' = [SelectTaskById "T9"].
Proof.
  split; [reflexivity|].
  apply updateTaskRating_not_found; reflexivity.
Defined.

(** An instance: the lookup of T4 loses its connection. *)
Lemma updateTaskRating_fetch_failure_witness :
  exists w',
    run Sample.storeDown (updateTaskRating "T4" (Sample.rate 4 None) "C1") Sample.world
    = (Thrown (AppError "Database error: connection failure" 500), w')
    /\ sameTables Sample.world w'.
Proof.
  apply (updateTaskRating_fetch_failure
           Sample.storeDown Sample.world "T4" (Sample.rate 4 None) "C1"
           Sample.connectionLost).
  - reflexivity.
  - discriminate.
Defined.

(** An instance: the rating of T4 by C1 returned; T4 was completed, not
    rated, and C1's. *)
Lemma updateTaskRating_returns_only_for_ratable_witness :
  exists taskRecord,
    tasksWithId "T4" Sample.world = [taskRecord]
    /\ TaskRecord.client_id taskRecord = "C1"
    /\ TaskRecord.completed taskRecord = true
    /\ TaskRecord.rating taskRecord = None.
Proof.
  exact (updateTaskRating_returns_only_for_ratable
           Sample.healthy Sample.world Sample.afterRating "T4"
           (Sample.rate 4 (Some "  ok then ")) "C1" _ eq_refl).
Defined.

(** An instance: C1 rates T4 with 4. *)
Lemma updateTaskRating_succeeds_witness :
  exists rated w',
    run Sample.healthy (updateTaskRating "T4" (Sample.rate 4 None) "C1") Sample.world
    = (Returned (Some rated), w')
    /\ tasksWithId "T4" w' = [rated]
    /\ TaskRecord.rating rated = Some 4
    /\ TaskRecord.updated_at rated = "2025-01-01T00:00:00.000Z"
    /\ sameOutsideRating Sample.T4 rated.
Proof.
  apply (updateTaskRating_succeeds
           Sample.healthy Sample.world "T4" (Sample.rate 4 None) "C1" Sample.T4).
  - reflexivity.
  - reflexivity.
  - repeat split.
  - reflexivity.
Defined.

(** An instance: the update of T4 loses its connection. *)
Lemma updateTaskRating_update_failure_witness :
  exists w',
    run Sample.secondRequestFails (updateTaskRating "T4" (Sample.rate 4 None) "C1")
      Sample.world
    = (Thrown (AppError "Failed to update task rating: connection failure" 500), w')
    /\ sameTables Sample.world w'
    /\ tasksWithId "T4" w' = [Sample.T4].
Proof.
  apply (updateTaskRating_update_failure
           Sample.secondRequestFails Sample.world "T4" (Sample.rate 4 None) "C1"
           Sample.T4 Sample.connectionLost).
  - reflexivity.
  - reflexivity.
  - repeat split.
  - reflexivity.
Defined.

(** An instance: T4 has been rated 4; C7 then sends a 1. *)
Lemma rating_is_write_once_witness :
  exists e w2,
    run Sample.healthy (updateTaskRating "T4" (Sample.rate 1 None) "C7")
      Sample.afterRating
    = (Thrown e, w2)
    /\ task_records w2 = task_records Sample.afterRating
    /\ map TaskRecord.rating (tasksWithId "T4" w2) = [Some 4].
Proof.
  exact (rating_is_write_once
           Sample.healthy Sample.healthy Sample.world Sample.afterRating "T4"
           (Sample.rate 4 (Some "  ok then ")) (Sample.rate 1 None) "C1" "C7" _ eq_refl).
Defined.

(** Three instances: P2 has the record T2; P9 has none; the store is
    down. *)
Lemma getTaskRecordByProjectId_outcomes_witness :
  fst (getTaskRecordByProjectId Sample.healthy "P2" Sample.world)
  = Returned (Some Sample.T2)
  /\ fst (getTaskRecordByProjectId Sample.healthy "P9" Sample.world) = Returned None
  /\ fst (getTaskRecordByProjectId Sample.storeDown "P2" Sample.world)
     = Thrown (AppError "Database error: connection failure" 500).
Proof.
  split; [|split].
  - exact (proj1 (getTaskRecordByProjectId_outcomes Sample.healthy Sample.world "P2")
             eq_refl).
  - exact (proj1 (getTaskRecordByProjectId_outcomes Sample.healthy Sample.world "P9")
             eq_refl).
  - exact (proj1 (proj2 (getTaskRecordByProjectId_outcomes
                           Sample.storeDown Sample.world "P2"))
             Sample.connectionLost eq_refl).
Defined.

(** An instance: the four records of C1, the one of March first. *)
Lemma getTaskRecordsByClientId_lists_newest_first_witness :
  exists taskRecords,
    getTaskRecordsByClientId Sample.healthy "C1" Sample.history
    = (Returned (Some taskRecords), asked Sample.history)
    /\ Permutation [Sample.T2; Sample.T3; Sample.T5; Sample.T4] taskRecords
    /\ Sorted (fun a b =>
                 String.leb (TaskRecord.created_at b) (TaskRecord.created_at a) = true)
         taskRecords
    /\ hd_error taskRecords = Some Sample.T5.
Proof.
  destruct (proj1 (getTaskRecordsByClientId_lists_newest_first
                     Sample.healthy Sample.history "C1") eq_refl)
    as (taskRecords & Hrun & Hperm & Hsorted & _).
  exists taskRecords. split; [exact Hrun|]. split; [exact Hperm|].
  split; [exact Hsorted|].
  injection Hrun as <-. reflexivity.
Defined.

(** An instance: the three records of F1, the one of March first. *)
Lemma getTaskRecordsByFreelancerId_lists_newest_first_witness :
  exists taskRecords,
    getTaskRecordsByFreelancerId Sample.healthy "F1" Sample.history
    = (Returned (Some taskRecords), asked Sample.history)
    /\ Permutation [Sample.T2; Sample.T5; Sample.T4] taskRecords
    /\ Sorted (fun a b =>
                 String.leb (TaskRecord.created_at b) (TaskRecord.created_at a) = true)
         taskRecords
    /\ hd_error taskRecords = Some Sample.T5.
Proof.
  destruct (proj1 (getTaskRecordsByFreelancerId_lists_newest_first
                     Sample.healthy Sample.history "F1") eq_refl)
    as (taskRecords & Hrun & Hperm & Hsorted & _).
  exists taskRecords. split; [exact Hrun|]. split; [exact Hperm|].
  split; [exact Hsorted|].
  injection Hrun as <-. reflexivity.
Defined.

(** An instance: the record of P1 that C1 has created. *)
Lemma created_record_is_read_back_witness :
  exists taskRecord,
    run Sample.healthy (createTaskRecord (Sample.request "P1" true) "C1") Sample.world
    = (Returned (Some taskRecord), Sample.afterCreate)
    /\ fst (getTaskRecordByProjectId Sample.healthy "P1" Sample.afterCreate)
       = Returned (Some taskRecord)
    /\ (exists taskRecords,
          fst (getTaskRecordsByClientId Sample.healthy "C1" Sample.afterCreate)
          = Returned (Some taskRecords)
          /\ In taskRecord taskRecords)
    /\ (exists taskRecords,
          fst (getTaskRecordsByFreelancerId Sample.healthy "F1" Sample.afterCreate)
          = Returned (Some taskRecords)
          /\ In taskRecord taskRecords).
Proof.
  eexists. split; [reflexivity|].
  destruct (created_record_is_read_back
              Sample.healthy Sample.healthy Sample.world Sample.afterCreate
              (Sample.request "P1" true) "C1" _ eq_refl eq_refl)
    as (Hproject & Hclient & Hfreelancer).
  split; [exact (Hproject eq_refl)|]. split; [exact Hclient|exact Hfreelancer].
Defined.

(** An instance: C1 rates the record of P1 that C1 has created. *)
Lemma completed_record_can_be_rated_witness :
  exists rated w2,
    run Sample.healthy (updateTaskRating "N3" (Sample.rate 5 None) "C1")
      Sample.afterCreate
    = (Returned (Some rated), w2)
    /\ TaskRecord.rating rated = Some 5
    /\ tasksWithId "N3" w2 = [rated].
Proof.
  exact (completed_record_can_be_rated
           Sample.healthy Sample.healthy Sample.world Sample.afterCreate
           (Sample.request "P1" true) "C1" _ (Sample.rate 5 None)
           eq_refl eq_refl eq_refl eq_refl eq_refl).
Defined.

(** An instance: C1 has recorded P1 as not completed and tries to rate the
    record. *)
Lemma incomplete_record_cannot_be_rated_witness :
  exists e w2,
    run Sample.healthy (updateTaskRating "N3" (Sample.rate 5 None) "C1")
      Sample.afterCancel
    = (Thrown e, w2)
    /\ sameTables Sample.afterCancel w2.
Proof.
  exact (incomplete_record_cannot_be_rated
           Sample.healthy Sample.healthy Sample.world Sample.afterCancel
           (Sample.request "P1" false) "C1" "C1" _ (Sample.rate 5 None)
           eq_refl eq_refl eq_refl).
Defined.

(** An instance: T4, the one record of P4, has been rated 4. *)
Lemma rated_record_is_read_back_witness :
  exists rated,
    run Sample.healthy (updateTaskRating "T4" (Sample.rate 4 (Some "  ok then ")) "C1")
      Sample.world
    = (Returned (Some rated), Sample.afterRating)
    /\ fst (getTaskRecordByProjectId Sample.healthy "P4" Sample.afterRating)
       = Returned (Some rated)
    /\ TaskRecord.rating rated = Some 4.
Proof.
  eexists. split; [reflexivity|].
  exact (rated_record_is_read_back
           Sample.healthy Sample.healthy Sample.world Sample.afterRating "T4"
           (Sample.rate 4 (Some "  ok then ")) "C1" _ eq_refl eq_refl eq_refl).
Defined.
